(** * Workflow templates: archive decoding, instance reconciliation, bulk jobs

    A shallow embedding of [engine/api/templates.go] (package [api] of CDS):
    - [Archive]    : [ReadFromTar], the decoder of a template archive;
    - [Reconciler] : [applyTemplate], the transactional create-or-update of a
                     workflow-template instance;
    - [Bulk]       : [postTemplateBulkHandler] and [getTemplateBulkHandler],
                     the pre-flight check, the background loop and the read
                     back of a bulk job.

    Go values are modelled as follows: [string] is [String.string], [[]byte]
    is [list Byte.byte], [int64] is [Z], a slice is a [list], the
    [map[string]struct{}] of the pre-flight check is a [gset string], a Go
    [error] coming from a collaborator that is not part of the file is its
    message (a [string]).  Functions of other packages ([yaml], [tar],
    [workflowtemplate], [project], [workflow], [sdk]) are Section variables. *)

From Stdlib Require Import List String Ascii Strings.Byte ZArith Lia Bool.
From Stdlib Require Import Sorting.Permutation Sorting.Sorted.
From stdpp Require Import base gmap strings list pretty.
Import ListNotations.

Local Open Scope string_scope.
Local Open Scope list_scope.

(** ** Go library functions used by the file *)

(** [strings.Contains(s, substr)]. *)
Fixpoint Contains (s substr : string) : bool :=
  if String.prefix substr s then true
  else match s with
       | EmptyString => false
       | String _ s' => Contains s' substr
       end.

(** [[]byte(s)] for the literals of the examples. *)
Definition bytes_of (s : string) : list byte := list_byte_of_string s.

(** ** Data model ([sdk] and [exportentities])

    The structs of the packages [sdk] and [exportentities] are not part of
    the file; they are given here with the fields [templates.go] reads or
    writes.  A field name shared by two structs is prefixed in all but one. *)

(** [sdk.WorkflowTemplateRequest]. *)
Record WorkflowTemplateRequest : Type := {
  ProjectKey : string;
  WorkflowName : string;
  Parameters : list (string * string);
  Detached : bool
}.

(** [sdk.WorkflowTemplateInstance]; [InstanceWorkflowName] is its field
    [WorkflowName]. *)
Record WorkflowTemplateInstance : Type := {
  ID : Z;
  WorkflowTemplateID : Z;
  ProjectID : Z;
  WorkflowTemplateVersion : Z;
  Request : WorkflowTemplateRequest;
  InstanceWorkflowName : string
}.

(** [sdk.WorkflowTemplate]; [GroupName] is [wt.Group.Name]. *)
Record WorkflowTemplate : Type := {
  wt_ID : Z;
  GroupName : string;
  Slug : string;
  Version : Z
}.

(** [sdk.Project]. *)
Record Project : Type := {
  p_ID : Z;
  Key : string
}.

(** The user of a call: [u.OldUserStruct.ID] or [u.ID], and [u.Admin]. *)
Record AuthentifiedUser : Type := {
  u_ID : Z;
  Admin : bool
}.

(** [sdk.WorkflowTemplateResult]. *)
Record WorkflowTemplateResult : Type := {
  Workflow : string;
  Pipelines : list string;
  Applications : list string;
  Environments : list string
}.

(** [exportentities.Workflow]: the two fields [applyTemplate] uses and the
    rest of the document. *)
Record ExportedWorkflow : Type := {
  Name : string;
  Template : option string;
  Body : string
}.

(** [sdk.OperationStatus*]. *)
Inductive OperationStatus : Type :=
| OperationStatusPending
| OperationStatusProcessing
| OperationStatusDone
| OperationStatusError.

(** [sdk.WorkflowTemplateBulkOperation]; [OpRequest] is its field
    [Request]. *)
Record WorkflowTemplateBulkOperation : Type := {
  Status : OperationStatus;
  Error : string;
  OpRequest : WorkflowTemplateRequest
}.

(** [sdk.WorkflowTemplateBulk]. *)
Record WorkflowTemplateBulk : Type := {
  bulk_ID : Z;
  UserID : Z;
  bulk_WorkflowTemplateID : Z;
  Operations : list WorkflowTemplateBulkOperation
}.

(** Errors.  [Opaque] is an error returned by another package. *)
Inductive ErrorID : Type :=
| ErrWrongRequest
| ErrNotFound
| ErrForbidden.

Inductive error : Type :=
| Opaque (msg : string)
| Err (id : ErrorID)
    (* sdk.ErrNotFound, sdk.WithStack(sdk.ErrNotFound), ... *)
| WrapError (cause : error) (msg : string)
    (* sdk.WrapError(err, msg) *)
| NewError (id : ErrorID) (message : string) (cause : error)
    (* sdk.NewError(sdk.Error{ID: id, Message: message}, cause) *)
| NewErrorFrom (id : ErrorID) (message : string).
    (* sdk.NewErrorFrom(id, message) *)

(** Events of the package [event]. *)
Inductive published : Type :=
| WorkflowTemplateInstanceUpdate
    (old new : WorkflowTemplateInstance) (u : AuthentifiedUser)
| WorkflowTemplateInstanceAdd
    (wti : WorkflowTemplateInstance) (u : AuthentifiedUser).

(** * Archive decoding *)
Module Archive.

(** Causes appended to the [sdk.MultiError] of [ReadFromTar]. *)
Inductive scan_error : Type :=
| TwoWorkflowFiles
    (* fmt.Errorf("Two workflow files found") *)
| TwoTemplateFiles (found : string) (name : string)
    (* fmt.Errorf("Two template files found: %s and %s", templateFileName, hdr.Name) *)
| UnmarshalTemplate (name : string) (cause : string).
    (* sdk.WrapError(err, "Unable to unmarshal template %s", hdr.Name) *)

(** The text of the causes built with [fmt.Errorf]; the text of a wrapped
    error belongs to [sdk] and is kept structured. *)
Definition Errorf (e : scan_error) : option string :=
  match e with
  | TwoWorkflowFiles => Some "Two workflow files found"
  | TwoTemplateFiles found name =>
      Some ("Two template files found: " +:+ found +:+ " and " +:+ name)
  | UnmarshalTemplate _ _ => None
  end.

(** File names a cause carries. *)
Definition files_named (e : scan_error) : list string :=
  match e with
  | TwoWorkflowFiles => []
  | TwoTemplateFiles found name => [found; name]
  | UnmarshalTemplate name _ => [name]
  end.

(** The errors [ReadFromTar] returns. *)
Inductive decode_error : Type :=
| UnableToReadTar (cause : string)
    (* sdk.NewError(sdk.ErrWrongRequest, sdk.WrapError(err, "Unable to read tar file")) *)
| WorkflowInvalid (mError : list scan_error).
    (* sdk.NewError(sdk.ErrWorkflowInvalid, mError) *)

(** One turn of the loop over a [*tar.Reader]: what [tr.Next()] and
    [io.Copy(buff, tr)] give.  The end of the list is [io.EOF]. *)
Inductive tar_step : Type :=
| Entry (name : string) (b : list byte)
| NextError (err : string)
| CopyError (name : string) (err : string).

Section Decoder.

(** [exportentities.Template], its zero value, and [sdk.WorkflowTemplate]. *)
Variable Template : Type.
Variable zero_Template : Template.
Variable WorkflowTemplate : Type.

(** [yaml.Unmarshal(b, &tmpl)]: the descriptor after the call (a failing
    call may have filled part of it) and the error, if any. *)
Variable yaml_Unmarshal : list byte -> Template -> Template * option string.

(** [tmpl.GetTemplate(wkf, pips, apps, envs)]. *)
Variable GetTemplate :
  Template -> list byte -> list (list byte) -> list (list byte) ->
  list (list byte) -> WorkflowTemplate.

(** The local variables of [ReadFromTar]. *)
Record scan : Type := Scan {
  apps : list (list byte);
  pips : list (list byte);
  envs : list (list byte);
  wkf : list byte;
  tmpl : Template;
  mError : list scan_error;
  templateFileName : string
}.

Definition scan_init : scan :=
  Scan [] [] [] [] zero_Template [] "".

Definition Append (e : scan_error) (s : scan) : scan :=
  Scan (apps s) (pips s) (envs s) (wkf s) (tmpl s) (mError s ++ [e])
       (templateFileName s).

(** The [switch] on [hdr.Name].  Both [break] (which leaves the [switch])
    and [continue] go on with the next entry. *)
Definition read_entry (name : string) (b : list byte) (s : scan) : scan :=
  if Contains name ".application." then
    Scan (apps s ++ [b]) (pips s) (envs s) (wkf s) (tmpl s) (mError s)
         (templateFileName s)
  else if Contains name ".pipeline." then
    Scan (apps s) (pips s ++ [b]) (envs s) (wkf s) (tmpl s) (mError s)
         (templateFileName s)
  else if Contains name ".environment." then
    Scan (apps s) (pips s) (envs s ++ [b]) (wkf s) (tmpl s) (mError s)
         (templateFileName s)
  else if String.eqb name "workflow.yml" then
    if negb (Nat.eqb (length (wkf s)) 0) then Append TwoWorkflowFiles s
    else
      Scan (apps s) (pips s) (envs s) b (tmpl s) (mError s)
           (templateFileName s)
  else
    if negb (String.eqb (templateFileName s) "") then
      Append (TwoTemplateFiles (templateFileName s) name) s
    else
      match yaml_Unmarshal b (tmpl s) with
      | (t, Some err) =>
          Scan (apps s) (pips s) (envs s) (wkf s) t
               (mError s ++ [UnmarshalTemplate name err])
               (templateFileName s)
      | (t, None) =>
          Scan (apps s) (pips s) (envs s) (wkf s) t (mError s) name
      end.

(** The [for] loop: a read error returns at once, [io.EOF] leaves the
    loop. *)
Fixpoint scan_tar (tr : list tar_step) (s : scan) : decode_error + scan :=
  match tr with
  | [] => inr s
  | NextError err :: _ => inl (UnableToReadTar err)
  | CopyError _ err :: _ => inl (UnableToReadTar err)
  | Entry name b :: tr' => scan_tar tr' (read_entry name b s)
  end.

Definition ReadFromTar (tr : list tar_step)
  : decode_error + WorkflowTemplate :=
  match scan_tar tr scan_init with
  | inl e => inl e
  | inr s =>
      match mError s with
      | [] => inr (GetTemplate (tmpl s) (wkf s) (pips s) (apps s) (envs s))
      | _ :: _ => inl (WorkflowInvalid (mError s))
      end
  end.

(** The scan of an archive all of whose reads succeed. *)
Definition entries (es : list (string * list byte)) : list tar_step :=
  map (fun e => Entry (fst e) (snd e)) es.

Definition read_all (es : list (string * list byte)) (s : scan) : scan :=
  fold_left (fun s e => read_entry (fst e) (snd e) s) es s.

(** The kind of an entry name, as the [switch] decides it. *)
Definition is_application (name : string) : bool :=
  Contains name ".application.".
Definition is_pipeline (name : string) : bool :=
  negb (Contains name ".application.") && Contains name ".pipeline.".
Definition is_environment (name : string) : bool :=
  negb (Contains name ".application.") && negb (Contains name ".pipeline.")
  && Contains name ".environment.".
Definition is_workflow (name : string) : bool :=
  negb (Contains name ".application.") && negb (Contains name ".pipeline.")
  && negb (Contains name ".environment.") && String.eqb name "workflow.yml".
Definition is_descriptor (name : string) : bool :=
  negb (Contains name ".application.") && negb (Contains name ".pipeline.")
  && negb (Contains name ".environment.")
  && negb (String.eqb name "workflow.yml").

Definition blobs (kind : string -> bool) (es : list (string * list byte))
  : list (list byte) :=
  map snd (List.filter (fun e => kind (fst e)) es).

(** The value [ReadFromTar] returns after a scan that ended in [s]. *)
Definition assemble (s : scan) : decode_error + WorkflowTemplate :=
  match mError s with
  | [] => inr (GetTemplate (tmpl s) (wkf s) (pips s) (apps s) (envs s))
  | _ :: _ => inl (WorkflowInvalid (mError s))
  end.

(** The scan after a descriptor that fails to parse. *)
Definition record (n : string) (e : string) (t : Template) (s : scan)
  : scan :=
  Scan (apps s) (pips s) (envs s) (wkf s) t
       (mError s ++ [UnmarshalTemplate n e]) (templateFileName s).

End Decoder.

End Archive.

(** * Instance reconciliation *)
Module Reconciler.

(** ** The instance table

    Modelled from the spec: the package [workflowtemplate] (the "Template &
    Instance Store", which "exposes atomic load/insert/update/delete and
    transactional semantics") is not part of the file.  The table is the list
    of its rows; a transaction works on a copy that [Commit] installs and
    [Rollback] drops.  An update or a deletion that finds no row changes
    nothing; a store that reports it as an error is one of the failures
    [db_error] stands for. *)
Definition table : Type := list WorkflowTemplateInstance.

(** "Look up all instances for (template, project, requested workflow
    name)". *)
Definition GetInstancesByTemplateIDAndProjectIDAndRequestWorkflowName
  (tx : table) (templateID projectID : Z) (workflowName : string) : table :=
  List.filter (fun r =>
            Z.eqb (WorkflowTemplateID r) templateID
            && Z.eqb (ProjectID r) projectID
            && String.eqb (WorkflowName (Request r)) workflowName) tx.

(** Deletes the row that has the identifier of [wti]; nothing when there is
    none. *)
Definition DeleteInstance (tx : table) (wti : WorkflowTemplateInstance)
  : table :=
  List.filter (fun r => negb (Z.eqb (ID r) (ID wti))) tx.

(** Overwrites the row that has the identifier of [wti]; nothing when there
    is none. *)
Definition UpdateInstance (tx : table) (wti : WorkflowTemplateInstance)
  : table :=
  map (fun r => if Z.eqb (ID r) (ID wti) then wti else r) tx.

(** The identifier the table gives to a new row. *)
Definition next_ID (tx : table) : Z :=
  (1 + fold_right Z.max 0 (map ID tx))%Z.

Definition with_ID (id : Z) (wti : WorkflowTemplateInstance)
  : WorkflowTemplateInstance :=
  {| ID := id;
     WorkflowTemplateID := WorkflowTemplateID wti;
     ProjectID := ProjectID wti;
     WorkflowTemplateVersion := WorkflowTemplateVersion wti;
     Request := Request wti;
     InstanceWorkflowName := InstanceWorkflowName wti |}.

(** Adds the row and sets its identifier in [wti]. *)
Definition InsertInstance (tx : table) (wti : WorkflowTemplateInstance)
  : table * WorkflowTemplateInstance :=
  let wti' := with_ID (next_ID tx) wti in
  (tx ++ [wti'], wti').

(** The calls of [applyTemplate] that can fail in the database. *)
Inductive db_call : Type :=
| Begin
| GetInstances
| DeleteOther (id : Z)
| DeleteDetached
| UpdateCandidate
| InsertNew
| UpdateName
| Commit.

(** ** Vocabulary of the properties *)

(** [t'] is [t] without some rows whose identifiers are in [ids]: no row is
    added and no row is changed. *)
Definition deletes_only (ids : list Z) (t t' : table) : Prop :=
  exists keep, t' = List.filter keep t
               /\ forall r, ~ In (ID r) ids -> keep r = true.

(** The rows of the key (template, project, requested workflow name). *)
Definition of_key (wt : WorkflowTemplate) (p : Project)
  (req : WorkflowTemplateRequest) (t : table) : table :=
  GetInstancesByTemplateIDAndProjectIDAndRequestWorkflowName
    t (wt_ID wt) (p_ID p) (WorkflowName req).

(** ** Local variables *)

(** [wti] before the candidate is settled: [nil], or the address of the
    variable [res] of the [range] loop.  The repository is built with a Go
    older than 1.22, where a [range] loop has one variable [res] for all its
    iterations: [&res] is the same address at each of them. *)
Inductive pointer : Type :=
| nil
| addr_res.

Definition zero_Request : WorkflowTemplateRequest :=
  {| ProjectKey := ""; WorkflowName := ""; Parameters := []; Detached := false |}.

Definition zero_Instance : WorkflowTemplateInstance :=
  {| ID := 0%Z; WorkflowTemplateID := 0%Z; ProjectID := 0%Z;
     WorkflowTemplateVersion := 0%Z; Request := zero_Request;
     InstanceWorkflowName := "" |}.

Definition zero_Result : WorkflowTemplateResult :=
  {| Workflow := ""; Pipelines := []; Applications := []; Environments := [] |}.

(** The instance [applyTemplate] builds when there is no candidate. *)
Definition new_Instance (p : Project) (wt : WorkflowTemplate)
  (req : WorkflowTemplateRequest) : WorkflowTemplateInstance :=
  {| ID := 0%Z;
     WorkflowTemplateID := wt_ID wt;
     ProjectID := p_ID p;
     WorkflowTemplateVersion := Version wt;
     Request := req;
     InstanceWorkflowName := "" |}.

(** [*wti]. *)
Definition deref (wti : pointer) (res : WorkflowTemplateInstance)
  : option WorkflowTemplateInstance :=
  match wti with
  | nil => None
  | addr_res => Some res
  end.

(** The transaction and the variable [result]. *)
Record locals : Type := Locals {
  tx : table;
  result : WorkflowTemplateResult
}.

(** What a call of [applyTemplate] leaves: the table, the events published,
    and the two values returned. *)
Record outcome : Type := Outcome {
  instances : table;
  events : list published;
  returned : WorkflowTemplateResult;
  err : option error
}.

(** Statements that may return an error: the locals after the statement, and
    the error or the value. *)
Definition M (A : Type) : Type := locals -> locals * (error + A).

Definition ret {A} (a : A) : M A := fun l => (l, inr a).

Definition fail {A} (e : error) : M A := fun l => (l, inl e).

Definition bind {A B} (m : M A) (k : A -> M B) : M B :=
  fun l =>
    match m l with
    | (l', inl e) => (l', inl e)
    | (l', inr a) => k a l'
    end.

Notation "x <- m ;; k" := (bind m (fun x => k))
  (at level 100, m at next level, right associativity).
Notation "m ;;; k" := (bind m (fun _ => k))
  (at level 100, right associativity).

Section Apply.

(** Which database call fails, with which error. *)
Variable db_error : db_call -> option string.

(** [workflowtemplate.Execute(wt, wti)]: the result and the error, if
    any. *)
Variable Execute :
  WorkflowTemplate -> WorkflowTemplateInstance ->
  WorkflowTemplateResult * option string.

(** [yaml.Unmarshal([]byte(s), &wor)] and [yaml.Marshal(wor)]. *)
Variable yaml_Unmarshal : string -> string + ExportedWorkflow.
Variable yaml_Marshal : ExportedWorkflow -> string + string.

(** [time.Now().Unix()]. *)
Variable now : Z.

(** A database call on the transaction. *)
Definition exec (c : db_call) (f : table -> table) : M unit :=
  fun l =>
    match db_error c with
    | Some e => (l, inl (Opaque e))
    | None => (Locals (f (tx l)) (result l), inr tt)
    end.

Definition query {A} (c : db_call) (f : table -> A) : M A :=
  fun l =>
    match db_error c with
    | Some e => (l, inl (Opaque e))
    | None => (l, inr (f (tx l)))
    end.

Definition insert (wti : WorkflowTemplateInstance)
  : M WorkflowTemplateInstance :=
  fun l =>
    match db_error InsertNew with
    | Some e => (l, inl (Opaque e))
    | None =>
        let '(t, wti') := InsertInstance (tx l) wti in
        (Locals t (result l), inr wti')
    end.

Definition set_result (r : WorkflowTemplateResult) : M unit :=
  fun l => (Locals (tx l) r, inr tt).

Definition get_result : M WorkflowTemplateResult :=
  fun l => (l, inr (result l)).

(** [for _, res := range wtis]: each iteration first stores its element in
    [res]. *)
Fixpoint range_wtis (wtis : list WorkflowTemplateInstance)
  (wti : pointer) (res : WorkflowTemplateInstance)
  : M (pointer * WorkflowTemplateInstance) :=
  match wtis with
  | [] => ret (wti, res)
  | x :: rest =>
      let res := x in
      match wti with
      | nil => range_wtis rest addr_res res
      | addr_res =>
          exec (DeleteOther (ID res)) (fun t => DeleteInstance t res) ;;;
          range_wtis rest wti res
      end
  end.

Definition set_Request (version : Z) (req : WorkflowTemplateRequest)
  (wti : WorkflowTemplateInstance) : WorkflowTemplateInstance :=
  {| ID := ID wti;
     WorkflowTemplateID := WorkflowTemplateID wti;
     ProjectID := ProjectID wti;
     WorkflowTemplateVersion := version;
     Request := req;
     InstanceWorkflowName := InstanceWorkflowName wti |}.

Definition set_WorkflowName (name : string) (wti : WorkflowTemplateInstance)
  : WorkflowTemplateInstance :=
  {| ID := ID wti;
     WorkflowTemplateID := WorkflowTemplateID wti;
     ProjectID := ProjectID wti;
     WorkflowTemplateVersion := WorkflowTemplateVersion wti;
     Request := Request wti;
     InstanceWorkflowName := name |}.

Definition set_Template (path : string) (wor : ExportedWorkflow)
  : ExportedWorkflow :=
  {| Name := Name wor; Template := Some path; Body := Body wor |}.

Definition set_Workflow (w : string) (r : WorkflowTemplateResult)
  : WorkflowTemplateResult :=
  {| Workflow := w; Pipelines := Pipelines r;
     Applications := Applications r; Environments := Environments r |}.

(** The statements from the lookup to the update or the creation of the
    instance: they give [old] and [*wti]. *)
Definition settle (p : Project) (wt : WorkflowTemplate)
  (req : WorkflowTemplateRequest)
  : M (option WorkflowTemplateInstance * WorkflowTemplateInstance) :=
  wtis <- query GetInstances (fun t =>
    GetInstancesByTemplateIDAndProjectIDAndRequestWorkflowName
      t (wt_ID wt) (p_ID p) (WorkflowName req)) ;;
  found <- range_wtis wtis nil zero_Instance ;;
  let wti := deref (fst found) (snd found) in
  (* if the request is for a detached workflow and there is an existing
     instance, remove it *)
  wti <- match wti with
         | Some i =>
             if Detached req then
               exec DeleteDetached (fun t => DeleteInstance t i) ;;;
               ret None
             else ret (Some i)
         | None => ret None
         end ;;
  (* if a previous instance exist for the same workflow update it, else
     create a new one *)
  match wti with
  | Some i =>
      let old := i in
      let i := set_Request (Version wt) req i in
      exec UpdateCandidate (fun t => UpdateInstance t i) ;;;
      ret (Some old, i)
  | None =>
      let i := {| ID := 0%Z;
                  WorkflowTemplateID := wt_ID wt;
                  ProjectID := p_ID p;
                  WorkflowTemplateVersion := Version wt;
                  Request := req;
                  InstanceWorkflowName := "" |} in
      (* only store the new instance if request is not for a detached
         workflow *)
      if negb (Detached req) then
        i <- insert i ;; ret (None, i)
      else
        (* if is a detached apply set an id based on time *)
        ret (None, with_ID now i)
  end.

(** The statements from the execution of the template to [Commit]. *)
Definition generate (wt : WorkflowTemplate) (req : WorkflowTemplateRequest)
  (old : option WorkflowTemplateInstance) (wti : WorkflowTemplateInstance)
  : M (option WorkflowTemplateInstance * WorkflowTemplateInstance) :=
  (* execute template with request *)
  set_result (fst (Execute wt wti)) ;;;
  match snd (Execute wt wti) with
  | Some e => fail (Opaque e)
  | None =>
      (* parse the generated workflow to find its name an update it in
         instance if not detached *)
      if negb (Detached req) then
        r <- get_result ;;
        match yaml_Unmarshal (Workflow r) with
        | inl e =>
            fail (NewError ErrWrongRequest
                    "Cannot parse generated workflow" (Opaque e))
        | inr wor =>
            let wti := set_WorkflowName (Name wor) wti in
            exec UpdateName (fun t => UpdateInstance t wti) ;;;
            let templatePath := GroupName wt +:+ "/" +:+ Slug wt in
            let wor := set_Template templatePath wor in
            match yaml_Marshal wor with
            | inl e =>
                fail (NewError ErrWrongRequest
                        "Cannot add template info to generated workflow"
                        (Opaque e))
            | inr b => set_result (set_Workflow b r) ;;; ret (old, wti)
            end
        end
      else ret (old, wti)
  end.

(** The statements between [Begin] and [Commit]. *)
Definition reconcile (p : Project) (wt : WorkflowTemplate)
  (req : WorkflowTemplateRequest)
  : M (option WorkflowTemplateInstance * WorkflowTemplateInstance) :=
  ow <- settle p wt req ;;
  generate wt req (fst ow) (snd ow).

(** [applyTemplate]: [db] is the table before the call. *)
Definition applyTemplate (db : table) (u : AuthentifiedUser) (p : Project)
  (wt : WorkflowTemplate) (req : WorkflowTemplateRequest) : outcome :=
  match db_error Begin with
  | Some e =>
      Outcome db [] zero_Result
              (Some (WrapError (Opaque e) "cannot start transaction"))
  | None =>
      match reconcile p wt req (Locals db zero_Result) with
      | (l, inl e) =>
          (* the deferred [tx.Rollback()] *)
          Outcome db [] (result l) (Some e)
      | (l, inr (old, wti)) =>
          match db_error Commit with
          | Some e =>
              Outcome db [] (result l)
                      (Some (WrapError (Opaque e) "cannot commit transaction"))
          | None =>
              let published :=
                match old with
                | Some o => [WorkflowTemplateInstanceUpdate o wti u]
                | None =>
                    if negb (Detached req)
                    then [WorkflowTemplateInstanceAdd wti u]
                    else []
                end in
              Outcome (tx l) published (result l) None
          end
      end
  end.

End Apply.

(** Unfolds the statements. *)
Ltac run :=
  unfold bind, ret, fail, exec, query, insert, set_result, get_result in *;
  simpl in *.

End Reconciler.

(** * Bulk jobs *)
Module Bulk.

(** ** The bulk table

    Modelled from the spec: [workflowtemplate.InsertBulk], [UpdateBulk] and
    [GetBulkByIDAndTemplateID] are not part of the file ("durable records for
    templates, their instances, and bulk jobs"; "the Job is persisted as a
    unit").  A row holds the whole job with its operations. *)
Definition bulk_table : Type := list WorkflowTemplateBulk.

Definition with_bulk_ID (id : Z) (b : WorkflowTemplateBulk)
  : WorkflowTemplateBulk :=
  {| bulk_ID := id; UserID := UserID b;
     bulk_WorkflowTemplateID := bulk_WorkflowTemplateID b;
     Operations := Operations b |}.

Definition next_bulk_ID (db : bulk_table) : Z :=
  (1 + fold_right Z.max 0 (map bulk_ID db))%Z.

Definition InsertBulk (db : bulk_table) (b : WorkflowTemplateBulk)
  : bulk_table * WorkflowTemplateBulk :=
  let b' := with_bulk_ID (next_bulk_ID db) b in
  (db ++ [b'], b').

Definition UpdateBulk (db : bulk_table) (b : WorkflowTemplateBulk)
  : bulk_table :=
  map (fun r => if Z.eqb (bulk_ID r) (bulk_ID b) then b else r) db.

Definition GetBulkByIDAndTemplateID (db : bulk_table) (id templateID : Z)
  : option WorkflowTemplateBulk :=
  find (fun r => Z.eqb (bulk_ID r) id
                 && Z.eqb (bulk_WorkflowTemplateID r) templateID) db.

(** ** [postTemplateBulkHandler]: the request *)

(** [fmt.Sprintf("%s-%s", o.Request.ProjectKey, o.Request.WorkflowName)]. *)
Definition key (o : WorkflowTemplateBulkOperation) : string :=
  ProjectKey (OpRequest o) +:+ "-" +:+ WorkflowName (OpRequest o).

Definition not_unique : error :=
  NewErrorFrom ErrWrongRequest
    "request should be unique for a given project key and workflow name".

Definition write_required : error :=
  NewErrorFrom ErrForbidden
    "write permission on project required to import generated workflow.".

(** What the handler leaves: the bulk table, the reply, and the job the
    goroutine [api.templateBulkApply] is started on, if it is started. *)
Record handled : Type := Handled {
  stored : bulk_table;
  reply : error + WorkflowTemplateBulk;
  started : option WorkflowTemplateBulk
}.

Section Post.

(** [group.LoadGroup] (the identifier of the group) and
    [workflowtemplate.LoadBySlugAndGroupID]. *)
Variable LoadGroup : string -> error + Z.
Variable LoadBySlugAndGroupID : string -> Z -> error + option WorkflowTemplate.

(** [wt.CheckParams(req)]. *)
Variable CheckParams :
  WorkflowTemplate -> WorkflowTemplateRequest -> option error.

(** [api.checkProjectPermissions(ctx, key, PermissionReadWriteExecute, nil)]
    for the user of the call. *)
Variable checkProjectPermissions : string -> option error.

(** The error of [workflowtemplate.InsertBulk], if it fails. *)
Variable InsertBulk_error : option error.

(** "check all requests": [m] is the set of the keys seen. *)
Fixpoint check_requests (wt : WorkflowTemplate)
  (ops : list WorkflowTemplateBulkOperation) (m : gset string)
  : option error :=
  match ops with
  | [] => None
  | o :: ops' =>
      if decide (key o ∈ m) then Some not_unique
      else
        match CheckParams wt (OpRequest o) with
        | Some e => Some e
        | None => check_requests wt ops' ({[key o]} ∪ m)
        end
  end.

(** "non admin user should have read/write access to all given project". *)
Fixpoint check_permissions (ops : list WorkflowTemplateBulkOperation)
  : option error :=
  match ops with
  | [] => None
  | o :: ops' =>
      match checkProjectPermissions (ProjectKey (OpRequest o)) with
      | Some _ => Some write_required
      | None => check_permissions ops'
      end
  end.

(** "store the bulk request". *)
Definition new_bulk (u : AuthentifiedUser) (wt : WorkflowTemplate)
  (req : WorkflowTemplateBulk) : WorkflowTemplateBulk :=
  {| bulk_ID := 0%Z;
     UserID := u_ID u;
     bulk_WorkflowTemplateID := wt_ID wt;
     Operations :=
       map (fun o => {| Status := OperationStatusPending;
                        Error := "";
                        OpRequest := OpRequest o |})
           (Operations req) |}.

(** [postTemplateBulkHandler] up to the start of the goroutine; [body] is
    what [service.UnmarshalBody(r, &req)] gives. *)
Definition postTemplateBulkHandler (db : bulk_table) (u : AuthentifiedUser)
  (groupName templateSlug : string) (body : error + WorkflowTemplateBulk)
  : handled :=
  match LoadGroup groupName with
  | inl e => Handled db (inl e) None
  | inr g =>
  match LoadBySlugAndGroupID templateSlug g with
  | inl e => Handled db (inl e) None
  | inr None => Handled db (inl (Err ErrNotFound)) None
  | inr (Some wt) =>
  match body with
  | inl e => Handled db (inl e) None
  | inr req =>
  match check_requests wt (Operations req) ∅ with
  | Some e => Handled db (inl e) None
  | None =>
  match (if Admin u then None else check_permissions (Operations req)) with
  | Some e => Handled db (inl e) None
  | None =>
  match InsertBulk_error with
  | Some e => Handled db (inl e) None
  | None =>
      let '(db', bulk) := InsertBulk db (new_bulk u wt req) in
      Handled db' (inr bulk) (Some bulk)
  end end end end end end.

End Post.

(** ** [postTemplateBulkHandler]: the goroutine *)

(** The state the goroutine works on: its variable [bulk], the two tables,
    the events published, the states of the job stored by [UpdateBulk] (the
    latest last) and the number of calls of [UpdateBulk]. *)
Record task : Type := Task {
  bulk : WorkflowTemplateBulk;
  bulks : bulk_table;
  instances : Reconciler.table;
  events : list published;
  persisted : list WorkflowTemplateBulk;
  calls : nat
}.

Definition with_bulk (b : WorkflowTemplateBulk) (t : task) : task :=
  Task b (bulks t) (instances t) (events t) (persisted t) (calls t).

Definition set_Operations (f : WorkflowTemplateBulkOperation ->
                               WorkflowTemplateBulkOperation)
  (i : nat) (b : WorkflowTemplateBulk) : WorkflowTemplateBulk :=
  {| bulk_ID := bulk_ID b; UserID := UserID b;
     bulk_WorkflowTemplateID := bulk_WorkflowTemplateID b;
     Operations := alter f i (Operations b) |}.

(** [bulk.Operations[i].Status = s]. *)
Definition set_Status (i : nat) (s : OperationStatus)
  (b : WorkflowTemplateBulk) : WorkflowTemplateBulk :=
  set_Operations (fun o => {| Status := s; Error := Error o;
                              OpRequest := OpRequest o |}) i b.

(** [bulk.Operations[i].Error = e]. *)
Definition set_Error (i : nat) (e : string)
  (b : WorkflowTemplateBulk) : WorkflowTemplateBulk :=
  set_Operations (fun o => {| Status := Status o; Error := e;
                              OpRequest := OpRequest o |}) i b.

(** ** Vocabulary of the properties *)

(** The pair that must be unique in a job. *)
Definition pair_of (o : WorkflowTemplateBulkOperation) : string * string :=
  (ProjectKey (OpRequest o), WorkflowName (OpRequest o)).

Definition statuses (b : WorkflowTemplateBulk) : list OperationStatus :=
  map Status (Operations b).

Definition requests (b : WorkflowTemplateBulk) : list WorkflowTemplateRequest :=
  map OpRequest (Operations b).

(** The steps of the lifecycle of an operation. *)
Inductive forward : OperationStatus -> OperationStatus -> Prop :=
| forward_processing : forward OperationStatusPending OperationStatusProcessing
| forward_done : forward OperationStatusProcessing OperationStatusDone
| forward_error : forward OperationStatusProcessing OperationStatusError.

(** Between two stored states of a job, one operation makes one step. *)
Definition advance (s s' : list OperationStatus) : Prop :=
  exists i a a', s !! i = Some a /\ forward a a' /\ s' = <[i:=a']> s.

(** [R] relates each element of [l] to the next one. *)
Definition stepwise {A} (R : A -> A -> Prop) (l : list A) : Prop :=
  forall k x y, l !! k = Some x -> l !! S k = Some y -> R x y.

Definition terminal (s : OperationStatus) : Prop :=
  s = OperationStatusDone \/ s = OperationStatusError.

(** The operations before [k] are over and those after [k] did not start. *)
Definition in_order (s : list OperationStatus) : Prop :=
  exists k,
    (forall j a, j < k -> s !! j = Some a -> terminal a)
    /\ (forall j a, k < j -> s !! j = Some a -> a = OperationStatusPending).

(** The stored states of the job [b0] up to the state [t]: each one is one
    step after the one before, and the last one is the job the goroutine
    holds. *)
Definition synced (b0 : WorkflowTemplateBulk) (t : task) : Prop :=
  exists l, map statuses (b0 :: persisted t) = l ++ [statuses (bulk t)]
            /\ stepwise advance (l ++ [statuses (bulk t)]).

Definition traced (b0 : WorkflowTemplateBulk) (t : task) : Prop :=
  stepwise advance (map statuses (b0 :: persisted t)).

(** A stored state of the job [b0]: the requests are those of [b0], in
    their order, and the operations are worked on in that order. *)
Definition snapshot (b0 s : WorkflowTemplateBulk) : Prop :=
  requests s = requests b0 /\ in_order (statuses s).

Section Apply.

(** The collaborators of the goroutine.  Those that depend on the state of
    the system take the index of the operation they are called for. *)
Variable UpdateBulk_error : nat -> option string.
Variable project_Load : nat -> string -> string + Project.
Variable db_error : nat -> Reconciler.db_call -> option string.
Variable Execute :
  WorkflowTemplate -> WorkflowTemplateInstance ->
  WorkflowTemplateResult * option string.
Variable yaml_Unmarshal : string -> string + ExportedWorkflow.
Variable yaml_Marshal : ExportedWorkflow -> string + string.
Variable now : Z.
(** [workflowtemplate.Tar(wt, res, buf)] and [workflow.Push]. *)
Variable Tar : WorkflowTemplate -> WorkflowTemplateResult -> string + list byte.
Variable Push : nat -> Project -> list byte -> option string.
(** [fmt.Sprintf("%s", sdk.Cause(err))]. *)
Variable Cause : error -> string.

Variable u : AuthentifiedUser.
Variable wt : WorkflowTemplate.

(** [workflowtemplate.UpdateBulk(api.mustDB(), &bulk)]: the state after
    the call, and whether it succeeded. *)
Definition update (t : task) : task * bool :=
  match UpdateBulk_error (calls t) with
  | Some _ =>
      (Task (bulk t) (bulks t) (instances t) (events t) (persisted t)
            (S (calls t)), false)
  | None =>
      (Task (bulk t) (UpdateBulk (bulks t) (bulk t)) (instances t)
            (events t) (persisted t ++ [bulk t]) (S (calls t)), true)
  end.

(** [errorDefer(err)] for an [err] that is not [nil], followed by
    [return] when it gives an error and by [continue] otherwise. *)
Definition errorDefer (i : nat) (e : error) (t : task) : task * bool :=
  update (with_bulk
            (set_Error i (Cause e)
               (set_Status i OperationStatusError (bulk t))) t).

(** The body of the loop for index [i]; [true] goes on with the next
    index, [false] is [return].  The loop gives [i] the indices of
    [bulk.Operations], whose length does not change: the first case does
    not arise. *)
Definition operation (i : nat) (t : task) : task * bool :=
  match Operations (bulk t) !! i with
  | None => (t, false)
  | Some o =>
      match Status o with
      | OperationStatusPending =>
          match update (with_bulk
                          (set_Status i OperationStatusProcessing (bulk t)) t)
          with
          | (t, false) => (t, false)
          | (t, true) =>
              (* load project with key *)
              match project_Load i (ProjectKey (OpRequest o)) with
              | inl e => errorDefer i (Opaque e) t
              | inr p =>
                  (* apply and import workflow *)
                  let out :=
                    Reconciler.applyTemplate (db_error i) Execute
                      yaml_Unmarshal yaml_Marshal now
                      (instances t) u p wt (OpRequest o) in
                  let t :=
                    Task (bulk t) (bulks t) (Reconciler.instances out)
                         (events t ++ Reconciler.events out)
                         (persisted t) (calls t) in
                  match Reconciler.err out with
                  | Some e => errorDefer i e t
                  | None =>
                      match Tar wt (Reconciler.returned out) with
                      | inl e => errorDefer i (Opaque e) t
                      | inr buf =>
                          match Push i p buf with
                          | Some e =>
                              errorDefer i
                                (WrapError (Opaque e)
                                   "cannot push generated workflow") t
                          | None =>
                              update (with_bulk
                                        (set_Status i OperationStatusDone
                                           (bulk t)) t)
                          end
                      end
                  end
              end
          end
      | _ => (t, true)
      end
  end.

(** [for i := range bulk.Operations]. *)
Fixpoint range_Operations (idx : list nat) (t : task) : task * bool :=
  match idx with
  | [] => (t, true)
  | i :: idx' =>
      match operation i t with
      | (t', true) => range_Operations idx' t'
      | (t', false) => (t', false)
      end
  end.

(** The goroutine [api.templateBulkApply] started on [b]. *)
Definition templateBulkApply (b : WorkflowTemplateBulk)
  (db : bulk_table) (rows : Reconciler.table) : task * bool :=
  range_Operations (seq 0 (length (Operations b)))
                   (Task b db rows [] [] 0).

(** What the steps of the operation [i] decide: its status and its error
    text at the end of the iteration, from the state [rows] of the instance
    table. *)
Definition verdict (i : nat) (o : WorkflowTemplateBulkOperation)
  (rows : Reconciler.table) : OperationStatus * string :=
  match project_Load i (ProjectKey (OpRequest o)) with
  | inl e => (OperationStatusError, Cause (Opaque e))
  | inr p =>
      let out := Reconciler.applyTemplate (db_error i) Execute yaml_Unmarshal
                   yaml_Marshal now rows u p wt (OpRequest o) in
      match Reconciler.err out with
      | Some e => (OperationStatusError, Cause e)
      | None =>
          match Tar wt (Reconciler.returned out) with
          | inl e => (OperationStatusError, Cause (Opaque e))
          | inr buf =>
              match Push i p buf with
              | Some e =>
                  (OperationStatusError,
                   Cause (WrapError (Opaque e) "cannot push generated workflow"))
              | None => (OperationStatusDone, Error o)
              end
          end
      end
  end.

(** The job after the iteration [i], when the operation was pending. *)
Definition closed (i : nat) (o : WorkflowTemplateBulkOperation)
  (rows : Reconciler.table) (b : WorkflowTemplateBulk) : WorkflowTemplateBulk :=
  set_Operations
    (fun _ => {| Status := fst (verdict i o rows);
                 Error := snd (verdict i o rows);
                 OpRequest := OpRequest o |}) i b.

(** An operation in the status [Error] holds the text of a cause. *)
Definition explained (o : WorkflowTemplateBulkOperation) : Prop :=
  Status o = OperationStatusError -> exists e, Error o = Cause e.

(** The state of the goroutine before the iteration [i]. *)
Definition ordered (b0 : WorkflowTemplateBulk) (i : nat) (t : task) : Prop :=
  requests (bulk t) = requests b0
  /\ (forall j a, j < i -> statuses (bulk t) !! j = Some a -> terminal a)
  /\ (forall j a, i <= j -> statuses (bulk t) !! j = Some a ->
                  a = OperationStatusPending)
  /\ Forall explained (Operations (bulk t))
  /\ Forall (snapshot b0) (persisted t).

End Apply.

(** ** [getTemplateBulkHandler] *)

Section Get.

Variable LoadGroup : string -> error + Z.
Variable LoadBySlugAndGroupID : string -> Z -> error + option WorkflowTemplate.
(** The error of [workflowtemplate.GetBulkByIDAndTemplateID], if it
    fails. *)
Variable GetBulk_error : option error.

(** [sort.Slice(x, less)] on a slice of operations. *)
Variable sort_Slice :
  (WorkflowTemplateBulkOperation -> WorkflowTemplateBulkOperation -> bool) ->
  list WorkflowTemplateBulkOperation -> list WorkflowTemplateBulkOperation.

(** [b.Operations[i].Request.WorkflowName < b.Operations[j].Request.WorkflowName]. *)
Definition less (a b : WorkflowTemplateBulkOperation) : bool :=
  String.ltb (WorkflowName (OpRequest a)) (WorkflowName (OpRequest b)).

Definition no_bulk_found (id : Z) : error :=
  NewErrorFrom ErrNotFound
    ("no workflow template bulk found for id " +:+ pretty id).

Definition getTemplateBulkHandler (db : bulk_table) (u : AuthentifiedUser)
  (id : Z) (groupName templateSlug : string)
  : error + WorkflowTemplateBulk :=
  if Z.eqb id 0 then inl (WrapError (Err ErrWrongRequest) "invalid given id")
  else
    match LoadGroup groupName with
    | inl e => inl e
    | inr g =>
    match LoadBySlugAndGroupID templateSlug g with
    | inl e => inl e
    | inr None => inl (Err ErrNotFound)
    | inr (Some wt) =>
    match GetBulk_error with
    | Some e => inl e
    | None =>
    match GetBulkByIDAndTemplateID db id (wt_ID wt) with
    | None => inl (no_bulk_found id)
    | Some b =>
        if negb (Admin u) && negb (Z.eqb (u_ID u) (UserID b))
        then inl (no_bulk_found id)
        else
          inr {| bulk_ID := bulk_ID b; UserID := UserID b;
                 bulk_WorkflowTemplateID := bulk_WorkflowTemplateID b;
                 Operations := sort_Slice less (Operations b) |}
    end end end end.

End Get.

(** [a] does not come after [b] in the order of the workflow names. *)
Definition by_name (a b : WorkflowTemplateBulkOperation) : Prop :=
  less b a = false.

(** What [sort.Slice] does with [less]: it permutes the slice so that no
    element is followed by one with a smaller workflow name; it is not
    stable. *)
Definition sorts
  (sort_Slice :
     (WorkflowTemplateBulkOperation -> WorkflowTemplateBulkOperation ->
      bool) ->
     list WorkflowTemplateBulkOperation ->
     list WorkflowTemplateBulkOperation) : Prop :=
  forall l, Permutation (sort_Slice less l) l
            /\ Sorted by_name (sort_Slice less l).

End Bulk.

(** * The key of an instance *)
Module Ledger.

(** The row [r] has the key (template, project, requested workflow name) of
    the request [req] for the template [wt] in the project [p]: the test of
    the lookup of [applyTemplate]. *)
Definition has_key (wt : WorkflowTemplate) (p : Project)
  (req : WorkflowTemplateRequest) (r : WorkflowTemplateInstance) : bool :=
  Z.eqb (WorkflowTemplateID r) (wt_ID wt)
  && Z.eqb (ProjectID r) (p_ID p)
  && String.eqb (WorkflowName (Request r)) (WorkflowName req).

(** The rows of the other keys. *)
Definition other_keys (wt : WorkflowTemplate) (p : Project)
  (req : WorkflowTemplateRequest) (t : Reconciler.table) : Reconciler.table :=
  List.filter (fun r => negb (has_key wt p req r)) t.

End Ledger.

(** * The goroutine of the bulk handler as a whole *)
Module BulkRun.
Import Bulk.

Section Apply.

Variable project_Load : nat -> string -> string + Project.
Variable db_error : nat -> Reconciler.db_call -> option string.
Variable Execute :
  WorkflowTemplate -> WorkflowTemplateInstance ->
  WorkflowTemplateResult * option string.
Variable yaml_Unmarshal : string -> string + ExportedWorkflow.
Variable yaml_Marshal : ExportedWorkflow -> string + string.
Variable now : Z.
Variable u : AuthentifiedUser.
Variable wt : WorkflowTemplate.

(** What the iteration [i] does to the instance table and which events it
    publishes, for the request [req]: [project.Load], then
    [api.applyTemplate] on the project found. *)
Definition effect (i : nat) (req : WorkflowTemplateRequest)
  (rows : Reconciler.table) : Reconciler.table * list published :=
  match project_Load i (ProjectKey req) with
  | inl _ => (rows, [])
  | inr p =>
      let out := Reconciler.applyTemplate (db_error i) Execute yaml_Unmarshal
                   yaml_Marshal now rows u p wt req in
      (Reconciler.instances out, Reconciler.events out)
  end.

(** The iterations from [i] on, over the operations [ops]: those that are
    not pending are passed over. *)
Fixpoint effects (i : nat) (ops : list WorkflowTemplateBulkOperation)
  (rows : Reconciler.table) (evs : list published)
  : Reconciler.table * list published :=
  match ops with
  | [] => (rows, evs)
  | o :: ops' =>
      match Status o with
      | OperationStatusPending =>
          effects (S i) ops' (fst (effect i (OpRequest o) rows))
                  (evs ++ snd (effect i (OpRequest o) rows))
      | _ => effects (S i) ops' rows evs
      end
  end.

End Apply.

(** The job of the goroutine keeps its identity, and the bulk table is
    the one it started from with the row of the job replaced by the state
    stored last. *)
Definition kept (b0 : WorkflowTemplateBulk) (db : bulk_table) (t : task)
  : Prop :=
  bulk_ID (bulk t) = bulk_ID b0
  /\ UserID (bulk t) = UserID b0
  /\ bulk_WorkflowTemplateID (bulk t) = bulk_WorkflowTemplateID b0
  /\ Forall (fun s => bulk_ID s = bulk_ID b0) (persisted t)
  /\ bulks t = match persisted t with
               | [] => db
               | _ :: _ => UpdateBulk db (List.last (persisted t) b0)
               end.

(** The operations that were not pending in [b0] are those of [b], and
    the requests are the same. *)
Definition frozen (b0 b : WorkflowTemplateBulk) : Prop :=
  requests b = requests b0
  /\ forall j o, Operations b0 !! j = Some o ->
                 Status o <> OperationStatusPending ->
                 Operations b !! j = Some o.

(** The rows of the other jobs. *)
Definition other_jobs (id : Z) (db : bulk_table) : bulk_table :=
  List.filter (fun r => negb (Z.eqb (bulk_ID r) id)) db.

End BulkRun.

(** * [postTemplateApplyHandler] *)
Module ApplyHandler.

(** The errors of the handler: those of the other handlers, and
    [sdk.ErrNoProject].  The handler gives this one itself, and it gives
    the error of a collaborator as it is: a collaborator may return
    [sdk.ErrNoProject] too. *)
Inductive handler_error : Type :=
| Failed (e : error)
| ErrNoProject.

(** What [workflow.Push] gives back: the messages and the workflow. *)
Record pushed : Type := Pushed {
  msgs : list string;
  wkf_ID : Z;
  wkf_Name : string
}.

Inductive header : Type :=
| ResponseWorkflowIDHeader (v : string)
| ResponseWorkflowNameHeader (v : string).

(** [service.WriteJSON(w, msgStrings, http.StatusOK)] after the two
    headers, and [service.Write(w, buf.Bytes(), http.StatusOK,
    "application/tar")]. *)
Inductive body : Type :=
| WriteJSON (headers : list header) (msgStrings : list string)
| Write (buf : list byte).

(** What the handler leaves: the instance table, the events published and
    the response. *)
Record served : Type := Served {
  rows : Reconciler.table;
  sent : list published;
  response : handler_error + body
}.

Section Handler.

(** The collaborators whose error the handler returns as it is. *)
Variable LoadGroup : string -> handler_error + Z.
Variable LoadBySlugAndGroupID :
  string -> Z -> handler_error + option WorkflowTemplate.
Variable CheckParams :
  WorkflowTemplate -> WorkflowTemplateRequest -> option handler_error.
(** [checkProjectReadPermission(ctx, key)] and
    [api.checkProjectPermissions(ctx, key, PermissionReadWriteExecute, nil)]
    for the user of the call. *)
Variable checkProjectReadPermission : string -> bool.
Variable checkProjectPermissions : string -> option error.
Variable project_Load : string -> handler_error + Project.
Variable db_error : Reconciler.db_call -> option string.
Variable Execute :
  WorkflowTemplate -> WorkflowTemplateInstance ->
  WorkflowTemplateResult * option string.
Variable yaml_Unmarshal : string -> string + ExportedWorkflow.
Variable yaml_Marshal : ExportedWorkflow -> string + string.
Variable now : Z.
Variable Tar : WorkflowTemplate -> WorkflowTemplateResult -> string + list byte.
Variable Push : Project -> list byte -> string + pushed.
Variable translate : list string -> list string.

(** "check permission on project". *)
Definition check_project (u : AuthentifiedUser) (withImport : bool)
  (key : string) : option handler_error :=
  if negb (Admin u) then
    if negb withImport && negb (checkProjectReadPermission key)
    then Some ErrNoProject
    else if withImport then
      match checkProjectPermissions key with
      | Some _ => Some (Failed Bulk.write_required)
      | None => None
      end
    else None
  else None.

(** The end of the handler, after [api.applyTemplate] gave [res]. *)
Definition respond (withImport : bool) (p : Project) (wt : WorkflowTemplate)
  (res : WorkflowTemplateResult) : handler_error + body :=
  match Tar wt res with
  | inl e => inl (Failed (Opaque e))
  | inr buf =>
      if withImport then
        match Push p buf with
        | inl e =>
            inl (Failed (WrapError (Opaque e) "cannot push generated workflow"))
        | inr r =>
            inr (WriteJSON [ResponseWorkflowIDHeader (pretty (wkf_ID r));
                            ResponseWorkflowNameHeader (wkf_Name r)]
                           (translate (msgs r)))
        end
      else inr (Write buf)
  end.

(** [withImport] is [FormBool(r, "import")] and [body] what
    [service.UnmarshalBody(r, &req)] gives. *)
Definition postTemplateApplyHandler (db : Reconciler.table)
  (u : AuthentifiedUser) (groupName templateSlug : string)
  (withImport : bool) (body : handler_error + WorkflowTemplateRequest)
  : served :=
  match LoadGroup groupName with
  | inl e => Served db [] (inl e)
  | inr g =>
  match LoadBySlugAndGroupID templateSlug g with
  | inl e => Served db [] (inl e)
  | inr None => Served db [] (inl (Failed (Err ErrNotFound)))
  | inr (Some wt) =>
  match body with
  | inl e => Served db [] (inl e)
  | inr req =>
  match CheckParams wt req with
  | Some e => Served db [] (inl e)
  | None =>
  match check_project u withImport (ProjectKey req) with
  | Some e => Served db [] (inl e)
  | None =>
  (* load project with key *)
  match project_Load (ProjectKey req) with
  | inl e => Served db [] (inl e)
  | inr p =>
      let out := Reconciler.applyTemplate db_error Execute yaml_Unmarshal
                   yaml_Marshal now db u p wt req in
      match Reconciler.err out with
      | Some e =>
          Served (Reconciler.instances out) (Reconciler.events out)
                 (inl (Failed e))
      | None =>
          Served (Reconciler.instances out) (Reconciler.events out)
                 (respond withImport p wt (Reconciler.returned out))
      end
  end end end end end end.

End Handler.

End ApplyHandler.

(** * The handlers of the instances of a template *)
Module InstanceHandlers.

(** [sdk.ProjectsToIDs(ps)]. *)
Definition ProjectsToIDs (ps : list Project) : list Z := map p_ID ps.

(** The zero value of [sdk.Project], which a Go map gives for a key it
    does not hold. *)
Definition zero_Project : Project := {| p_ID := 0; Key := "" |}.

(** An instance with its field [Project]. *)
Record listed : Type := Listed {
  instance : WorkflowTemplateInstance;
  project : Project
}.

(** [mProjects]: the loop [mProjects[ps[i].ID] = ps[i]] from an empty
    map. *)
Definition mProjects (ps : list Project) : gmap Z Project :=
  fold_left (fun m p => <[p_ID p := p]> m) ps ∅.

(** The loop [p := mProjects[is[i].ProjectID]; is[i].Project = &p]. *)
Definition attach (ps : list Project) (is_ : list WorkflowTemplateInstance)
  : list listed :=
  map (fun i => Listed i (default zero_Project
                            (mProjects ps !! ProjectID i))) is_.

(** The project of [ps] a Go map built by the loop holds for [id]: the
    last one with this identifier. *)
Definition last_with_ID (ps : list Project) (id : Z) : option Project :=
  find (fun p => Z.eqb (p_ID p) id) (rev ps).

Section Handlers.

Variable LoadGroup : string -> error + Z.
Variable LoadBySlugAndGroupID : string -> Z -> error + option WorkflowTemplate.
(** [project.LoadAll] for the user of the call. *)
Variable project_LoadAll : error + list Project.
(** [workflowtemplate.GetInstancesByTemplateIDAndProjectIDs]. *)
Variable GetInstancesByTemplateIDAndProjectIDs :
  Z -> list Z -> error + list WorkflowTemplateInstance.
(** [workflowtemplate.AggregateAuditsOnWorkflowTemplateInstance] and
    [workflow.AggregateOnWorkflowTemplateInstance] work through the pointers
    to the elements of [is]: they give the slice as they leave it. *)
Variable AggregateAuditsOnWorkflowTemplateInstance :
  list listed -> error + list listed.
Variable AggregateOnWorkflowTemplateInstance :
  list listed -> error + list listed.

Definition getTemplateInstancesHandler (groupName templateSlug : string)
  : error + list listed :=
  match LoadGroup groupName with
  | inl e => inl e
  | inr g =>
  match LoadBySlugAndGroupID templateSlug g with
  | inl e => inl e
  | inr None => inl (Err ErrNotFound)
  | inr (Some wt) =>
  match project_LoadAll with
  | inl e => inl e
  | inr ps =>
  match GetInstancesByTemplateIDAndProjectIDs (wt_ID wt) (ProjectsToIDs ps)
  with
  | inl e => inl e
  | inr is_ =>
  match AggregateAuditsOnWorkflowTemplateInstance (attach ps is_) with
  | inl e => inl e
  | inr is1 => AggregateOnWorkflowTemplateInstance is1
  end end end end end.

(** [requestVarInt(r, "instanceID")]. *)
Variable instanceID : error + Z.
(** [workflowtemplate.GetInstanceByIDForTemplateIDAndProjectIDs] on the
    instance table. *)
Variable GetInstanceByIDForTemplateIDAndProjectIDs :
  Reconciler.table -> Z -> Z -> list Z ->
  error + option WorkflowTemplateInstance.
(** The error of [workflowtemplate.DeleteInstance], if it fails. *)
Variable DeleteInstance_error : option error.

Definition no_instance_found : error :=
  NewErrorFrom ErrNotFound "no workflow template instance found".

(** The handler gives the instance table it leaves and its reply. *)
Definition deleteTemplateInstanceHandler (db : Reconciler.table)
  (groupName templateSlug : string) : Reconciler.table * (error + unit) :=
  match LoadGroup groupName with
  | inl e => (db, inl e)
  | inr g =>
  match LoadBySlugAndGroupID templateSlug g with
  | inl e => (db, inl e)
  | inr None => (db, inl (Err ErrNotFound))
  | inr (Some wt) =>
  match project_LoadAll with
  | inl e => (db, inl e)
  | inr ps =>
  match instanceID with
  | inl e => (db, inl e)
  | inr id =>
  match GetInstanceByIDForTemplateIDAndProjectIDs db id (wt_ID wt)
          (ProjectsToIDs ps) with
  | inl e => (db, inl e)
  | inr None => (db, inl no_instance_found)
  | inr (Some wti) =>
      match DeleteInstance_error with
      | Some e => (db, inl e)
      | None => (Reconciler.DeleteInstance db wti, inr tt)
      end
  end end end end end.

End Handlers.

End InstanceHandlers.

(** * Workflow as code: [ascode.go] *)
Module AsCode.

(** The fields of [sdk.Operation] the handlers read or write. *)
Record RepositoryStrategy : Type := {
  ConnectionType : string;
  SSHKey : string;
  SSHKeyContent : string;
  User : string;
  Password : string;
  Branch : string;
  DefaultBranch : string;
  PGPKey : string
}.

Record OperationRepositoryInfo : Type := {
  info_Name : string;
  FetchURL : string;
  info_DefaultBranch : string
}.

Record OperationLoadFiles : Type := {
  Pattern : string;
  Results : list (string * list byte)
}.

Record Operation : Type := {
  UUID : string;
  URL : string;
  VCSServer : string;
  RepoFullName : string;
  op_RepositoryStrategy : RepositoryStrategy;
  (** [Setup.Checkout.Branch] *)
  Checkout_Branch : string;
  LoadFiles : OperationLoadFiles;
  RepositoryInfo : OperationRepositoryInfo;
  op_Status : OperationStatus
}.

(** [new(sdk.Operation)] with [ope.UUID = uuid]. *)
Definition new_Operation (uuid : string) : Operation :=
  {| UUID := uuid; URL := ""; VCSServer := ""; RepoFullName := "";
     op_RepositoryStrategy :=
       {| ConnectionType := ""; SSHKey := ""; SSHKeyContent := "";
          User := ""; Password := ""; Branch := ""; DefaultBranch := "";
          PGPKey := "" |};
     Checkout_Branch := "";
     LoadFiles := {| Pattern := ""; Results := [] |};
     RepositoryInfo := {| info_Name := ""; FetchURL := "";
                          info_DefaultBranch := "" |};
     op_Status := OperationStatusPending |}.

Definition set_Pattern (v : string) (o : Operation) : Operation :=
  {| UUID := UUID o; URL := URL o; VCSServer := VCSServer o;
     RepoFullName := RepoFullName o;
     op_RepositoryStrategy := op_RepositoryStrategy o;
     Checkout_Branch := Checkout_Branch o;
     LoadFiles := {| Pattern := v; Results := Results (LoadFiles o) |};
     RepositoryInfo := RepositoryInfo o; op_Status := op_Status o |}.

Definition set_Checkout_Branch (v : string) (o : Operation) : Operation :=
  {| UUID := UUID o; URL := URL o; VCSServer := VCSServer o;
     RepoFullName := RepoFullName o;
     op_RepositoryStrategy := op_RepositoryStrategy o;
     Checkout_Branch := v;
     LoadFiles := LoadFiles o;
     RepositoryInfo := RepositoryInfo o; op_Status := op_Status o |}.

Definition set_RepositoryStrategy (s : RepositoryStrategy) (o : Operation)
  : Operation :=
  {| UUID := UUID o; URL := URL o; VCSServer := VCSServer o;
     RepoFullName := RepoFullName o;
     op_RepositoryStrategy := s;
     Checkout_Branch := Checkout_Branch o;
     LoadFiles := LoadFiles o;
     RepositoryInfo := RepositoryInfo o; op_Status := op_Status o |}.

Definition set_SSHKeyContent (v : string) (s : RepositoryStrategy)
  : RepositoryStrategy :=
  {| ConnectionType := ConnectionType s; SSHKey := SSHKey s;
     SSHKeyContent := v; User := User s; Password := Password s;
     Branch := Branch s; DefaultBranch := DefaultBranch s;
     PGPKey := PGPKey s |}.

Definition set_Branches (b d : string) (s : RepositoryStrategy)
  : RepositoryStrategy :=
  {| ConnectionType := ConnectionType s; SSHKey := SSHKey s;
     SSHKeyContent := SSHKeyContent s; User := User s;
     Password := Password s; Branch := b; DefaultBranch := d;
     PGPKey := PGPKey s |}.

Record VCSBranch : Type := {
  DisplayID : string;
  Default : bool
}.

(** The client [repositoriesmanager.AuthorizedClient] gives. *)
Record VCSAuthorizedClient : Type := {
  Branches : string -> error + list VCSBranch;
  GrantWritePermission : string -> option error
}.

(** The errors of the handlers: those of the collaborators, wrapped or
    not, and the errors of [sdk] the other handlers do not give. *)
Inductive ascode_error : Type :=
| Known (e : error)
| ErrNoReposManagerClientAuth (key vcs : string) (cause : error)
| ErrMethodNotAllowed.

(** A handler replies, or panics on a nil pointer. *)
Inductive reply (A : Type) : Type :=
| Replies (r : ascode_error + A)
| Panics.
Arguments Replies {A} r.
Arguments Panics {A}.

(** [workflow.PushOption]. *)
Record PushOption : Type := {
  opt_VCSServer : string;
  RepositoryName : string;
  opt_RepositoryStrategy : RepositoryStrategy;
  opt_Branch : string;
  FromRepository : string;
  IsDefaultBranch : bool
}.

(** The workflow [workflow.Push] gives. *)
Record Workflow : Type := {
  wf_ID : Z;
  wf_Name : string
}.

Inductive header : Type :=
| ResponseWorkflowIDHeader (v : string)
| ResponseWorkflowNameHeader (v : string).

Section Handlers.

(** [sdk.ProjectVCSServer], the reader [workflow.ReadCDSFiles] gives and
    the messages of [workflow.Push]. *)
Variable VCSServerConfig : Type.
Variable Reader : Type.
Variable Message : Type.

(** [workflow.WorkflowAsCodePattern]. *)
Variable WorkflowAsCodePattern : string.
Variable project_Load : string -> error + Project.
Variable GetProjectVCSServer : Project -> string -> VCSServerConfig.
Variable AuthorizedClient :
  string -> VCSServerConfig -> error + VCSAuthorizedClient.
(** [operation.PostRepositoryOperation(ctx, db, *p, ope, nil)] works
    through the pointer [ope]: it gives the operation as it leaves it. *)
Variable PostRepositoryOperation : Project -> Operation -> error + Operation.
(** [operation.GetRepositoryOperation(ctx, db, ope)], the same way. *)
Variable GetRepositoryOperation : Operation -> error + Operation.
Variable ReadCDSFiles : list (string * list byte) -> error + Reader.
Variable Push :
  Project -> Reader -> PushOption -> error + (list Message * option Workflow).
Variable translate : list Message -> list string.

(** The loop on the branches: the [DisplayID] of the first default
    branch, if there is one. *)
Fixpoint default_branch (branches : list VCSBranch) : option string :=
  match branches with
  | [] => None
  | b :: branches' =>
      if Default b then Some (DisplayID b) else default_branch branches'
  end.

(** What [postImportAsCodeHandler] leaves: the operations given to
    [operation.PostRepositoryOperation], and its reply. *)
Record imported : Type := Imported {
  posted : list (Project * Operation);
  import_reply : reply Operation
}.

(** [body] is what [service.UnmarshalBody(r, ope)] gives.  The error of
    [project.Load] is wrapped and dropped; the project is then [nil], and
    [p.Key] panics. *)
Definition postImportAsCodeHandler (key : string) (body : error + Operation)
  : imported :=
  match body with
  | inl e =>
      Imported [] (Replies (inl (Known (WrapError e "postImportAsCodeHandler"))))
  | inr ope =>
  if String.eqb (URL ope) "" then
    Imported [] (Replies (inl (Known (Err ErrWrongRequest))))
  else
  let ope :=
    if String.eqb (Pattern (LoadFiles ope)) ""
    then set_Pattern WorkflowAsCodePattern ope else ope in
  if negb (String.eqb (Pattern (LoadFiles ope)) WorkflowAsCodePattern) then
    Imported [] (Replies (inl (Known (Err ErrWrongRequest))))
  else
  match project_Load key with
  | inl _ => Imported [] Panics
  | inr p =>
  let vcsServer := GetProjectVCSServer p (VCSServer ope) in
  match AuthorizedClient (Key p) vcsServer with
  | inl erra =>
      Imported []
        (Replies (inl (ErrNoReposManagerClientAuth key (VCSServer ope) erra)))
  | inr client =>
  match Branches client (RepoFullName ope) with
  | inl errB =>
      Imported []
        (Replies (inl (Known (WrapError errB
           ("postImportAsCodeHandler> Cannot list branches for "
            +:+ VCSServer ope +:+ "/" +:+ RepoFullName ope)))))
  | inr branches =>
  let ope :=
    match default_branch branches with
    | Some d => set_Checkout_Branch d ope
    | None => ope
    end in
  match PostRepositoryOperation p ope with
  | inl e =>
      Imported [(p, ope)]
        (Replies (inl (Known (WrapError e
                                "Cannot create repository operation"))))
  | inr ope' =>
      Imported [(p, ope)]
        (Replies (inr (set_RepositoryStrategy
                         (set_SSHKeyContent "" (op_RepositoryStrategy ope'))
                         ope')))
  end end end end end.

(** [getImportAsCodeHandler]. *)
Definition getImportAsCodeHandler (uuid : string) : ascode_error + Operation :=
  match GetRepositoryOperation (new_Operation uuid) with
  | inl e =>
      inl (Known (WrapError e "Cannot get repository operation status"))
  | inr ope => inr ope
  end.

(** [opt]: the options of the push, from the operation read. *)
Definition push_option (ope : Operation) : PushOption :=
  {| opt_VCSServer := VCSServer ope;
     RepositoryName := info_Name (RepositoryInfo ope);
     opt_RepositoryStrategy :=
       set_Branches "{{.git.branch}}" (info_DefaultBranch (RepositoryInfo ope))
         (op_RepositoryStrategy ope);
     opt_Branch := Checkout_Branch ope;
     FromRepository := FetchURL (RepositoryInfo ope);
     IsDefaultBranch :=
       String.eqb (Checkout_Branch ope)
                  (info_DefaultBranch (RepositoryInfo ope)) |}.

(** What [postPerformImportAsCodeHandler] leaves: the pushes made, the
    repositories CDS was granted the right to write in, the workflows
    of the events [event.PublishWorkflowAdd], and its reply. *)
Record performed : Type := Performed {
  pushes : list (Project * Reader * PushOption);
  granted : list string;
  added : list (string * Workflow);
  perform_reply : reply (list header * list string)
}.

(** The step "Grant CDS as a repository collaborator": its failures are
    logged only. *)
Definition grant (proj : Project) (ope : Operation) : list string :=
  match AuthorizedClient (Key proj) (GetProjectVCSServer proj (VCSServer ope))
  with
  | inl _ => []
  | inr client =>
      match GrantWritePermission client (RepoFullName ope) with
      | Some _ => []
      | None => [RepoFullName ope]
      end
  end.

Definition postPerformImportAsCodeHandler (key uuid : string) : performed :=
  match project_Load key with
  | inl errp =>
      Performed [] [] []
        (Replies (inl (Known (WrapError errp
           ("postPerformImportAsCodeHandler> Cannot load project " +:+ key)))))
  | inr proj =>
  match GetRepositoryOperation (new_Operation uuid) with
  | inl e =>
      Performed [] [] []
        (Replies (inl (Known (WrapError e
                                "Unable to get repository operation"))))
  | inr ope =>
  match op_Status ope with
  | OperationStatusDone =>
      match ReadCDSFiles (Results (LoadFiles ope)) with
      | inl e =>
          Performed [] [] []
            (Replies (inl (Known (WrapError e "Unable to read cds files"))))
      | inr tr =>
          let opt := push_option ope in
          match Push proj tr opt with
          | inl e =>
              Performed [(proj, tr, opt)] [] []
                (Replies (inl (Known (WrapError e
                                        "Unable to push workflow"))))
          | inr (allMsg, wrkflw) =>
              match wrkflw with
              | None =>
                  (* [*wrkflw] in the call of [event.PublishWorkflowAdd] *)
                  Performed [(proj, tr, opt)] (grant proj ope) [] Panics
              | Some wf =>
                  Performed [(proj, tr, opt)] (grant proj ope)
                    [(Key proj, wf)]
                    (Replies (inr ([ResponseWorkflowIDHeader (pretty (wf_ID wf));
                                    ResponseWorkflowNameHeader (wf_Name wf)],
                                   translate allMsg)))
              end
          end
      end
  | _ => Performed [] [] [] (Replies (inl ErrMethodNotAllowed))
  end end end.

End Handlers.

Arguments Performed {Reader} pushes granted added perform_reply.
Arguments pushes {Reader} p.
Arguments granted {Reader} p.
Arguments added {Reader} p.
Arguments perform_reply {Reader} p.

End AsCode.

(** * The handlers that create and update a template *)
Module TemplateHandlers.

(** [sdk.WorkflowTemplate] with the fields these handlers read or write;
    [Group] is the name of the group behind the pointer, [Value] stands
    for the content. *)
Record sdk_WorkflowTemplate : Type := {
  tpl_ID : Z;
  GroupID : Z;
  Group : option string;
  tpl_Slug : string;
  tpl_Version : Z;
  ImportURL : string;
  Editable : bool;
  ChangeMessage : string;
  Value : list byte
}.

Definition set_ImportURL (v : string) (t : sdk_WorkflowTemplate)
  : sdk_WorkflowTemplate :=
  {| tpl_ID := tpl_ID t; GroupID := GroupID t; Group := Group t;
     tpl_Slug := tpl_Slug t; tpl_Version := tpl_Version t; ImportURL := v;
     Editable := Editable t; ChangeMessage := ChangeMessage t;
     Value := Value t |}.

Definition set_GroupID (v : Z) (t : sdk_WorkflowTemplate)
  : sdk_WorkflowTemplate :=
  {| tpl_ID := tpl_ID t; GroupID := v; Group := Group t;
     tpl_Slug := tpl_Slug t; tpl_Version := tpl_Version t;
     ImportURL := ImportURL t; Editable := Editable t;
     ChangeMessage := ChangeMessage t; Value := Value t |}.

Definition set_Version (v : Z) (t : sdk_WorkflowTemplate)
  : sdk_WorkflowTemplate :=
  {| tpl_ID := tpl_ID t; GroupID := GroupID t; Group := Group t;
     tpl_Slug := tpl_Slug t; tpl_Version := v; ImportURL := ImportURL t;
     Editable := Editable t; ChangeMessage := ChangeMessage t;
     Value := Value t |}.

Definition set_Editable (v : bool) (t : sdk_WorkflowTemplate)
  : sdk_WorkflowTemplate :=
  {| tpl_ID := tpl_ID t; GroupID := GroupID t; Group := Group t;
     tpl_Slug := tpl_Slug t; tpl_Version := tpl_Version t;
     ImportURL := ImportURL t; Editable := v;
     ChangeMessage := ChangeMessage t; Value := Value t |}.

(** The errors of the two handlers: those of the other handlers, and
    [sdk.NewError(sdk.ErrWrongRequest, err)]. *)
Inductive template_error : Type :=
| Of (e : error)
| WrongRequest (cause : error).

(** The events [event.PublishWorkflowTemplateAdd] and
    [event.PublishWorkflowTemplateUpdate]. *)
Inductive template_event : Type :=
| WorkflowTemplateAdd (t : sdk_WorkflowTemplate) (u : AuthentifiedUser)
| WorkflowTemplateUpdate (old new : sdk_WorkflowTemplate)
    (changeMessage : string) (u : AuthentifiedUser).

(** What a handler leaves: the templates given to
    [workflowtemplate.Insert] or [workflowtemplate.Update], the events
    published, and its reply. *)
Record written : Type := Written {
  writes : list sdk_WorkflowTemplate;
  notices : list template_event;
  answer : template_error + sdk_WorkflowTemplate
}.

Section Handlers.

(** [data.IsValid()]; [exportentities.DownloadTemplate], which fills
    the buffer; [workflowtemplate.ReadFromTar] on a reader of the buffer. *)
Variable IsValid : sdk_WorkflowTemplate -> option error.
Variable DownloadTemplate : string -> error + list byte.
Variable workflowtemplate_ReadFromTar :
  list byte -> error + sdk_WorkflowTemplate.
(** [group.LoadGroup] and [group.LoadGroupByID] (the identifier of the
    group), and [group.CheckUserIsGroupAdmin]. *)
Variable LoadGroup : string -> error + Z.
Variable LoadGroupByID : Z -> error + Z.
Variable CheckUserIsGroupAdmin : Z -> AuthentifiedUser -> option error.
(** [workflowtemplate.Execute(&data, nil)]. *)
Variable Execute : sdk_WorkflowTemplate -> option error.
(** [workflowtemplate.Insert] and [workflowtemplate.Update] work through
    the pointer they get: they give the template as they leave it. *)
Variable Insert : sdk_WorkflowTemplate -> error + sdk_WorkflowTemplate.
Variable Update : sdk_WorkflowTemplate -> error + sdk_WorkflowTemplate.
Variable LoadByID : Z -> error + sdk_WorkflowTemplate.
Variable WithAudits : sdk_WorkflowTemplate -> error + sdk_WorkflowTemplate.
Variable LoadBySlugAndGroupID :
  string -> Z -> error + option sdk_WorkflowTemplate.
(** [clone.Update(data)]. *)
Variable clone_Update :
  sdk_WorkflowTemplate -> sdk_WorkflowTemplate -> sdk_WorkflowTemplate.

(** "if imported from url try to download files then overrides request",
    and its [else]: the data of the template and the group. *)
Definition resolve (data : sdk_WorkflowTemplate)
  : template_error + (sdk_WorkflowTemplate * Z) :=
  if negb (String.eqb (ImportURL data) "") then
    match DownloadTemplate (ImportURL data) with
    | inl e => inl (WrongRequest e)
    | inr t =>
    match workflowtemplate_ReadFromTar t with
    | inl e => inl (Of e)
    | inr wt =>
    let data := set_ImportURL (ImportURL data) wt in
    (* group name should be set *)
    match Group data with
    | None => inl (Of (NewErrorFrom ErrWrongRequest "missing group name"))
    | Some name =>
    match LoadGroup name with
    | inl e => inl (WrongRequest e)
    | inr grp =>
    let data := set_GroupID grp data in
    (* check the workflow template extracted *)
    match IsValid data with
    | Some e => inl (Of e)
    | None => inr (data, grp)
    end end end end end
  else
    match LoadGroupByID (GroupID data) with
    | inl e => inl (Of e)
    | inr grp => inr (data, grp)
    end.

(** The data a request resolves to: the request itself, or, with an
    import URL, the template of the archive with this URL and the group
    of its group name. *)
Definition resolved (data d : sdk_WorkflowTemplate) (grp : Z) : Prop :=
  (ImportURL data = "" /\ d = data
   /\ LoadGroupByID (GroupID data) = inr grp)
  \/ (ImportURL data <> ""
      /\ exists buf wt name,
           DownloadTemplate (ImportURL data) = inr buf
           /\ workflowtemplate_ReadFromTar buf = inr wt
           /\ Group wt = Some name
           /\ LoadGroup name = inr grp
           /\ d = set_GroupID grp (set_ImportURL (ImportURL data) wt)
           /\ IsValid d = None).

(** The end of both handlers, from the load of the template written. *)
Definition reload (ws : list sdk_WorkflowTemplate) (id : Z)
  (notice : sdk_WorkflowTemplate -> template_event) : written :=
  match LoadByID id with
  | inl e => Written ws [] (inl (Of e))
  | inr newTemplate =>
      match WithAudits newTemplate with
      | inl e => Written ws [notice newTemplate] (inl (Of e))
      | inr newTemplate' =>
          (* aggregate extra data for ui *)
          Written ws [notice newTemplate]
                  (inr (set_Editable true newTemplate'))
      end
  end.

Definition postTemplateHandler (u : AuthentifiedUser)
  (body : error + sdk_WorkflowTemplate) : written :=
  match body with
  | inl e => Written [] [] (inl (Of e))
  | inr data =>
  match IsValid data with
  | Some e => Written [] [] (inl (Of e))
  | None =>
  match resolve data with
  | inl e => Written [] [] (inl e)
  | inr (data, grp) =>
  let data := set_Version 0 data in
  match CheckUserIsGroupAdmin grp u with
  | Some e => Written [] [] (inl (Of e))
  | None =>
  (* execute template with no instance only to check if parsing is ok *)
  match Execute data with
  | Some e => Written [] [] (inl (Of e))
  | None =>
  match Insert data with
  | inl e => Written [data] [] (inl (Of e))
  | inr data' =>
      reload [data] (tpl_ID data') (fun t => WorkflowTemplateAdd t u)
  end end end end end end.

Definition putTemplateHandler (u : AuthentifiedUser)
  (groupName templateSlug : string) (body : error + sdk_WorkflowTemplate)
  : written :=
  match LoadGroup groupName with
  | inl e => Written [] [] (inl (Of e))
  | inr g =>
  match LoadBySlugAndGroupID templateSlug g with
  | inl e => Written [] [] (inl (Of e))
  | inr None => Written [] [] (inl (Of (Err ErrNotFound)))
  | inr (Some old) =>
  match body with
  | inl e => Written [] [] (inl (Of e))
  | inr data =>
  match IsValid data with
  | Some e => Written [] [] (inl (Of e))
  | None =>
  match resolve data with
  | inl e => Written [] [] (inl e)
  | inr (data, _) =>
  (* update fields from request data *)
  let clone := clone_Update old data in
  match Execute clone with
  | Some e => Written [] [] (inl (Of e))
  | None =>
  match Update clone with
  | inl e => Written [clone] [] (inl (Of e))
  | inr clone' =>
      reload [clone] (tpl_ID clone')
        (fun t => WorkflowTemplateUpdate old t (ChangeMessage data) u)
  end end end end end end end.

End Handlers.

End TemplateHandlers.

(** * [postTemplatePushHandler] *)
Module PushHandler.
Import TemplateHandlers.

(** The errors of the handler: those of the other handlers, those of
    [ReadFromTar], [sdk.NewError(sdk.ErrWrongRequest, err)] and
    [sdk.ErrInvalidGroupAdmin]. *)
Inductive push_error : Type :=
| Of (e : error)
| Decode (e : Archive.decode_error)
| WrongRequest (cause : error)
| ErrInvalidGroupAdmin.

Inductive header : Type :=
| ResponseTemplateGroupNameHeader (v : string)
| ResponseTemplateSlugHeader (v : string).

(** The handler replies, or panics on a nil pointer. *)
Inductive outcome : Type :=
| Replies (r : push_error + (list header * list string))
| Panics.

(** What the handler leaves: the readers given to
    [workflowtemplate.Push], and its reply. *)
Record pushed : Type := Pushed {
  readers : list (list Archive.tar_step);
  result : outcome
}.

(** What is left of a reader after the loop of [ReadFromTar]: the loop
    goes on to [io.EOF], and stops after a read that fails. *)
Fixpoint drain (tr : list Archive.tar_step) : list Archive.tar_step :=
  match tr with
  | [] => []
  | Archive.Entry _ _ :: tr' => drain tr'
  | Archive.NextError _ :: tr' => tr'
  | Archive.CopyError _ _ :: tr' => tr'
  end.

Section Handler.

Variable Descriptor : Type.
Variable zero_Descriptor : Descriptor.
Variable yaml_Unmarshal : list byte -> Descriptor -> Descriptor * option string.
Variable GetTemplate :
  Descriptor -> list byte -> list (list byte) -> list (list byte) ->
  list (list byte) -> sdk_WorkflowTemplate.
Variable Message : Type.

(** [ReadFromTar] of this file. *)
Definition ReadFromTar (tr : list Archive.tar_step)
  : Archive.decode_error + sdk_WorkflowTemplate :=
  Archive.ReadFromTar Descriptor zero_Descriptor sdk_WorkflowTemplate
    yaml_Unmarshal GetTemplate tr.

Variable LoadGroup : string -> error + Z.
Variable isGroupAdmin : Z -> bool.
Variable isAdmin : bool.
Variable IsValid : sdk_WorkflowTemplate -> option error.
(** [workflowtemplate.Push(api.mustDB(), getAPIConsumer(ctx), tr)]. *)
Variable Push :
  list Archive.tar_step -> error + (list Message * sdk_WorkflowTemplate).
Variable translate : list Message -> list string.

(** [body] is what [ioutil.ReadAll(r.Body)] gives, as the reads of the
    reader [tr] made on its bytes.  The handler gives [tr] to
    [ReadFromTar], then to [workflowtemplate.Push]. *)
Definition postTemplatePushHandler (body : string + list Archive.tar_step)
  : pushed :=
  match body with
  | inl _ => Pushed [] (Replies (inl (Of (Err ErrWrongRequest))))
  | inr tr =>
  match ReadFromTar tr with
  | inl e => Pushed [] (Replies (inl (Decode e)))
  | inr wt =>
  (* group name should be set *)
  match Group wt with
  | None =>
      Pushed [] (Replies (inl (Of (NewErrorFrom ErrWrongRequest
                                     "missing group name"))))
  | Some name =>
  (* check that the user is admin on the given template's group *)
  match LoadGroup name with
  | inl e => Pushed [] (Replies (inl (WrongRequest e)))
  | inr grp =>
  let wt := set_GroupID grp wt in
  if negb (isGroupAdmin grp) && negb isAdmin then
    Pushed [] (Replies (inl ErrInvalidGroupAdmin))
  else
  (* check the workflow template extracted *)
  match IsValid wt with
  | Some e => Pushed [] (Replies (inl (Of e)))
  | None =>
  match Push (drain tr) with
  | inl e =>
      Pushed [drain tr]
        (Replies (inl (Of (WrapError e "cannot push template"))))
  | inr (msgs, wt') =>
      match Group wt' with
      | None => Pushed [drain tr] Panics
      | Some n =>
          Pushed [drain tr]
            (Replies (inr ([ResponseTemplateGroupNameHeader n;
                            ResponseTemplateSlugHeader (tpl_Slug wt')],
                           translate msgs)))
      end
  end end end end end end.

End Handler.

End PushHandler.

(** * Stand-ins for the collaborators

    Concrete functions in the place of the Section variables, to run the
    definitions on examples. *)
Module Fixtures.

Local Open Scope Z_scope.

(** A descriptor reduced to its slug. *)
Definition demo_Template : Type := string.

(** Accepts the documents of the form [slug: <text>]. *)
Definition demo_Unmarshal_Template (b : list byte) (t : demo_Template)
  : demo_Template * option string :=
  let s := string_of_list_byte b in
  if String.prefix "slug: " s
  then (substring 6 (String.length s - 6) s, None)
  else (t, Some "yaml: unmarshal errors").

Definition demo_WorkflowTemplate : Type :=
  (demo_Template * list byte * list (list byte) * list (list byte)
   * list (list byte))%type.

Definition demo_GetTemplate (t : demo_Template) (wkf : list byte)
  (pips apps envs : list (list byte)) : demo_WorkflowTemplate :=
  (t, wkf, pips, apps, envs).

Definition demo_ReadFromTar (tr : list Archive.tar_step)
  : Archive.decode_error + demo_WorkflowTemplate :=
  Archive.ReadFromTar demo_Template "" demo_WorkflowTemplate
    demo_Unmarshal_Template demo_GetTemplate tr.

(** No database call fails. *)
Definition no_db_error : Reconciler.db_call -> option string :=
  fun _ => None.

(** An execution that generates the workflow [name: <requested name>]. *)
Definition demo_Execute (wt : WorkflowTemplate)
  (wti : WorkflowTemplateInstance) : WorkflowTemplateResult * option string :=
  ({| Workflow := "name: " +:+ WorkflowName (Request wti);
      Pipelines := []; Applications := []; Environments := [] |}, None).

(** An execution that fails. *)
Definition failing_Execute (wt : WorkflowTemplate)
  (wti : WorkflowTemplateInstance) : WorkflowTemplateResult * option string :=
  (Reconciler.zero_Result, Some "template: execution failed").

(** Accepts the documents of the form [name: <text>]. *)
Definition demo_Unmarshal_Workflow (s : string) : string + ExportedWorkflow :=
  if String.prefix "name: " s
  then inr {| Name := substring 6 (String.length s - 6) s;
              Template := None; Body := "" |}
  else inl "yaml: unmarshal errors".

Definition demo_Marshal_Workflow (w : ExportedWorkflow) : string + string :=
  inr ("name: " +:+ Name w +:+
       match Template w with
       | Some t => " template: " +:+ t
       | None => ""
       end).

Definition demo_u : AuthentifiedUser := {| u_ID := 1; Admin := false |}.
Definition demo_p : Project := {| p_ID := 3; Key := "KEY" |}.
Definition demo_wt : WorkflowTemplate :=
  {| wt_ID := 7; GroupName := "grp"; Slug := "tpl"; Version := 2 |}.

Definition demo_req (detached : bool) : WorkflowTemplateRequest :=
  {| ProjectKey := "KEY"; WorkflowName := "w"; Parameters := [];
     Detached := detached |}.

(** A row of the template 7 in the project 3 for the workflow [w], made
    with the version 1 of the template. *)
Definition demo_row (id : Z) : WorkflowTemplateInstance :=
  {| ID := id; WorkflowTemplateID := 7; ProjectID := 3;
     WorkflowTemplateVersion := 1; Request := demo_req false;
     InstanceWorkflowName := "w" |}.

Definition demo_apply (execute : WorkflowTemplate -> WorkflowTemplateInstance ->
                                 WorkflowTemplateResult * option string)
  (db : Reconciler.table) (req : WorkflowTemplateRequest)
  : Reconciler.outcome :=
  Reconciler.applyTemplate no_db_error execute demo_Unmarshal_Workflow
    demo_Marshal_Workflow 1700000000 db demo_u demo_p demo_wt req.

(** Collaborators of the bulk handlers. *)
Definition demo_LoadGroup (groupName : string) : error + Z := inr 1.

Definition demo_LoadBySlugAndGroupID (slug : string) (g : Z)
  : error + option WorkflowTemplate := inr (Some demo_wt).

(** A check of the parameters that wants a workflow name. *)
Definition demo_CheckParams (wt : WorkflowTemplate)
  (req : WorkflowTemplateRequest) : option error :=
  if String.eqb (WorkflowName req) ""
  then Some (NewErrorFrom ErrWrongRequest "invalid given workflow name")
  else None.

Definition demo_checkProjectPermissions (key : string) : option error := None.

(** Only the project [KEY] exists. *)
Definition demo_project_Load (i : nat) (key : string) : string + Project :=
  if String.eqb key "KEY" then inr demo_p else inl "project not found".

Definition demo_Tar (wt : WorkflowTemplate) (res : WorkflowTemplateResult)
  : string + list byte := inr (bytes_of (Workflow res)).

Definition demo_Push (i : nat) (p : Project) (buf : list byte)
  : option string := None.

(** The text of the innermost error. *)
Fixpoint demo_Cause (e : error) : string :=
  match e with
  | Opaque msg => msg
  | Err _ => "internal server error"
  | WrapError cause _ => demo_Cause cause
  | NewError _ _ cause => demo_Cause cause
  | NewErrorFrom _ message => message
  end.

Definition demo_op (key name : string) : WorkflowTemplateBulkOperation :=
  {| Status := OperationStatusPending; Error := "";
     OpRequest := {| ProjectKey := key; WorkflowName := name;
                     Parameters := []; Detached := false |} |}.

Definition demo_bulk (ops : list WorkflowTemplateBulkOperation)
  : WorkflowTemplateBulk :=
  {| bulk_ID := 1; UserID := 1; bulk_WorkflowTemplateID := 7;
     Operations := ops |}.

Definition demo_post (db : Bulk.bulk_table)
  (ops : list WorkflowTemplateBulkOperation) : Bulk.handled :=
  Bulk.postTemplateBulkHandler demo_LoadGroup demo_LoadBySlugAndGroupID
    demo_CheckParams demo_checkProjectPermissions None db demo_u
    "grp" "tpl" (inr (demo_bulk ops)).

Definition demo_templateBulkApply (b : WorkflowTemplateBulk)
  (db : Bulk.bulk_table) (rows : Reconciler.table) : Bulk.task * bool :=
  Bulk.templateBulkApply (fun _ => None) demo_project_Load
    (fun _ => no_db_error) demo_Execute demo_Unmarshal_Workflow
    demo_Marshal_Workflow 1700000000 demo_Tar demo_Push demo_Cause
    demo_u demo_wt b db rows.

(** The same goroutine when the second call of [UpdateBulk] fails. *)
Definition demo_templateBulkApply_down (b : WorkflowTemplateBulk)
  (db : Bulk.bulk_table) (rows : Reconciler.table) : Bulk.task * bool :=
  Bulk.templateBulkApply
    (fun n => if Nat.eqb n 1 then Some "database is down" else None)
    demo_project_Load (fun _ => no_db_error) demo_Execute
    demo_Unmarshal_Workflow demo_Marshal_Workflow 1700000000 demo_Tar
    demo_Push demo_Cause demo_u demo_wt b db rows.

(** The same goroutine when no project can be loaded and the error of
    the load has an empty text. *)
Definition demo_templateBulkApply_silent (b : WorkflowTemplateBulk)
  (db : Bulk.bulk_table) (rows : Reconciler.table) : Bulk.task * bool :=
  Bulk.templateBulkApply (fun _ => None) (fun _ _ => inl "")
    (fun _ => no_db_error) demo_Execute demo_Unmarshal_Workflow
    demo_Marshal_Workflow 1700000000 demo_Tar demo_Push demo_Cause
    demo_u demo_wt b db rows.

(** Insertion sort in the place of [sort.Slice]. *)
Fixpoint demo_insert {A} (less : A -> A -> bool) (x : A) (l : list A)
  : list A :=
  match l with
  | [] => [x]
  | y :: l' => if less y x then y :: demo_insert less x l' else x :: l
  end.

Definition demo_sort_Slice {A} (less : A -> A -> bool) (l : list A) : list A :=
  fold_right (demo_insert less) [] l.

Definition demo_get (db : Bulk.bulk_table) (id : Z)
  : error + WorkflowTemplateBulk :=
  Bulk.getTemplateBulkHandler demo_LoadGroup demo_LoadBySlugAndGroupID None
    demo_sort_Slice db demo_u id "grp" "tpl".


(** A second user. *)
Definition demo_v : AuthentifiedUser := {| u_ID := 2; Admin := false |}.

(** A user who may write in the project [KEY] only. *)
Definition demo_checkProjectPermissions_KEY (key : string) : option error :=
  if String.eqb key "KEY" then None else Some (Err ErrNotFound).

Definition demo_post_guarded (db : Bulk.bulk_table)
  (ops : list WorkflowTemplateBulkOperation) : Bulk.handled :=
  Bulk.postTemplateBulkHandler demo_LoadGroup demo_LoadBySlugAndGroupID
    demo_CheckParams demo_checkProjectPermissions_KEY None db demo_u
    "grp" "tpl" (inr (demo_bulk ops)).

Definition demo_get_as (v : AuthentifiedUser) (db : Bulk.bulk_table) (id : Z)
  : error + WorkflowTemplateBulk :=
  Bulk.getTemplateBulkHandler demo_LoadGroup demo_LoadBySlugAndGroupID None
    demo_sort_Slice db v id "grp" "tpl".


(** Collaborators of the handler that applies a template: a user who may
    read every project and write in none, and a push that fails. *)
Definition demo_failing_Push (p : Project) (buf : list byte)
  : string + ApplyHandler.pushed := inl "workflow refused".

Definition demo_handler_Load (key : string) : error + Project :=
  if String.eqb key "KEY" then inr demo_p else inl (Err ErrNotFound).

(** The same collaborators for the handler that applies a template; the
    project that is not found gives [sdk.ErrNoProject]. *)
Definition demo_apply_LoadGroup (groupName : string)
  : ApplyHandler.handler_error + Z := inr 1.

Definition demo_apply_LoadBySlugAndGroupID (slug : string) (g : Z)
  : ApplyHandler.handler_error + option WorkflowTemplate :=
  inr (Some demo_wt).

Definition demo_apply_CheckParams (wt : WorkflowTemplate)
  (req : WorkflowTemplateRequest) : option ApplyHandler.handler_error :=
  option_map ApplyHandler.Failed (demo_CheckParams wt req).

Definition demo_apply_Load (key : string)
  : ApplyHandler.handler_error + Project :=
  if String.eqb key "KEY" then inr demo_p else inl ApplyHandler.ErrNoProject.

Definition demo_admin : AuthentifiedUser := {| u_ID := 9; Admin := true |}.

Definition demo_postTemplateApplyHandler (db : Reconciler.table)
  (u : AuthentifiedUser) (withImport : bool) (req : WorkflowTemplateRequest)
  : ApplyHandler.served :=
  ApplyHandler.postTemplateApplyHandler demo_apply_LoadGroup
    demo_apply_LoadBySlugAndGroupID demo_apply_CheckParams (fun _ => true)
    (fun _ => Some (Err ErrForbidden)) demo_apply_Load no_db_error
    demo_Execute demo_Unmarshal_Workflow demo_Marshal_Workflow 1700000000
    demo_Tar demo_failing_Push (fun m => m) db u "grp" "tpl" withImport
    (inr req).


(** Collaborators of the handlers of the instances: the user sees the
    project 3 twice, under two keys, and the project 4. *)
Definition demo_projects : list Project :=
  [{| p_ID := 3; Key := "OLD" |}; {| p_ID := 4; Key := "FOUR" |}; demo_p].

Definition demo_GetInstances (db : Reconciler.table) (templateID : Z)
  (ids : list Z) : error + list WorkflowTemplateInstance :=
  inr (List.filter (fun r => Z.eqb (WorkflowTemplateID r) templateID
                             && existsb (Z.eqb (ProjectID r)) ids) db).

Definition demo_GetInstance (db : Reconciler.table) (id templateID : Z)
  (ids : list Z) : error + option WorkflowTemplateInstance :=
  inr (find (fun r => Z.eqb (ID r) id
                      && Z.eqb (WorkflowTemplateID r) templateID
                      && existsb (Z.eqb (ProjectID r)) ids) db).

Definition demo_getTemplateInstancesHandler (db : Reconciler.table)
  : error + list InstanceHandlers.listed :=
  InstanceHandlers.getTemplateInstancesHandler demo_LoadGroup
    demo_LoadBySlugAndGroupID (inr demo_projects) (demo_GetInstances db)
    inr inr "grp" "tpl".

Definition demo_deleteTemplateInstanceHandler (db : Reconciler.table)
  (id : Z) : Reconciler.table * (error + unit) :=
  InstanceHandlers.deleteTemplateInstanceHandler demo_LoadGroup
    demo_LoadBySlugAndGroupID (inr demo_projects) (inr id) demo_GetInstance
    None db "grp" "tpl".


(** Collaborators of the handlers of the workflows as code: a repository
    with the branches [dev] and [master], the second one the default. *)
Definition demo_client : AsCode.VCSAuthorizedClient :=
  {| AsCode.Branches := fun _ =>
       inr [{| AsCode.DisplayID := "dev"; AsCode.Default := false |};
            {| AsCode.DisplayID := "master"; AsCode.Default := true |}];
     AsCode.GrantWritePermission := fun _ => None |}.

Definition demo_ope (url pattern : string) : AsCode.Operation :=
  AsCode.set_Pattern pattern
    (AsCode.set_RepositoryStrategy
       {| AsCode.ConnectionType := "ssh"; AsCode.SSHKey := "proj-ssh";
          AsCode.SSHKeyContent := "PRIVATE"; AsCode.User := "";
          AsCode.Password := ""; AsCode.Branch := "";
          AsCode.DefaultBranch := ""; AsCode.PGPKey := "" |}
       {| AsCode.UUID := ""; AsCode.URL := url; AsCode.VCSServer := "github";
          AsCode.RepoFullName := "fsamin/go-repo";
          AsCode.op_RepositoryStrategy :=
            AsCode.op_RepositoryStrategy (AsCode.new_Operation "");
          AsCode.Checkout_Branch := "";
          AsCode.LoadFiles := AsCode.LoadFiles (AsCode.new_Operation "");
          AsCode.RepositoryInfo :=
            AsCode.RepositoryInfo (AsCode.new_Operation "");
          AsCode.op_Status := OperationStatusPending |}).

Definition demo_postImportAsCodeHandler (body : AsCode.Operation)
  : AsCode.imported :=
  AsCode.postImportAsCodeHandler unit ".cds/**/*.yml" demo_handler_Load
    (fun _ _ => tt) (fun _ _ => inr demo_client) (fun _ o => inr o)
    "KEY" (inr body).


(** An operation that was carried out: the branch checked out is the
    default branch of the repository. *)
Definition demo_done (uuid : string) : AsCode.Operation :=
  {| AsCode.UUID := uuid; AsCode.URL := "https://github.com/fsamin/go-repo.git";
     AsCode.VCSServer := "github"; AsCode.RepoFullName := "fsamin/go-repo";
     AsCode.op_RepositoryStrategy :=
       AsCode.op_RepositoryStrategy (AsCode.new_Operation uuid);
     AsCode.Checkout_Branch := "master";
     AsCode.LoadFiles :=
       {| AsCode.Pattern := ".cds/**/*.yml";
          AsCode.Results := [("w-go-repo.yml", bytes_of "name: w-go-repo")] |};
     AsCode.RepositoryInfo :=
       {| AsCode.info_Name := "go-repo";
          AsCode.FetchURL := "https://github.com/fsamin/go-repo.git";
          AsCode.info_DefaultBranch := "master" |};
     AsCode.op_Status := OperationStatusDone |}.

Definition demo_postPerformImportAsCodeHandler
  : AsCode.performed (list (string * list byte)) :=
  AsCode.postPerformImportAsCodeHandler unit (list (string * list byte))
    string demo_handler_Load (fun _ _ => tt) (fun _ _ => inr demo_client)
    (fun o => inr (demo_done (AsCode.UUID o))) inr
    (fun _ _ _ => inr (["workflow pushed"],
                       Some {| AsCode.wf_ID := 12;
                               AsCode.wf_Name := "w-go-repo" |}))
    (fun m => m) "KEY" "ee3946ac".

(** Collaborators of the handlers that create and update a template: the
    archive behind every URL holds one template of the group [grp]. *)
Definition demo_template (url message : string) (version : Z)
  : TemplateHandlers.sdk_WorkflowTemplate :=
  {| TemplateHandlers.tpl_ID := 0; TemplateHandlers.GroupID := 1;
     TemplateHandlers.Group := Some "grp";
     TemplateHandlers.tpl_Slug := "tpl";
     TemplateHandlers.tpl_Version := version;
     TemplateHandlers.ImportURL := url;
     TemplateHandlers.Editable := false;
     TemplateHandlers.ChangeMessage := message;
     TemplateHandlers.Value := [] |}.

Definition demo_postTemplateHandler
  (body : TemplateHandlers.sdk_WorkflowTemplate) : TemplateHandlers.written :=
  TemplateHandlers.postTemplateHandler (fun _ => None) (fun _ => inr [])
    (fun _ => inr (demo_template "" "from the archive" 4)) demo_LoadGroup
    inr (fun _ _ => None) (fun _ => None) inr
    (fun _ => inr (demo_template "" "" 0)) inr demo_u (inr body).

Definition demo_putTemplateHandler
  (body : TemplateHandlers.sdk_WorkflowTemplate) : TemplateHandlers.written :=
  TemplateHandlers.putTemplateHandler (fun _ => None) (fun _ => inr [])
    (fun _ => inr (demo_template "" "from the archive" 4)) demo_LoadGroup
    inr (fun _ => None) inr (fun _ => inr (demo_template "" "" 5)) inr
    (fun _ _ => inr (Some (demo_template "" "" 4)))
    (fun old data => TemplateHandlers.set_Version 5 data) demo_u
    "grp" "tpl" (inr body).

(** Collaborators of the handler that pushes a template: the text of the
    descriptor stands for the name of the group. *)
Definition demo_GetTemplate_group (d : string) (wkf : list byte)
  (pips apps envs : list (list byte)) : TemplateHandlers.sdk_WorkflowTemplate :=
  {| TemplateHandlers.tpl_ID := 0; TemplateHandlers.GroupID := 0;
     TemplateHandlers.Group := Some d;
     TemplateHandlers.tpl_Slug := "tpl";
     TemplateHandlers.tpl_Version := 0;
     TemplateHandlers.ImportURL := "";
     TemplateHandlers.Editable := false;
     TemplateHandlers.ChangeMessage := "";
     TemplateHandlers.Value := wkf |}.

(** A push that tells how many files it read from its reader. *)
Definition demo_Push_template (tr : list Archive.tar_step)
  : error + (list string * TemplateHandlers.sdk_WorkflowTemplate) :=
  inr ([pretty (length tr) +:+ " files read"],
       demo_GetTemplate_group "grp" [] [] [] []).

Definition demo_postTemplatePushHandler (tr : list Archive.tar_step)
  : PushHandler.pushed :=
  PushHandler.postTemplatePushHandler string "" demo_Unmarshal_Template
    demo_GetTemplate_group string demo_LoadGroup (fun _ => true) false
    (fun _ => None) demo_Push_template (fun m => m) (inr tr).

End Fixtures.

(** * Facts about the archive decoder *)
Module ArchiveFacts.
Import Archive.

Section Decoder.

Context {Template WorkflowTemplate : Type}.
Context (zero_Template : Template).
Context (yaml_Unmarshal : list byte -> Template -> Template * option string).
Context (GetTemplate :
           Template -> list byte -> list (list byte) -> list (list byte) ->
           list (list byte) -> WorkflowTemplate).

Local Abbreviation scan := (Archive.scan Template).
Local Abbreviation read_entry := (Archive.read_entry Template yaml_Unmarshal).
Local Abbreviation read_all := (Archive.read_all Template yaml_Unmarshal).
Local Abbreviation scan_tar := (Archive.scan_tar Template yaml_Unmarshal).
Local Abbreviation scan_init := (Archive.scan_init Template zero_Template).
Local Abbreviation ReadFromTar :=
  (Archive.ReadFromTar Template zero_Template WorkflowTemplate
     yaml_Unmarshal GetTemplate).
Local Abbreviation mError := (Archive.mError Template).
Local Abbreviation wkf := (Archive.wkf Template).
Local Abbreviation tmpl := (Archive.tmpl Template).
Local Abbreviation apps := (Archive.apps Template).
Local Abbreviation pips := (Archive.pips Template).
Local Abbreviation envs := (Archive.envs Template).
Local Abbreviation templateFileName := (Archive.templateFileName Template).
Local Abbreviation assemble :=
  (Archive.assemble Template WorkflowTemplate GetTemplate).
Local Abbreviation record := (Archive.record Template).

Lemma scan_tar_entries (es : list (string * list byte)) (s : scan) :
  scan_tar (entries es) s = inr (read_all es s).
Proof.
  revert s. induction es as [|[n b] es IH]; intros s; simpl.
  - reflexivity.
  - apply IH.
Qed.

Lemma ReadFromTar_entries (es : list (string * list byte)) :
  ReadFromTar (entries es) = assemble (read_all es scan_init).
Proof.
  unfold Archive.ReadFromTar, Archive.assemble. now rewrite scan_tar_entries.
Qed.

Lemma read_all_app (l1 l2 : list (string * list byte)) (s : scan) :
  read_all (l1 ++ l2) s = read_all l2 (read_all l1 s).
Proof. unfold Archive.read_all. apply fold_left_app. Qed.

Lemma read_all_cons n b l (s : scan) :
  read_all ((n, b) :: l) s = read_all l (read_entry n b s).
Proof. reflexivity. Qed.

(** A cause once recorded stays recorded. *)
Lemma read_entry_mError n b (s : scan) :
  exists l, mError (read_entry n b s) = mError s ++ l.
Proof.
  unfold Archive.read_entry, Archive.Append.
  repeat match goal with
         | |- context [if ?c then _ else _] => destruct c
         | |- context [yaml_Unmarshal ?x ?y] =>
             destruct (yaml_Unmarshal x y) as [? [?|]]
         end; simpl;
    solve [ eexists; reflexivity | exists []; now rewrite app_nil_r ].
Qed.

Lemma read_all_mError es (s : scan) :
  exists l, mError (read_all es s) = mError s ++ l.
Proof.
  revert s. induction es as [|[n b] es IH]; intros s.
  - exists []. now rewrite app_nil_r.
  - rewrite read_all_cons. destruct (IH (read_entry n b s)) as [l1 H1].
    destruct (read_entry_mError n b s) as [l2 H2].
    exists (l2 ++ l1). rewrite H1, H2. now rewrite app_assoc.
Qed.

Lemma read_all_keeps e es (s : scan) :
  In e (mError s) -> In e (mError (read_all es s)).
Proof.
  intros H. destruct (read_all_mError es s) as [l ->].
  apply in_or_app. now left.
Qed.

(** The blobs of each kind are collected in the order of the archive,
    whatever else the scan meets. *)
Lemma read_entry_blobs n b (s : scan) :
  apps (read_entry n b s) = apps s ++ blobs is_application [(n, b)]
  /\ pips (read_entry n b s) = pips s ++ blobs is_pipeline [(n, b)]
  /\ envs (read_entry n b s) = envs s ++ blobs is_environment [(n, b)].
Proof.
  unfold blobs, is_application, is_pipeline, is_environment; simpl.
  unfold Archive.read_entry, Archive.Append.
  destruct (Contains n ".application."); simpl;
    [ now rewrite !app_nil_r |].
  destruct (Contains n ".pipeline."); simpl;
    [ now rewrite !app_nil_r |].
  destruct (Contains n ".environment."); simpl;
    [ now rewrite !app_nil_r |].
  repeat match goal with
         | |- context [if ?c then _ else _] => destruct c
         | |- context [yaml_Unmarshal ?x ?y] =>
             destruct (yaml_Unmarshal x y) as [? [?|]]
         end; simpl; now rewrite !app_nil_r.
Qed.

Lemma blobs_cons kind (e : string * list byte) es :
  blobs kind (e :: es) = blobs kind [e] ++ blobs kind es.
Proof. unfold blobs; simpl. now destruct (kind (fst e)). Qed.

Lemma read_all_blobs es (s : scan) :
  apps (read_all es s) = apps s ++ blobs is_application es
  /\ pips (read_all es s) = pips s ++ blobs is_pipeline es
  /\ envs (read_all es s) = envs s ++ blobs is_environment es.
Proof.
  revert s. induction es as [|[n b] es IH]; intros s.
  - unfold blobs; simpl. now rewrite !app_nil_r.
  - rewrite read_all_cons. destruct (IH (read_entry n b s)) as (Ha & Hp & He).
    destruct (read_entry_blobs n b s) as (Ha' & Hp' & He').
    rewrite Ha, Hp, He, Ha', Hp', He'.
    rewrite (blobs_cons is_application (n, b) es),
      (blobs_cons is_pipeline (n, b) es),
      (blobs_cons is_environment (n, b) es).
    now rewrite !app_assoc.
Qed.

Lemma read_entry_workflow b (s : scan) :
  read_entry "workflow.yml" b s =
  if negb (Nat.eqb (length (wkf s)) 0) then Append Template TwoWorkflowFiles s
  else Scan Template (apps s) (pips s) (envs s) b (tmpl s) (mError s)
            (templateFileName s).
Proof. reflexivity. Qed.

Lemma read_entry_descriptor n b (s : scan) :
  is_descriptor n = true ->
  read_entry n b s =
  if negb (String.eqb (templateFileName s) "") then
    Append Template (TwoTemplateFiles (templateFileName s) n) s
  else
    match yaml_Unmarshal b (tmpl s) with
    | (t, Some err) =>
        Scan Template (apps s) (pips s) (envs s) (wkf s) t
             (mError s ++ [UnmarshalTemplate n err]) (templateFileName s)
    | (t, None) =>
        Scan Template (apps s) (pips s) (envs s) (wkf s) t (mError s) n
    end.
Proof.
  unfold is_descriptor, Archive.read_entry. intros H.
  destruct (Contains n ".application."); [discriminate|].
  destruct (Contains n ".pipeline."); [discriminate|].
  destruct (Contains n ".environment."); [discriminate|].
  destruct (String.eqb n "workflow.yml"); [discriminate|].
  reflexivity.
Qed.

Lemma read_entry_not_descriptor n b (s : scan) :
  is_descriptor n = false ->
  templateFileName (read_entry n b s) = templateFileName s
  /\ tmpl (read_entry n b s) = tmpl s.
Proof.
  unfold is_descriptor, Archive.read_entry, Archive.Append. intros H.
  destruct (Contains n ".application."); [now simpl|].
  destruct (Contains n ".pipeline."); [now simpl|].
  destruct (Contains n ".environment."); [now simpl|].
  destruct (String.eqb n "workflow.yml"); [|discriminate].
  destruct (negb (Nat.eqb _ _)); now simpl.
Qed.

Lemma read_all_no_descriptor es (s : scan) :
  Forall (fun e => is_descriptor (fst e) = false) es ->
  templateFileName (read_all es s) = templateFileName s
  /\ tmpl (read_all es s) = tmpl s.
Proof.
  intros H. revert s. induction H as [|[n b] es Hn _ IH]; intros s.
  - now split.
  - rewrite read_all_cons. destruct (IH (read_entry n b s)) as [-> ->].
    now apply read_entry_not_descriptor.
Qed.

(** A workflow once found stays. *)
Lemma read_entry_wkf n b (s : scan) :
  wkf s <> [] -> wkf (read_entry n b s) <> [].
Proof.
  intros H. unfold Archive.read_entry, Archive.Append.
  repeat match goal with
         | |- context [if ?c then _ else _] => destruct c eqn:?
         | |- context [yaml_Unmarshal ?x ?y] =>
             destruct (yaml_Unmarshal x y) as [? [?|]]
         end; simpl; auto.
  destruct (wkf s); [congruence | discriminate].
Qed.

Lemma read_all_wkf es (s : scan) :
  wkf s <> [] -> wkf (read_all es s) <> [].
Proof.
  revert s. induction es as [|[n b] es IH]; intros s H; [exact H|].
  rewrite read_all_cons. apply IH. now apply read_entry_wkf.
Qed.

(** The name of the descriptor found stays. *)
Lemma read_entry_templateFileName n b (s : scan) :
  templateFileName s <> "" ->
  templateFileName (read_entry n b s) = templateFileName s.
Proof.
  intros H. unfold Archive.read_entry, Archive.Append.
  destruct (String.eqb (templateFileName s) "") eqn:E;
    [ apply String.eqb_eq in E; contradiction |].
  cbn [negb].
  repeat match goal with
         | |- context [if ?c then _ else _] => destruct c
         end; reflexivity.
Qed.

Lemma read_all_templateFileName es (s : scan) :
  templateFileName s <> "" ->
  templateFileName (read_all es s) = templateFileName s.
Proof.
  revert s. induction es as [|[n b] es IH]; intros s H; [reflexivity|].
  rewrite read_all_cons, IH; rewrite read_entry_templateFileName; auto.
Qed.

Lemma assemble_error e (s : scan) :
  In e (mError s) ->
  assemble s = inl (WorkflowInvalid (mError s)).
Proof. unfold Archive.assemble. destruct (mError s); [contradiction | reflexivity]. Qed.

Lemma nonempty_length (w : list byte) :
  w <> [] -> negb (Nat.eqb (length w) 0) = true.
Proof. destruct w; [congruence | reflexivity]. Qed.

(** C8.  A descriptor that fails to parse is recorded in [mError] and the
    scan goes on with the remaining entries (the blobs of the whole archive
    are collected); after the scan [ReadFromTar] fails with the aggregate
    of the recorded causes exactly when there is one, and otherwise
    returns the template assembled from the descriptor and the blobs. *)
Theorem ReadFromTar_aggregates (es : list (string * list byte)) :
  let s := read_all es scan_init in
  (mError s = [] ->
   ReadFromTar (entries es) =
   inr (GetTemplate (tmpl s) (wkf s) (pips s) (apps s) (envs s)))
  /\ (mError s <> [] ->
      ReadFromTar (entries es) = inl (WorkflowInvalid (mError s)))
  /\ apps s = blobs is_application es
  /\ pips s = blobs is_pipeline es
  /\ envs s = blobs is_environment es
  /\ (forall pre n b post t e,
        es = pre ++ (n, b) :: post ->
        is_descriptor n = true ->
        templateFileName (read_all pre scan_init) = "" ->
        yaml_Unmarshal b (tmpl (read_all pre scan_init)) = (t, Some e) ->
        In (UnmarshalTemplate n e) (mError s)
        /\ s = read_all post (record n e t (read_all pre scan_init))).
Proof.
  intros s. subst s. rewrite ReadFromTar_entries. unfold Archive.assemble.
  destruct (read_all_blobs es scan_init) as (Ha & Hp & He).
  simpl in Ha, Hp, He.
  split; [now intros -> |].
  split; [intros H; destruct (mError _); congruence |].
  split; [exact Ha |]. split; [exact Hp |]. split; [exact He |].
  clear Ha Hp He. intros pre n b post t e -> Hd Hf Hy.
  rewrite read_all_app, read_all_cons, (read_entry_descriptor n b _ Hd).
  unfold Archive.record. rewrite Hf, Hy. simpl.
  split; [| reflexivity].
  apply read_all_keeps. simpl. apply in_or_app. right. now left.
Qed.

(** C7, as the code has it.  Two entries named [workflow.yml], the first
    of which is not empty, make the decoding fail with the cause "Two
    workflow files found"; when the first descriptor of the archive has a
    name, parses, and another descriptor follows, the decoding fails with
    the cause "Two template files found" that names both. *)
Theorem ReadFromTar_at_most_one :
  (forall pre b1 mid b2 post,
      b1 <> [] ->
      exists errs,
        ReadFromTar (entries (pre ++ ("workflow.yml", b1) :: mid
                              ++ ("workflow.yml", b2) :: post))
        = inl (WorkflowInvalid errs)
        /\ In TwoWorkflowFiles errs)
  /\ (forall pre n1 b1 mid n2 b2 post t,
        Forall (fun e => is_descriptor (fst e) = false) pre ->
        is_descriptor n1 = true -> n1 <> "" ->
        is_descriptor n2 = true ->
        yaml_Unmarshal b1 zero_Template = (t, None) ->
        exists errs,
          ReadFromTar (entries (pre ++ (n1, b1) :: mid ++ (n2, b2) :: post))
          = inl (WorkflowInvalid errs)
          /\ In (TwoTemplateFiles n1 n2) errs
          /\ Errorf (TwoTemplateFiles n1 n2) =
             Some ("Two template files found: " +:+ n1 +:+ " and " +:+ n2)).
Proof.
  split.
  - intros pre b1 mid b2 post Hb.
    rewrite ReadFromTar_entries, read_all_app, read_all_cons, read_all_app,
      read_all_cons.
    set (s1 := read_all pre scan_init).
    assert (H2 : wkf (read_all mid (read_entry "workflow.yml" b1 s1)) <> []).
    { apply read_all_wkf. rewrite read_entry_workflow.
      destruct (negb (Nat.eqb (length (wkf s1)) 0)) eqn:E; simpl; auto.
      destruct (wkf s1); [discriminate | congruence]. }
    set (s2 := read_all mid (read_entry "workflow.yml" b1 s1)) in *.
    assert (H3 : In TwoWorkflowFiles
                   (mError (read_all post (read_entry "workflow.yml" b2 s2)))).
    { apply read_all_keeps. rewrite read_entry_workflow.
      rewrite (nonempty_length _ H2). simpl. apply in_or_app. right. now left. }
    eexists. split; [apply (assemble_error _ _ H3) | exact H3].
  - intros pre n1 b1 mid n2 b2 post t Hpre Hn1 Hne Hn2 Hy.
    rewrite ReadFromTar_entries, read_all_app, read_all_cons, read_all_app,
      read_all_cons.
    destruct (read_all_no_descriptor pre scan_init Hpre) as [Hf Ht].
    set (s1 := read_all pre scan_init) in *. simpl in Hf, Ht.
    assert (H1 : templateFileName (read_entry n1 b1 s1) = n1).
    { rewrite (read_entry_descriptor n1 b1 s1 Hn1), Hf, Ht, Hy.
      reflexivity. }
    assert (H2 : templateFileName (read_all mid (read_entry n1 b1 s1)) = n1).
    { rewrite read_all_templateFileName; rewrite H1; auto. }
    set (s2 := read_all mid (read_entry n1 b1 s1)) in *.
    assert (H3 : In (TwoTemplateFiles n1 n2)
                   (mError (read_all post (read_entry n2 b2 s2)))).
    { apply read_all_keeps. rewrite (read_entry_descriptor n2 b2 s2 Hn2), H2.
      destruct (String.eqb n1 "") eqn:E;
        [ apply String.eqb_eq in E; contradiction |].
      simpl. apply in_or_app. right. now left. }
    eexists. split; [apply (assemble_error _ _ H3) | split; [exact H3|]].
    reflexivity.
Qed.

End Decoder.

(** An archive with a descriptor, an application and a workflow; an archive
    that holds a descriptor that does not parse and then an application: the
    cause is recorded, the application is collected, and the decoding fails
    with the aggregate. *)
Lemma ReadFromTar_aggregates_witness :
  Fixtures.demo_ReadFromTar
    (entries [("tmpl.yml", bytes_of "slug: t");
              ("a.application.yml", bytes_of "name: a");
              ("workflow.yml", bytes_of "name: w")])
  = inr ("t", bytes_of "name: w", [], [bytes_of "name: a"], [])
  /\ Fixtures.demo_ReadFromTar
       (entries [("tmpl.yml", bytes_of "- oops");
                 ("a.application.yml", bytes_of "name: a")])
     = inl (WorkflowInvalid
              [UnmarshalTemplate "tmpl.yml" "yaml: unmarshal errors"])
  /\ apps Fixtures.demo_Template
       (read_all Fixtures.demo_Template Fixtures.demo_Unmarshal_Template
          [("tmpl.yml", bytes_of "- oops");
           ("a.application.yml", bytes_of "name: a")]
          (scan_init Fixtures.demo_Template ""))
     = [bytes_of "name: a"].
Proof.
  pose proof (ReadFromTar_aggregates "" Fixtures.demo_Unmarshal_Template
                Fixtures.demo_GetTemplate
                [("tmpl.yml", bytes_of "slug: t");
                 ("a.application.yml", bytes_of "name: a");
                 ("workflow.yml", bytes_of "name: w")]) as (Hgood & _).
  pose proof (ReadFromTar_aggregates "" Fixtures.demo_Unmarshal_Template
                Fixtures.demo_GetTemplate
                [("tmpl.yml", bytes_of "- oops");
                 ("a.application.yml", bytes_of "name: a")])
    as (_ & Hbad & _ & _ & _ & Hrec).
  split; [apply Hgood; reflexivity|].
  split; [apply Hbad; vm_compute; discriminate|].
  destruct (Hrec [] "tmpl.yml" (bytes_of "- oops")
              [("a.application.yml", bytes_of "name: a")]
              "" "yaml: unmarshal errors" eq_refl eq_refl eq_refl eq_refl)
    as [_ Hs].
  exact (f_equal (apps Fixtures.demo_Template) Hs).
Defined.

(** Two non-empty workflow files; a descriptor followed by another one. *)
Lemma ReadFromTar_at_most_one_witness :
  (exists errs,
      Fixtures.demo_ReadFromTar
        (entries [("workflow.yml", bytes_of "name: w");
                  ("workflow.yml", bytes_of "name: v")])
      = inl (WorkflowInvalid errs) /\ In TwoWorkflowFiles errs)
  /\ (exists errs,
        Fixtures.demo_ReadFromTar
          (entries [("a.yml", bytes_of "slug: a"); ("b.yml", bytes_of "slug: b")])
        = inl (WorkflowInvalid errs)
        /\ In (TwoTemplateFiles "a.yml" "b.yml") errs).
Proof.
  pose proof (ReadFromTar_at_most_one "" Fixtures.demo_Unmarshal_Template
                Fixtures.demo_GetTemplate) as [H1 H2].
  split.
  - apply (H1 [] (bytes_of "name: w") [] (bytes_of "name: v") []).
    vm_compute. discriminate.
  - destruct (H2 [] "a.yml" (bytes_of "slug: a") [] "b.yml" (bytes_of "slug: b")
                [] "a") as (errs & Ha & Hb & _).
    + constructor.
    + reflexivity.
    + discriminate.
    + reflexivity.
    + reflexivity.
    + exists errs. split; assumption.
Defined.

(** C7, as stated, fails twice.  With a first [workflow.yml] that is empty,
    a second one is accepted and the decoding succeeds; after a descriptor
    that does not parse, a second descriptor is accepted and the error names
    the first file only. *)
Lemma ReadFromTar_at_most_one_counterexample :
  Fixtures.demo_ReadFromTar
    (entries [("workflow.yml", []); ("workflow.yml", bytes_of "name: w")])
  = inr ("", bytes_of "name: w", [], [], [])
  /\ Fixtures.demo_ReadFromTar
       (entries [("a.yml", bytes_of "- oops"); ("b.yml", bytes_of "slug: b")])
     = inl (WorkflowInvalid
              [UnmarshalTemplate "a.yml" "yaml: unmarshal errors"])
  /\ ~ In "b.yml"
         (concat (map files_named
                    [UnmarshalTemplate "a.yml" "yaml: unmarshal errors"])).
Proof.
  split; [reflexivity | split; [reflexivity |]].
  simpl. intros [H | []]. discriminate H.
Qed.

End ArchiveFacts.

(** * Facts about the reconciler *)
Module ReconcilerFacts.
Import Reconciler.

Lemma filter_all {A} (l : list A) : List.filter (fun _ => true) l = l.
Proof. induction l; simpl; congruence. Qed.

Lemma filter_twice {A} (f g : A -> bool) (l : list A) :
  List.filter g (List.filter f l) = List.filter (fun x => f x && g x) l.
Proof.
  induction l as [|a l IH]; simpl; [reflexivity|].
  destruct (f a); simpl; [destruct (g a)|]; simpl; congruence.
Qed.

Lemma deletes_only_refl ids t : deletes_only ids t t.
Proof. exists (fun _ => true). split; [now rewrite filter_all | auto]. Qed.

Lemma deletes_only_trans ids t1 t2 t3 :
  deletes_only ids t1 t2 -> deletes_only ids t2 t3 -> deletes_only ids t1 t3.
Proof.
  intros (k1 & -> & H1) (k2 & -> & H2).
  exists (fun r => k1 r && k2 r). split; [apply filter_twice|].
  intros r Hr. now rewrite H1, H2.
Qed.

Lemma deletes_only_Delete ids t x :
  In (ID x) ids -> deletes_only ids t (DeleteInstance t x).
Proof.
  intros Hx. exists (fun r => negb (Z.eqb (ID r) (ID x))).
  split; [reflexivity|]. intros r Hr.
  destruct (Z.eqb_spec (ID r) (ID x)) as [E|]; [|reflexivity].
  rewrite E in Hr. contradiction.
Qed.

Lemma deletes_only_In ids t t' r :
  deletes_only ids t t' -> In r t' -> In r t.
Proof. intros (k & -> & _) H. now apply filter_In in H. Qed.

Lemma deletes_only_keeps ids t t' r :
  deletes_only ids t t' -> In r t -> ~ In (ID r) ids -> In r t'.
Proof.
  intros (k & -> & Hk) H Hr. apply filter_In. split; [exact H | now apply Hk].
Qed.

(** Under a primary key, the rows of another key have another identifier. *)
Lemma same_ID_same_row (t : table) r r' :
  List.NoDup (map ID t) -> In r t -> In r' t -> ID r = ID r' -> r = r'.
Proof.
  induction t as [|a t IH]; simpl; [contradiction|].
  intros Hnd [<-|Hr] [<-|Hr'] E; auto.
  - inversion Hnd as [|? ? Hn _]; subst. exfalso. apply Hn.
    rewrite E. now apply in_map.
  - inversion Hnd as [|? ? Hn _]; subst. exfalso. apply Hn.
    rewrite <- E. now apply in_map.
  - inversion Hnd; subst. now apply IH.
Qed.

Lemma last_cons {A} (x d : A) (l : list A) :
  List.last (x :: l) d = List.last l x.
Proof.
  revert x d. induction l as [|a l IH]; intros x d; [reflexivity|].
  change (List.last (x :: a :: l) d) with (List.last (a :: l) d).
  now rewrite (IH a d), (IH a x).
Qed.

Lemma last_In {A} (x d : A) (l : list A) : In (List.last (x :: l) d) (x :: l).
Proof.
  revert x. induction l as [|a l IH]; intros x; [now left|].
  right. change (List.last (x :: a :: l) d) with (List.last (a :: l) d).
  apply IH.
Qed.

Section Apply.

Context (db_error : db_call -> option string).
Context (Execute : WorkflowTemplate -> WorkflowTemplateInstance ->
                   WorkflowTemplateResult * option string).
Context (yaml_Unmarshal : string -> string + ExportedWorkflow).
Context (yaml_Marshal : ExportedWorkflow -> string + string).
Context (now : Z).

Local Abbreviation range_wtis := (Reconciler.range_wtis db_error).
Local Abbreviation settle := (Reconciler.settle db_error now).
Local Abbreviation generate :=
  (Reconciler.generate db_error Execute yaml_Unmarshal yaml_Marshal).
Local Abbreviation reconcile :=
  (Reconciler.reconcile db_error Execute yaml_Unmarshal yaml_Marshal now).
Local Abbreviation applyTemplate :=
  (Reconciler.applyTemplate db_error Execute yaml_Unmarshal yaml_Marshal now).

(** The loop only deletes rows it was given, and leaves [result]. *)
Lemma range_wtis_deletes ids wtis wti res l l' v :
  incl (map ID wtis) ids ->
  range_wtis wtis wti res l = (l', v) ->
  deletes_only ids (tx l) (tx l') /\ result l' = result l.
Proof.
  revert wti res l. induction wtis as [|x rest IH]; intros wti res l Hi H.
  - simpl in H. run. inversion H; subst. split; [apply deletes_only_refl | auto].
  - assert (Hx : In (ID x) ids) by (apply Hi; now left).
    assert (Hr : incl (map ID rest) ids)
      by (intros z Hz; apply Hi; now right).
    simpl in H. destruct wti.
    + now apply IH in H.
    + run. destruct (db_error (DeleteOther (ID x))).
      * inversion H; subst. split; [apply deletes_only_refl | auto].
      * apply IH in H; [|exact Hr]. simpl in H. destruct H as [H1 H2].
        split; [|exact H2].
        eapply deletes_only_trans; [|exact H1].
        now apply deletes_only_Delete.
Qed.

(** After the loop [wti] is [nil] or the address of [res], and [res] holds
    the last instance found. *)
Lemma range_wtis_found wtis wti res l l' w r :
  range_wtis wtis wti res l = (l', inr (w, r)) ->
  w = match wtis with [] => wti | _ :: _ => addr_res end
  /\ r = List.last wtis res.
Proof.
  revert wti res l. induction wtis as [|x rest IH]; intros wti res l H.
  - simpl in H. run. inversion H; subst. now split.
  - rewrite last_cons. simpl in H. destruct wti.
    + apply IH in H. destruct H as [-> ->]. split; [|reflexivity].
      now destruct rest.
    + run. destruct (db_error (DeleteOther (ID x))); [discriminate|].
      apply IH in H. destruct H as [-> ->]. split; [|reflexivity].
      now destruct rest.
Qed.

(** A detached request: the lookup, the loop and the removal of the
    candidate only delete rows of the key, and no [old] is kept. *)
Lemma settle_detached p wt req l l' v :
  Detached req = true ->
  settle p wt req l = (l', v) ->
  deletes_only (map ID (of_key wt p req (tx l))) (tx l) (tx l')
  /\ result l' = result l
  /\ (forall ow, v = inr ow -> fst ow = None).
Proof.
  intros Hd H. unfold Reconciler.settle in H. rewrite Hd in H.
  unfold of_key.
  set (wtis := GetInstancesByTemplateIDAndProjectIDAndRequestWorkflowName
                 (tx l) (wt_ID wt) (p_ID p) (WorkflowName req)) in *.
  unfold Reconciler.bind at 1, Reconciler.query in H.
  destruct (db_error GetInstances).
  { inversion H; subst. repeat split; auto using deletes_only_refl.
    intros; discriminate. }
  fold wtis in H. unfold Reconciler.bind at 1 in H.
  destruct (range_wtis wtis nil zero_Instance l) as [l1 [e|[w r]]] eqn:Hloop.
  { inversion H; subst.
    apply (range_wtis_deletes (map ID wtis)) in Hloop; [|apply incl_refl].
    destruct Hloop as [H1 H2]. repeat split; auto. intros; discriminate. }
  pose proof Hloop as Hf. apply range_wtis_found in Hf. destruct Hf as [-> ->].
  apply (range_wtis_deletes (map ID wtis)) in Hloop; [|apply incl_refl].
  destruct Hloop as [H1 H2].
  destruct wtis as [|x rest].
  - run. inversion H; subst. simpl. repeat split; auto.
    intros ow E. now inversion E.
  - simpl deref in H. cbv beta iota in H. run.
    destruct (db_error DeleteDetached).
    + inversion H; subst. repeat split; auto; intros; discriminate.
    + inversion H; subst. simpl. repeat split; auto.
      * eapply deletes_only_trans; [exact H1|].
        apply deletes_only_Delete.
        apply (in_map ID (x :: rest)). apply last_In.
      * intros ow E. now inversion E.
Qed.

(** With no instance of the key the table is left as it is. *)
Lemma settle_detached_none p wt req l l' v :
  Detached req = true ->
  of_key wt p req (tx l) = [] ->
  settle p wt req l = (l', v) ->
  tx l' = tx l.
Proof.
  intros Hd Hk H. unfold Reconciler.settle in H. rewrite Hd in H.
  unfold of_key in Hk.
  unfold Reconciler.bind at 1, Reconciler.query in H.
  destruct (db_error GetInstances); [now inversion H|].
  rewrite Hk in H. run. now inversion H.
Qed.

(** With one instance of the key, the instance is deleted. *)
Lemma settle_detached_one p wt req l l' ow r :
  Detached req = true ->
  of_key wt p req (tx l) = [r] ->
  settle p wt req l = (l', inr ow) ->
  tx l' = DeleteInstance (tx l) r.
Proof.
  intros Hd Hk H. unfold Reconciler.settle in H. rewrite Hd in H.
  unfold of_key in Hk.
  unfold Reconciler.bind at 1, Reconciler.query in H.
  destruct (db_error GetInstances); [now inversion H|].
  rewrite Hk in H. run.
  destruct (db_error DeleteDetached); now inversion H.
Qed.

(** A detached request: the execution does not touch the table. *)
Lemma generate_detached wt req old wti l l' v :
  Detached req = true ->
  generate wt req old wti l = (l', v) ->
  tx l' = tx l /\ (forall ow, v = inr ow -> fst ow = old).
Proof.
  intros Hd H. unfold Reconciler.generate in H. rewrite Hd in H. run.
  destruct (snd (Execute wt wti)); inversion H; subst; simpl; split; auto;
    intros ow E; inversion E; reflexivity.
Qed.

Lemma other_key_other_ID wt p req (db : table) r :
  List.NoDup (map ID db) -> In r db -> ~ In r (of_key wt p req db) ->
  ~ In (ID r) (map ID (of_key wt p req db)).
Proof.
  intros Hnd Hr Hn Hi. apply in_map_iff in Hi. destruct Hi as (r' & E & Hr').
  assert (In r' db) by (unfold of_key in Hr'; now apply filter_In in Hr').
  assert (r' = r) by (now apply (same_ID_same_row db)).
  subst. contradiction.
Qed.

(** C1, as the code has it.  A detached apply publishes no event and
    neither adds nor changes a row: the table it leaves is the table
    without some rows of the key of the request.  The rows of the other
    keys stay; with no row of the key the table is unchanged; with one row
    of the key, a call that succeeds deletes it. *)
Theorem applyTemplate_detached (db : table) u p wt req :
  Detached req = true ->
  let out := applyTemplate db u p wt req in
  events out = []
  /\ deletes_only (map ID (of_key wt p req db)) db (instances out)
  /\ (forall r, In r (instances out) -> In r db)
  /\ (List.NoDup (map ID db) ->
      forall r, In r db -> ~ In r (of_key wt p req db) ->
                In r (instances out))
  /\ (of_key wt p req db = [] -> instances out = db)
  /\ (forall r, of_key wt p req db = [r] -> err out = None ->
                instances out = DeleteInstance db r).
Proof.
  intros Hd out.
  assert (H : events out = []
              /\ deletes_only (map ID (of_key wt p req db)) db (instances out)
              /\ (of_key wt p req db = [] -> instances out = db)
              /\ (forall r, of_key wt p req db = [r] -> err out = None ->
                            instances out = DeleteInstance db r)).
  { subst out. unfold Reconciler.applyTemplate.
    destruct (db_error Begin).
    { simpl. repeat split; auto using deletes_only_refl. intros; discriminate. }
    unfold Reconciler.reconcile, Reconciler.bind.
    destruct (settle p wt req (Locals db zero_Result)) as [l1 [e|ow]] eqn:Hs.
    { simpl. repeat split; auto using deletes_only_refl. intros; discriminate. }
    destruct (settle_detached _ _ _ _ _ _ Hd Hs) as (H1 & _ & H3).
    specialize (H3 ow eq_refl). simpl in H1.
    destruct (generate wt req (fst ow) (snd ow) l1) as [l2 [e|[old wti]]] eqn:Hg.
    { simpl. repeat split; auto using deletes_only_refl. intros; discriminate. }
    destruct (generate_detached _ _ _ _ _ _ _ Hd Hg) as [H4 H5].
    specialize (H5 _ eq_refl). simpl in H5. rewrite H3 in H5. subst old.
    destruct (db_error Commit).
    { simpl. repeat split; auto using deletes_only_refl. intros; discriminate. }
    rewrite Hd. simpl. rewrite H4. repeat split; auto.
    - intros Hk.
      now apply (settle_detached_none p wt req (Locals db zero_Result)
                   l1 _ Hd Hk Hs).
    - intros r Hk _.
      now apply (settle_detached_one p wt req (Locals db zero_Result)
                   l1 ow r Hd Hk Hs). }
  destruct H as (He & Hdel & Hnone & Hone).
  split; [exact He|]. split; [exact Hdel|].
  split; [intros r; now apply deletes_only_In with (1 := Hdel)|].
  split; [|split; assumption].
  intros Hnd r Hr Hn. apply (deletes_only_keeps _ _ _ _ Hdel Hr).
  now apply other_key_other_ID.
Qed.

Lemma next_ID_fresh (db : table) r : In r db -> (ID r < next_ID db)%Z.
Proof.
  unfold next_ID. induction db as [|a db IH]; simpl; [contradiction|].
  intros [<-|H]; [lia|]. apply IH in H. lia.
Qed.

(** C3.  A call that returns an error leaves the table as it was and
    publishes nothing.  In particular, when the execution of the template
    fails after the row of a new instance was inserted, the row was in the
    transaction and is not in the table after the call. *)
Theorem applyTemplate_rollback (db : table) u p wt req :
  let out := applyTemplate db u p wt req in
  (err out <> None -> instances out = db /\ events out = [])
  /\ (forall e,
        db_error Begin = None -> db_error GetInstances = None ->
        db_error InsertNew = None ->
        of_key wt p req db = [] -> Detached req = false ->
        let new := with_ID (next_ID db) (new_Instance p wt req) in
        snd (Execute wt new) = Some e ->
        In new (tx (fst (reconcile p wt req (Locals db zero_Result))))
        /\ ~ In new (instances out)
        /\ out = Outcome db [] (fst (Execute wt new)) (Some (Opaque e))).
Proof.
  intros out. split.
  - subst out. unfold Reconciler.applyTemplate.
    destruct (db_error Begin); [now simpl|].
    destruct (reconcile p wt req (Locals db zero_Result)) as [l [e|[old wti]]];
      [now simpl|].
    destruct (db_error Commit); simpl; [auto | congruence].
  - intros e Hb Hg Hi Hk Hd new He.
    assert (Hr : reconcile p wt req (Locals db zero_Result)
                 = (Locals (db ++ [new]) (fst (Execute wt new)),
                    inl (Opaque e))).
    { unfold Reconciler.reconcile, Reconciler.settle, Reconciler.generate.
      unfold of_key in Hk. run. rewrite Hg, Hk, Hd, Hi. simpl.
      fold (new_Instance p wt req). fold new. now rewrite He. }
    assert (Ho : out = Outcome db [] (fst (Execute wt new)) (Some (Opaque e))).
    { subst out. unfold Reconciler.applyTemplate. now rewrite Hb, Hr. }
    rewrite Hr, Ho. simpl. repeat split.
    + apply in_or_app. right. now left.
    + intros Hin. apply next_ID_fresh in Hin. subst new. simpl in Hin. lia.
Qed.

Lemma UpdateInstance_IDs (t : table) w :
  map ID (UpdateInstance t w) = map ID t.
Proof.
  unfold UpdateInstance. rewrite map_map. apply map_ext.
  intros a. destruct (Z.eqb_spec (ID a) (ID w)); congruence.
Qed.

Lemma UpdateInstance_In (t : table) w :
  In (ID w) (map ID t) -> In w (UpdateInstance t w).
Proof.
  intros H. apply in_map_iff in H. destruct H as (a & E & Ha).
  unfold UpdateInstance. apply in_map_iff. exists a. split; [|exact Ha].
  now rewrite E, Z.eqb_refl.
Qed.

(** With at most one instance of the key, the instance settled on has its
    row in the transaction. *)
Lemma settle_row p wt req (db : table) l1 old wti :
  Detached req = false ->
  length (of_key wt p req db) <= 1 ->
  settle p wt req (Locals db zero_Result) = (l1, inr (old, wti)) ->
  In (ID wti) (map ID (tx l1)).
Proof.
  intros Hd Hk H. unfold Reconciler.settle in H. rewrite Hd in H.
  unfold of_key in Hk.
  unfold Reconciler.bind at 1, Reconciler.query in H.
  destruct (db_error GetInstances); [discriminate|]. simpl tx in H.
  destruct (GetInstancesByTemplateIDAndProjectIDAndRequestWorkflowName
              db (wt_ID wt) (p_ID p) (WorkflowName req))
    as [|x [|y rest]] eqn:E; [| |simpl in Hk; lia].
  - run. destruct (db_error InsertNew); [discriminate|].
    inversion H; subst. simpl. rewrite map_app. apply in_or_app. right.
    now left.
  - run. destruct (db_error UpdateCandidate); [discriminate|].
    inversion H; subst. simpl. rewrite UpdateInstance_IDs.
    apply in_map.
    assert (Hx : In x [x]) by now left.
    rewrite <- E in Hx.
    unfold GetInstancesByTemplateIDAndProjectIDAndRequestWorkflowName in Hx.
    now apply filter_In in Hx.
Qed.

(** The stamping of the generated workflow.  A non-detached apply whose
    execution of the template succeeded parses the generated workflow; a
    text that does not parse gives the wrong-request error "Cannot parse
    generated workflow"; otherwise the name found is set in the instance,
    which is updated in the transaction; the workflow with the path
    [group/slug] of the template is serialized again, a failure giving the
    wrong-request error "Cannot add template info to generated workflow";
    the text returned is the serialized one, and after the commit the
    table is the one of the transaction.  The row of the instance holds
    the name when the instance has a row in the transaction, as it has
    when the lookup found at most one instance. *)
Theorem applyTemplate_stamps (db : table) u p wt req l1 old wti r :
  Detached req = false ->
  db_error Begin = None ->
  settle p wt req (Locals db zero_Result) = (l1, inr (old, wti)) ->
  Execute wt wti = (r, None) ->
  let out := applyTemplate db u p wt req in
  let templatePath := GroupName wt +:+ "/" +:+ Slug wt in
  match yaml_Unmarshal (Workflow r) with
  | inl e =>
      err out = Some (NewError ErrWrongRequest
                        "Cannot parse generated workflow" (Opaque e))
  | inr wor =>
      let wti' := set_WorkflowName (Name wor) wti in
      match db_error UpdateName with
      | Some e => err out = Some (Opaque e)
      | None =>
          match yaml_Marshal (set_Template templatePath wor) with
          | inl e =>
              err out =
              Some (NewError ErrWrongRequest
                      "Cannot add template info to generated workflow"
                      (Opaque e))
          | inr b =>
              returned out = set_Workflow b r
              /\ match db_error Commit with
                 | Some e =>
                     err out = Some (WrapError (Opaque e)
                                       "cannot commit transaction")
                 | None =>
                     err out = None
                     /\ instances out = UpdateInstance (tx l1) wti'
                     /\ (In (ID wti) (map ID (tx l1)) ->
                         In wti' (instances out))
                     /\ (length (of_key wt p req db) <= 1 ->
                         In wti' (instances out))
                 end
          end
      end
  end.
Proof.
  intros Hd Hb Hs He out templatePath. subst out.
  unfold Reconciler.applyTemplate, Reconciler.reconcile, Reconciler.bind.
  rewrite Hb, Hs. unfold fst, snd.
  unfold Reconciler.generate. rewrite He, Hd. run.
  destruct (yaml_Unmarshal (Workflow r)) as [e|wor]; [reflexivity|].
  destruct (db_error UpdateName); [reflexivity|].
  fold templatePath.
  destruct (yaml_Marshal (set_Template templatePath wor)) as [e|b];
    [reflexivity|].
  destruct (db_error Commit); simpl; [now split|].
  assert (Hin : In (ID wti) (map ID (tx l1)) ->
                In (set_WorkflowName (Name wor) wti)
                   (UpdateInstance (tx l1) (set_WorkflowName (Name wor) wti))).
  { intros H. now apply UpdateInstance_In. }
  repeat split; auto.
  intros Hk. apply Hin. now apply (settle_row p wt req db l1 old wti).
Qed.

End Apply.

(** A detached request for a key that has one row and another key's row. *)
Lemma applyTemplate_detached_witness :
  let db := [Fixtures.demo_row 1;
             {| ID := 2; WorkflowTemplateID := 8; ProjectID := 3;
                WorkflowTemplateVersion := 1;
                Request := Fixtures.demo_req false;
                InstanceWorkflowName := "w" |}] in
  let out := Fixtures.demo_apply Fixtures.demo_Execute db
               (Fixtures.demo_req true) in
  events out = []
  /\ (forall r, In r (instances out) -> In r db)
  /\ instances out = DeleteInstance db (Fixtures.demo_row 1).
Proof.
  intros db out.
  destruct (applyTemplate_detached Fixtures.no_db_error Fixtures.demo_Execute
              Fixtures.demo_Unmarshal_Workflow Fixtures.demo_Marshal_Workflow
              1700000000 db Fixtures.demo_u Fixtures.demo_p Fixtures.demo_wt
              (Fixtures.demo_req true) eq_refl)
    as (He & _ & Hin & _ & _ & Hone).
  split; [exact He|]. split; [exact Hin|].
  apply Hone; reflexivity.
Defined.

(** C1 as stated fails: a detached apply deletes the row of the key of the
    request. *)
Lemma applyTemplate_detached_counterexample :
  let db := [Fixtures.demo_row 1] in
  let out := Fixtures.demo_apply Fixtures.demo_Execute db
               (Fixtures.demo_req true) in
  err out = None /\ instances out = [] /\ instances out <> db.
Proof. repeat split. discriminate. Qed.

(** The execution fails after the insertion of the row of a new instance. *)
Lemma applyTemplate_rollback_witness :
  let out := Fixtures.demo_apply Fixtures.failing_Execute []
               (Fixtures.demo_req false) in
  instances out = [] /\ events out = []
  /\ out = Outcome [] [] zero_Result
                   (Some (Opaque "template: execution failed")).
Proof.
  intros out.
  destruct (applyTemplate_rollback Fixtures.no_db_error
              Fixtures.failing_Execute
              Fixtures.demo_Unmarshal_Workflow Fixtures.demo_Marshal_Workflow
              1700000000 [] Fixtures.demo_u Fixtures.demo_p Fixtures.demo_wt
              (Fixtures.demo_req false)) as [H1 H2].
  destruct H1 as [Hi He]; [discriminate|].
  split; [exact Hi|]. split; [exact He|].
  apply (H2 "template: execution failed"); reflexivity.
Defined.

(** A first apply of the template to the project: the row inserted holds
    the name read in the generated workflow, and the text returned carries
    the path of the template. *)
Lemma applyTemplate_stamps_witness :
  let out := Fixtures.demo_apply Fixtures.demo_Execute []
               (Fixtures.demo_req false) in
  let wti := {| ID := 1; WorkflowTemplateID := 7; ProjectID := 3;
                WorkflowTemplateVersion := 2;
                Request := Fixtures.demo_req false;
                InstanceWorkflowName := "w" |} in
  Workflow (returned out) = "name: w template: grp/tpl"
  /\ err out = None
  /\ In wti (instances out).
Proof.
  intros out wti.
  pose proof (applyTemplate_stamps Fixtures.no_db_error Fixtures.demo_Execute
                Fixtures.demo_Unmarshal_Workflow Fixtures.demo_Marshal_Workflow
                1700000000 [] Fixtures.demo_u Fixtures.demo_p Fixtures.demo_wt
                (Fixtures.demo_req false)
                (Locals [with_ID 1 (new_Instance Fixtures.demo_p
                                      Fixtures.demo_wt
                                      (Fixtures.demo_req false))]
                        zero_Result)
                None
                (with_ID 1 (new_Instance Fixtures.demo_p Fixtures.demo_wt
                              (Fixtures.demo_req false)))
                (fst (Fixtures.demo_Execute Fixtures.demo_wt
                        (with_ID 1 (new_Instance Fixtures.demo_p
                                      Fixtures.demo_wt
                                      (Fixtures.demo_req false)))))
                eq_refl eq_refl eq_refl eq_refl) as H.
  simpl in H. destruct H as (Hr & He & _ & _ & Hin).
  split; [exact (f_equal Workflow Hr)|]. split; [exact He|].
  apply Hin. simpl. lia.
Defined.

(** C2 at a table that holds two rows of the key of the request.  The
    apply succeeds and the first row survives, but the candidate of the call
    is the second row, which the loop deleted: the event published is about
    the instance 2, and the row 1 keeps the version 1 of the template,
    where the template applied has the version 2. *)
Theorem applyTemplate_duplicates_candidate :
  let db := [Fixtures.demo_row 1; Fixtures.demo_row 2] in
  let out := Fixtures.demo_apply Fixtures.demo_Execute db
               (Fixtures.demo_req false) in
  err out = None
  /\ instances out = [Fixtures.demo_row 1]
  /\ events out =
     [WorkflowTemplateInstanceUpdate
        (Fixtures.demo_row 2)
        (set_Request (Version Fixtures.demo_wt) (Fixtures.demo_req false)
           (Fixtures.demo_row 2))
        Fixtures.demo_u]
  /\ fst (range_wtis Fixtures.no_db_error db nil zero_Instance
            (Locals db zero_Result))
     = Locals [Fixtures.demo_row 1] zero_Result
  /\ snd (range_wtis Fixtures.no_db_error db nil zero_Instance
            (Locals db zero_Result))
     = inr (addr_res, Fixtures.demo_row 2).
Proof. repeat split. Qed.


End ReconcilerFacts.

(** * Facts about the bulk handlers *)
Module BulkFacts.
Import Bulk.

Lemma key_pair o1 o2 : pair_of o1 = pair_of o2 -> key o1 = key o2.
Proof. unfold pair_of, key. intros H. inversion H as [[H1 H2]]. now rewrite H1, H2. Qed.

Section Post.

Context (LoadGroup : string -> error + Z).
Context (LoadBySlugAndGroupID : string -> Z -> error + option WorkflowTemplate).
Context (CheckParams :
           WorkflowTemplate -> WorkflowTemplateRequest -> option error).
Context (checkProjectPermissions : string -> option error).
Context (InsertBulk_error : option error).

Local Abbreviation check_requests := (Bulk.check_requests CheckParams).
Local Abbreviation postTemplateBulkHandler :=
  (Bulk.postTemplateBulkHandler LoadGroup LoadBySlugAndGroupID CheckParams
     checkProjectPermissions InsertBulk_error).

(** The pre-flight loop lets through only the lists whose keys are
    pairwise distinct and new, and whose requests all pass the check of
    the parameters. *)
Lemma check_requests_None wt ops (m : gset string) :
  check_requests wt ops m = None ->
  NoDup (key <$> ops)
  /\ (forall o, o ∈ ops -> key o ∉ m)
  /\ (forall o, o ∈ ops -> CheckParams wt (OpRequest o) = None).
Proof.
  revert m. induction ops as [|o ops IH]; intros m H; simpl in H.
  - split; [constructor|]. split; intros o Ho; inversion Ho.
  - destruct (decide (key o ∈ m)) as [|Hm]; [discriminate|].
    destruct (CheckParams wt (OpRequest o)) eqn:Hc; [discriminate|].
    apply IH in H. destruct H as (Hnd & Hnew & Hok).
    split; [|split].
    + rewrite fmap_cons. apply NoDup_cons. split; [|exact Hnd].
      intros Hin. apply list_elem_of_fmap in Hin.
      destruct Hin as (o' & E & Ho'). apply Hnew in Ho'.
      apply Ho'. rewrite <- E. apply elem_of_union_l.
      now apply elem_of_singleton.
    + intros o' Ho'. apply elem_of_cons in Ho'. destruct Ho' as [->|Ho'];
        [exact Hm|]. apply Hnew in Ho'. intros Hin. apply Ho'.
      now apply elem_of_union_r.
    + intros o' Ho'. apply elem_of_cons in Ho'. destruct Ho' as [->|Ho'];
        [exact Hc | now apply Hok].
Qed.

(** A handler that replies with an error stores nothing and starts
    nothing. *)
Lemma postTemplateBulkHandler_error db u groupName templateSlug body e :
  reply (postTemplateBulkHandler db u groupName templateSlug body) = inl e ->
  stored (postTemplateBulkHandler db u groupName templateSlug body) = db
  /\ started (postTemplateBulkHandler db u groupName templateSlug body) = None.
Proof.
  unfold Bulk.postTemplateBulkHandler.
  destruct (LoadGroup groupName) as [?|g]; [now simpl|].
  destruct (LoadBySlugAndGroupID templateSlug g) as [?|[wt|]]; [now simpl| |now simpl].
  destruct body as [?|req]; [now simpl|].
  destruct (check_requests wt (Operations req) ∅); [now simpl|].
  destruct (if Admin u then None else _); [now simpl|].
  destruct InsertBulk_error; [now simpl|].
  simpl. discriminate.
Qed.

(** C4.  A bulk request in which two operations have the same project key
    and workflow name, or in which the request of an operation does not
    pass the check of the parameters of the template, is rejected: the
    handler replies with an error, the bulk table is unchanged and the
    goroutine is not started. *)
Theorem postTemplateBulkHandler_rejects db u groupName templateSlug req g wt :
  LoadGroup groupName = inr g ->
  LoadBySlugAndGroupID templateSlug g = inr (Some wt) ->
  (exists i j oi oj,
      i < j /\ Operations req !! i = Some oi /\ Operations req !! j = Some oj
      /\ pair_of oi = pair_of oj)
  \/ (exists o, In o (Operations req)
                /\ CheckParams wt (OpRequest o) <> None) ->
  let h := postTemplateBulkHandler db u groupName templateSlug (inr req) in
  (exists e, reply h = inl e) /\ stored h = db /\ started h = None.
Proof.
  intros Hg Hwt Hbad h.
  assert (He : exists e, reply h = inl e).
  { subst h. unfold Bulk.postTemplateBulkHandler. rewrite Hg, Hwt.
    destruct (check_requests wt (Operations req) ∅) as [e|] eqn:Hc;
      [now exists e|].
    exfalso. apply check_requests_None in Hc. destruct Hc as (Hnd & _ & Hok).
    destruct Hbad as [(i & j & oi & oj & Hij & Hi & Hj & Hp)|(o & Ho & Hno)].
    - apply key_pair in Hp.
      assert (i = j); [|lia].
      apply (NoDup_lookup _ i j (key oi) Hnd); rewrite list_lookup_fmap.
      + now rewrite Hi.
      + now rewrite Hj, Hp.
    - apply Hno, Hok. now apply list_elem_of_In. }
  split; [exact He|]. destruct He as [e He].
  now apply postTemplateBulkHandler_error with (e := e).
Qed.

(** C10.  The two operations ("p-x", "w") and ("p", "x-w") are not about
    the same project key and workflow name, but have the same key
    "p-x-w": the request that holds them is rejected as not unique. *)
Theorem key_not_injective db u groupName templateSlug g wt :
  LoadGroup groupName = inr g ->
  LoadBySlugAndGroupID templateSlug g = inr (Some wt) ->
  let r1 := {| ProjectKey := "p-x"; WorkflowName := "w"; Parameters := [];
               Detached := false |} in
  let r2 := {| ProjectKey := "p"; WorkflowName := "x-w"; Parameters := [];
               Detached := false |} in
  let op r := {| Status := OperationStatusPending; Error := "";
                 OpRequest := r |} in
  CheckParams wt r1 = None ->
  let h := postTemplateBulkHandler db u groupName templateSlug
             (inr {| bulk_ID := 0; UserID := 0; bulk_WorkflowTemplateID := 0;
                     Operations := [op r1; op r2] |}) in
  pair_of (op r1) <> pair_of (op r2)
  /\ key (op r1) = key (op r2)
  /\ reply h = inl not_unique
  /\ stored h = db.
Proof.
  intros Hg Hwt r1 r2 op Hc h.
  split; [discriminate|]. split; [reflexivity|].
  assert (Hr : reply h = inl not_unique).
  { subst h. unfold Bulk.postTemplateBulkHandler. rewrite Hg, Hwt.
    simpl. destruct (decide (key (op r1) ∈ (∅ : gset string))) as [Hin|_];
      [set_solver|].
    fold r1. rewrite Hc.
    destruct (decide (key (op r2) ∈ {[key (op r1)]} ∪ (∅ : gset string)))
      as [_|Hn]; [reflexivity|].
    exfalso. apply Hn. change (key (op r2)) with (key (op r1)). set_solver. }
  split; [exact Hr|].
  now apply postTemplateBulkHandler_error with (e := not_unique).
Qed.

(** A handler that replies with the job has stored it, with all its
  operations pending and the requests of the body in their order, and has
  started the goroutine on it. *)
Lemma postTemplateBulkHandler_pending db u groupName templateSlug body b :
reply (postTemplateBulkHandler db u groupName templateSlug body) = inr b ->
started (postTemplateBulkHandler db u groupName templateSlug body) = Some b
/\ stored (postTemplateBulkHandler db u groupName templateSlug body)
   = db ++ [b]
/\ Forall (fun o => Status o = OperationStatusPending /\ Error o = "")
          (Operations b)
/\ (forall req, body = inr req ->
                map OpRequest (Operations b) = map OpRequest (Operations req)).
Proof.
unfold Bulk.postTemplateBulkHandler.
destruct (LoadGroup groupName) as [?|g]; [discriminate|].
destruct (LoadBySlugAndGroupID templateSlug g) as [?|[wt|]];
  [discriminate| |discriminate].
destruct body as [?|req]; [discriminate|].
destruct (check_requests wt (Operations req) ∅); [discriminate|].
destruct (if Admin u then None else _); [discriminate|].
destruct InsertBulk_error; [discriminate|].
simpl. intros H. inversion H; subst. clear H. simpl.
split; [reflexivity|]. split; [reflexivity|]. split.
- apply Forall_forall. intros o Ho. apply list_elem_of_In, in_map_iff in Ho.
  destruct Ho as (o' & <- & _). now split.
- intros req' E. inversion E; subst. rewrite map_map. reflexivity.
Qed.

End Post.

(** ** The goroutine *)

Lemma stepwise_one {A} (R : A -> A -> Prop) (x : A) : stepwise R [x].
Proof. intros k a b Ha Hb. destruct k; discriminate. Qed.

Lemma stepwise_snoc {A} (R : A -> A -> Prop) (l : list A) (x y : A) :
  stepwise R (l ++ [x]) -> R x y -> stepwise R ((l ++ [x]) ++ [y]).
Proof.
  intros H Hxy k a b Ha Hb.
  destruct (decide (S k < length (l ++ [x]))) as [Hlt|Hge].
  - rewrite lookup_app_l in Ha by lia. rewrite lookup_app_l in Hb by lia.
    now apply (H k).
  - assert (Hk : S k = length (l ++ [x])).
    { apply lookup_lt_Some in Hb. rewrite length_app in Hb. simpl in Hb. lia. }
    rewrite lookup_app_r in Hb by lia.
    rewrite Hk, Nat.sub_diag in Hb. simpl in Hb. inversion Hb; subst b.
    rewrite lookup_app_l in Ha by lia.
    rewrite length_app in Hk. simpl in Hk.
    rewrite lookup_app_r in Ha by lia.
    replace (k - length l) with 0 in Ha by lia. simpl in Ha.
    now inversion Ha; subst a.
Qed.

Lemma map_alter_Status (f : WorkflowTemplateBulkOperation ->
                            WorkflowTemplateBulkOperation)
  (s : OperationStatus) i (l : list WorkflowTemplateBulkOperation) :
  (forall o, Status (f o) = s) -> i < length l ->
  map Status (alter f i l) = <[i:=s]> (map Status l).
Proof.
  intros Hf. revert i. induction l as [|a l IH]; intros i Hi; simpl in *; [lia|].
  destruct i; simpl.
  - now rewrite Hf.
  - f_equal. apply IH. lia.
Qed.

Lemma map_alter_same {B} (g : WorkflowTemplateBulkOperation -> B)
  (f : WorkflowTemplateBulkOperation -> WorkflowTemplateBulkOperation)
  i (l : list WorkflowTemplateBulkOperation) :
  (forall o, g (f o) = g o) -> map g (alter f i l) = map g l.
Proof.
  intros Hf. revert i. induction l as [|a l IH]; intros i; simpl; [reflexivity|].
  destruct i; simpl.
  - now rewrite Hf.
  - f_equal. apply IH.
Qed.

Lemma statuses_set_Status i s b :
  i < length (Operations b) ->
  statuses (set_Status i s b) = <[i:=s]> (statuses b).
Proof. intros H. unfold statuses. simpl. now apply map_alter_Status. Qed.

Lemma statuses_set_Error i e b : statuses (set_Error i e b) = statuses b.
Proof. unfold statuses. simpl. now apply map_alter_same. Qed.

Lemma requests_set_Status i s b : requests (set_Status i s b) = requests b.
Proof. unfold requests. simpl. now apply map_alter_same. Qed.

Lemma requests_set_Error i e b : requests (set_Error i e b) = requests b.
Proof. unfold requests. simpl. now apply map_alter_same. Qed.

Lemma statuses_length b : length (statuses b) = length (Operations b).
Proof. unfold statuses. apply length_map. Qed.

Lemma statuses_lookup b i o :
  Operations b !! i = Some o -> statuses b !! i = Some (Status o).
Proof.
  unfold statuses. intros H.
  change (map Status (Operations b)) with (Status <$> Operations b).
  now rewrite list_lookup_fmap, H.
Qed.

Section Apply.

Context (UpdateBulk_error : nat -> option string).
Context (project_Load : nat -> string -> string + Project).
Context (db_error : nat -> Reconciler.db_call -> option string).
Context (Execute : WorkflowTemplate -> WorkflowTemplateInstance ->
                   WorkflowTemplateResult * option string).
Context (yaml_Unmarshal : string -> string + ExportedWorkflow).
Context (yaml_Marshal : ExportedWorkflow -> string + string).
Context (now : Z).
Context (Tar : WorkflowTemplate -> WorkflowTemplateResult -> string + list byte).
Context (Push : nat -> Project -> list byte -> option string).
Context (Cause : error -> string).
Context (u : AuthentifiedUser) (wt : WorkflowTemplate).
Context (LoadGroup : string -> error + Z).
Context (LoadBySlugAndGroupID : string -> Z -> error + option WorkflowTemplate).
Context (GetBulk_error : option error).
Context (sort_Slice :
           (WorkflowTemplateBulkOperation -> WorkflowTemplateBulkOperation ->
            bool) ->
           list WorkflowTemplateBulkOperation ->
           list WorkflowTemplateBulkOperation).

Local Abbreviation getTemplateBulkHandler :=
  (Bulk.getTemplateBulkHandler LoadGroup LoadBySlugAndGroupID GetBulk_error
     sort_Slice).
Local Abbreviation verdict :=
  (Bulk.verdict project_Load db_error Execute yaml_Unmarshal yaml_Marshal now
     Tar Push Cause u wt).
Local Abbreviation closed :=
  (Bulk.closed project_Load db_error Execute yaml_Unmarshal yaml_Marshal now
     Tar Push Cause u wt).
Local Abbreviation explained := (Bulk.explained Cause).
Local Abbreviation ordered := (Bulk.ordered Cause).
Local Abbreviation update := (Bulk.update UpdateBulk_error).
Local Abbreviation errorDefer := (Bulk.errorDefer UpdateBulk_error Cause).
Local Abbreviation operation :=
  (Bulk.operation UpdateBulk_error project_Load db_error Execute
     yaml_Unmarshal yaml_Marshal now Tar Push Cause u wt).
Local Abbreviation range_Operations :=
  (Bulk.range_Operations UpdateBulk_error project_Load db_error Execute
     yaml_Unmarshal yaml_Marshal now Tar Push Cause u wt).
Local Abbreviation templateBulkApply :=
  (Bulk.templateBulkApply UpdateBulk_error project_Load db_error Execute
     yaml_Unmarshal yaml_Marshal now Tar Push Cause u wt).

Lemma update_spec t :
  bulk (fst (update t)) = bulk t
  /\ instances (fst (update t)) = instances t
  /\ calls (fst (update t)) = S (calls t)
  /\ (snd (update t) = true ->
      UpdateBulk_error (calls t) = None
      /\ persisted (fst (update t)) = persisted t ++ [bulk t])
  /\ (snd (update t) = false -> persisted (fst (update t)) = persisted t)
  /\ (UpdateBulk_error (calls t) = None -> snd (update t) = true).
Proof.
  unfold Bulk.update. destruct (UpdateBulk_error (calls t)); simpl;
    repeat split; auto; discriminate.
Qed.

Lemma alter_twice (f g : WorkflowTemplateBulkOperation ->
                         WorkflowTemplateBulkOperation) i
  (l : list WorkflowTemplateBulkOperation) :
  alter g i (alter f i l) = alter (fun o => g (f o)) i l.
Proof.
  revert i. induction l as [|a l IH]; intros i; [reflexivity|].
  destruct i; simpl; [reflexivity|]. f_equal. apply IH.
Qed.

Lemma alter_agree (f g : WorkflowTemplateBulkOperation ->
                         WorkflowTemplateBulkOperation) i o
  (l : list WorkflowTemplateBulkOperation) :
  l !! i = Some o -> f o = g o -> alter f i l = alter g i l.
Proof.
  revert i. induction l as [|a l IH]; intros i H E; [reflexivity|].
  destruct i; simpl in *.
  - inversion H; subst. now rewrite E.
  - f_equal. now apply IH.
Qed.

(** The iteration on a pending operation: the status [Processing] is
    stored, then the status and the text the steps decide. *)
Lemma operation_pending i t o :
  Operations (bulk t) !! i = Some o ->
  Status o = OperationStatusPending ->
  let b1 := set_Status i OperationStatusProcessing (bulk t) in
  let t1 := fst (update (with_bulk b1 t)) in
  let b2 := closed i o (instances t) (bulk t) in
  if snd (update (with_bulk b1 t)) then
    exists t2,
      bulk t2 = b2 /\ persisted t2 = persisted t1 /\ calls t2 = calls t1
      /\ operation i t = update t2
  else operation i t = (t1, false).
Proof.
  intros Ho Hs b1 t1 b2. unfold Bulk.operation. rewrite Ho, Hs.
  fold b1. destruct (update (with_bulk b1 t)) as [t1' [|]] eqn:Hu;
    simpl; subst t1; [|reflexivity].
  pose proof (update_spec (with_bulk b1 t)) as (Hb & Hi & Hc & _).
  rewrite Hu in Hb, Hi, Hc. simpl in Hb, Hi, Hc.
  assert (Hclose : forall st txt,
             verdict i o (instances t) = (st, txt) ->
             set_Operations (fun o' => {| Status := st; Error := txt;
                                          OpRequest := OpRequest o' |}) i b1
             = b2).
  { intros st txt Hv. subst b2 b1. unfold Bulk.closed, set_Status, set_Operations.
    simpl. rewrite Hv. simpl. f_equal. rewrite alter_twice.
    now apply (alter_agree _ _ i o). }
  assert (Herr : forall e,
             set_Error i e (set_Status i OperationStatusError b1)
             = set_Operations (fun o' => {| Status := OperationStatusError;
                                            Error := e;
                                            OpRequest := OpRequest o' |}) i b1).
  { intros e. unfold set_Error, set_Status, set_Operations. simpl. f_equal.
    now rewrite alter_twice. }
  assert (Hdone : set_Status i OperationStatusDone b1
                  = set_Operations (fun o' => {| Status := OperationStatusDone;
                                                 Error := Error o;
                                                 OpRequest := OpRequest o' |})
                      i b1).
  { subst b1. unfold set_Status, set_Operations. simpl. f_equal.
    rewrite !alter_twice. now apply (alter_agree _ _ i o). }
  unfold Bulk.verdict in Hclose. unfold Bulk.errorDefer.
  rewrite Hi in *.
  destruct (project_Load i (ProjectKey (OpRequest o))) as [e|p].
  { eexists. split; [|split; [|split; [|reflexivity]]]; simpl; auto.
    rewrite Hb, Herr. now apply Hclose. }
  simpl.
  destruct (Reconciler.err _) as [e|].
  { eexists. split; [|split; [|split; [|reflexivity]]]; simpl; auto.
    rewrite Hb, Herr. now apply Hclose. }
  destruct (Tar wt _) as [e|buf].
  { eexists. split; [|split; [|split; [|reflexivity]]]; simpl; auto.
    rewrite Hb, Herr. now apply Hclose. }
  destruct (Push i p buf) as [e|].
  { eexists. split; [|split; [|split; [|reflexivity]]]; simpl; auto.
    rewrite Hb, Herr. now apply Hclose. }
  eexists. split; [|split; [|split; [|reflexivity]]]; simpl; auto.
  rewrite Hb, Hdone. now apply Hclose.
Qed.

Lemma verdict_terminal i o rows : terminal (fst (verdict i o rows)).
Proof.
  unfold Bulk.verdict, terminal.
  repeat match goal with
         | |- context [match ?c with _ => _ end] => destruct c
         end; simpl; auto.
Qed.

Lemma verdict_error i o rows :
  fst (verdict i o rows) = OperationStatusError ->
  exists e, snd (verdict i o rows) = Cause e.
Proof.
  unfold Bulk.verdict.
  repeat match goal with
         | |- context [match ?c with _ => _ end] => destruct c
         end; simpl; intros H; try discriminate; eexists; reflexivity.
Qed.

Lemma operation_skip i t o :
  Operations (bulk t) !! i = Some o ->
  Status o <> OperationStatusPending ->
  operation i t = (t, true).
Proof.
  intros Ho Hs. unfold Bulk.operation. rewrite Ho.
  destruct (Status o); [contradiction| | |]; reflexivity.
Qed.

Lemma operation_none i t :
  Operations (bulk t) !! i = None -> operation i t = (t, false).
Proof. intros Ho. unfold Bulk.operation. now rewrite Ho. Qed.

Lemma statuses_closed i o rows b :
  i < length (Operations b) ->
  statuses (closed i o rows b) = <[i:=fst (verdict i o rows)]> (statuses b).
Proof. intros H. unfold statuses, Bulk.closed. simpl. now apply map_alter_Status. Qed.

Lemma requests_closed i o rows b :
  Operations b !! i = Some o -> requests (closed i o rows b) = requests b.
Proof.
  intros H. unfold requests, Bulk.closed. simpl.
  rewrite (alter_agree _ (fun o' => {| Status := fst (verdict i o rows);
                                       Error := snd (verdict i o rows);
                                       OpRequest := OpRequest o' |}) i o);
    auto.
  now apply map_alter_same.
Qed.

Lemma synced_traced b0 t : synced b0 t -> traced b0 t.
Proof. intros (l & E & H). unfold traced. now rewrite E. Qed.

Lemma synced_snoc b0 t t' :
  synced b0 t ->
  persisted t' = persisted t ++ [bulk t'] ->
  advance (statuses (bulk t)) (statuses (bulk t')) ->
  synced b0 t'.
Proof.
  intros (l & E & H) Hp Ha. exists (l ++ [statuses (bulk t)]). split.
  - rewrite Hp. change (b0 :: persisted t ++ [bulk t'])
      with ((b0 :: persisted t) ++ [bulk t']).
    rewrite map_app, E. reflexivity.
  - now apply stepwise_snoc.
Qed.

Lemma operation_synced b0 i t :
  synced b0 t ->
  traced b0 (fst (operation i t))
  /\ (snd (operation i t) = true -> synced b0 (fst (operation i t))).
Proof.
  intros Hs.
  destruct (Operations (bulk t) !! i) as [o|] eqn:Ho;
    [|rewrite operation_none by exact Ho; simpl;
      split; [now apply synced_traced | discriminate]].
  destruct (Status o) eqn:Hst;
    try (rewrite (operation_skip i t o Ho) by congruence; simpl;
         split; [now apply synced_traced | auto]).
  pose proof (operation_pending i t o Ho Hst) as Hop. simpl in Hop.
  assert (Hi : i < length (Operations (bulk t)))
    by (now apply lookup_lt_Some in Ho).
  set (b1 := set_Status i OperationStatusProcessing (bulk t)) in *.
  pose proof (update_spec (with_bulk b1 t)) as (Hb & _ & _ & Ht & Hf & _).
  simpl in Hb, Ht, Hf.
  assert (Ha1 : advance (statuses (bulk t)) (statuses b1)).
  { exists i, OperationStatusPending, OperationStatusProcessing.
    split; [rewrite (statuses_lookup _ _ _ Ho); now rewrite Hst|].
    split; [constructor|]. subst b1. now apply statuses_set_Status. }
  destruct (snd (update (with_bulk b1 t))) eqn:Hu.
  - destruct (Ht eq_refl) as [_ Hp]. clear Ht Hf.
    assert (Hs1 : synced b0 (fst (update (with_bulk b1 t)))).
    { apply (synced_snoc b0 t); [exact Hs | now rewrite Hp, Hb | now rewrite Hb]. }
    destruct Hop as (t2 & Hb2 & Hp2 & _ & Hop). rewrite Hop.
    assert (Hs2 : synced b0 (with_bulk b1 t2)).
    { destruct Hs1 as (l & E & H). exists l. simpl.
      change (persisted (with_bulk b1 t2)) with (persisted t2).
      rewrite Hp2. now rewrite Hb in E, H. }
    assert (Ha2 : advance (statuses b1) (statuses (bulk t2))).
    { exists i, OperationStatusProcessing, (fst (verdict i o (instances t))).
      split.
      { subst b1. rewrite statuses_set_Status by exact Hi.
        apply list_lookup_insert_eq. now rewrite statuses_length. }
      split.
      { destruct (verdict_terminal i o (instances t)) as [-> | ->]; constructor. }
      rewrite Hb2, statuses_closed by exact Hi. subst b1.
      rewrite statuses_set_Status by exact Hi.
      now rewrite list_insert_insert_eq. }
    pose proof (update_spec t2) as (Hb' & _ & _ & Ht' & Hf' & _).
    destruct (snd (update t2)) eqn:Hu2.
    + destruct (Ht' eq_refl) as [_ Hp'].
      assert (Hs3 : synced b0 (fst (update t2))).
      { apply (synced_snoc b0 (with_bulk b1 t2)); [exact Hs2| |].
        - simpl. change (persisted (with_bulk b1 t2)) with (persisted t2).
          now rewrite Hp', Hb'.
        - simpl. now rewrite Hb'. }
      split; [now apply synced_traced | auto].
    + split; [|discriminate]. unfold traced. rewrite (Hf' eq_refl), Hp2.
      now apply synced_traced in Hs1.
  - rewrite Hop. simpl. split; [|discriminate].
    unfold traced. rewrite (Hf eq_refl). now apply synced_traced.
Qed.

Lemma range_Operations_traced b0 idx t :
  synced b0 t -> traced b0 (fst (range_Operations idx t)).
Proof.
  revert t. induction idx as [|i idx IH]; intros t Hs; simpl.
  - now apply synced_traced.
  - destruct (operation_synced b0 i t Hs) as [H1 H2].
    destruct (operation i t) as [t' [|]]; simpl in *; auto.
Qed.

Lemma in_order_insert (S : list OperationStatus) i a :
  (forall j a, j < i -> S !! j = Some a -> terminal a) ->
  (forall j a, i <= j -> S !! j = Some a -> a = OperationStatusPending) ->
  in_order (<[i:=a]> S).
Proof.
  intros H1 H2. exists i. split; intros j b Hj Hb;
    rewrite list_lookup_insert_ne in Hb by lia.
  - now apply (H1 j).
  - apply (H2 j); [lia | exact Hb].
Qed.

Lemma operation_ordered b0 i t :
  (forall n, UpdateBulk_error n = None) ->
  i < length (Operations (bulk t)) ->
  ordered b0 i t ->
  snd (operation i t) = true
  /\ ordered b0 (S i) (fst (operation i t))
  /\ exists o, Operations (bulk t) !! i = Some o
               /\ Status o = OperationStatusPending
               /\ bulk (fst (operation i t)) = closed i o (instances t) (bulk t).
Proof.
  intros Hup Hi (Hreq & Hdone & Hpend & Hexp & Hsnap).
  destruct (lookup_lt_is_Some_2 _ _ Hi) as [o Ho].
  assert (Hst : Status o = OperationStatusPending).
  { apply (Hpend i); [lia|]. now apply statuses_lookup. }
  pose proof (operation_pending i t o Ho Hst) as Hop. simpl in Hop.
  set (b1 := set_Status i OperationStatusProcessing (bulk t)) in *.
  pose proof (update_spec (with_bulk b1 t)) as (Hb & _ & _ & Ht & _ & Hok).
  simpl in Hb, Ht, Hok. rewrite (Hok (Hup _)) in Hop.
  destruct (Ht (Hok (Hup _))) as [_ Hp].
  destruct Hop as (t2 & Hb2 & Hp2 & _ & Hop). rewrite Hop.
  pose proof (update_spec t2) as (Hb' & _ & _ & Ht' & _ & Hok').
  destruct (Ht' (Hok' (Hup _))) as [_ Hp'].
  split; [now apply Hok'|].
  assert (Hs1 : statuses b1 = <[i:=OperationStatusProcessing]> (statuses (bulk t)))
    by (subst b1; now apply statuses_set_Status).
  assert (Hs2 : statuses (bulk t2)
                = <[i:=fst (verdict i o (instances t))]> (statuses (bulk t)))
    by (rewrite Hb2; now apply statuses_closed).
  split; [|exists o; now rewrite Hb', Hb2].
  unfold Bulk.ordered. rewrite Hb', Hp', Hp2, Hp, Hs2, Hb2. simpl.
  split; [rewrite requests_closed by exact Ho; exact Hreq|].
  split; [|split; [|split]].
  - intros j a Hj Ha. destruct (decide (j = i)) as [->|Hne].
    + rewrite list_lookup_insert_eq in Ha by (now rewrite statuses_length).
      inversion Ha; subst. apply verdict_terminal.
    + rewrite list_lookup_insert_ne in Ha by lia. apply (Hdone j); [lia|exact Ha].
  - intros j a Hj Ha. rewrite list_lookup_insert_ne in Ha by lia.
    apply (Hpend j); [lia|exact Ha].
  - unfold Bulk.closed. simpl. apply Forall_alter; [exact Hexp|].
    intros x _ _. unfold Bulk.explained. simpl. apply verdict_error.
  - rewrite <- app_assoc. apply Forall_app. split; [exact Hsnap|].
    constructor; [|constructor; [|constructor]].
    + split; [subst b1; now rewrite requests_set_Status|].
      rewrite Hs1. now apply in_order_insert.
    + split; [rewrite <- Hb2, Hb2; rewrite requests_closed by exact Ho;
              exact Hreq|].
      rewrite <- Hb2, Hs2. now apply in_order_insert.
Qed.

Lemma range_Operations_ordered b0 m i t :
  (forall n, UpdateBulk_error n = None) ->
  i + m = length (requests b0) ->
  ordered b0 i t ->
  snd (range_Operations (seq i m) t) = true
  /\ ordered b0 (i + m) (fst (range_Operations (seq i m) t)).
Proof.
  intros Hup. revert i t. induction m as [|m IH]; intros i t Hn Ho; simpl.
  - rewrite Nat.add_0_r. now split.
  - assert (Hi : i < length (Operations (bulk t))).
    { destruct Ho as (Hreq & _). unfold requests in *.
      rewrite <- (length_map OpRequest), Hreq, length_map.
      rewrite length_map in Hn. lia. }
    destruct (operation_ordered b0 i t Hup Hi Ho) as (Hf & Ho' & _).
    destruct (operation i t) as [t' [|]]; simpl in *; [|discriminate].
    replace (i + S m) with (S i + m) by lia.
    apply IH; [lia | exact Ho'].
Qed.

Lemma alter_const (x : WorkflowTemplateBulkOperation) i
  (l : list WorkflowTemplateBulkOperation) :
  alter (fun _ => x) i l = <[i:=x]> l.
Proof.
  revert i. induction l as [|a l IH]; intros i; [reflexivity|].
  destruct i; simpl; [reflexivity|]. f_equal. apply IH.
Qed.

(** While the job can be stored, the iteration on a pending operation
    changes this operation only and goes on with the next one. *)
Lemma operation_isolated i t o :
  (forall n, UpdateBulk_error n = None) ->
  Operations (bulk t) !! i = Some o ->
  Status o = OperationStatusPending ->
  snd (operation i t) = true
  /\ Operations (bulk (fst (operation i t)))
     = <[i:={| Status := fst (verdict i o (instances t));
               Error := snd (verdict i o (instances t));
               OpRequest := OpRequest o |}]> (Operations (bulk t)).
Proof.
  intros Hup Ho Hst.
  pose proof (operation_pending i t o Ho Hst) as Hop. simpl in Hop.
  set (b1 := set_Status i OperationStatusProcessing (bulk t)) in *.
  pose proof (update_spec (with_bulk b1 t)) as (_ & _ & _ & _ & _ & Hok).
  rewrite (Hok (Hup _)) in Hop.
  destruct Hop as (t2 & Hb2 & _ & _ & Hop). rewrite Hop.
  pose proof (update_spec t2) as (Hb' & _ & _ & _ & _ & Hok').
  split; [now apply Hok'|]. rewrite Hb', Hb2. unfold Bulk.closed. simpl.
  apply alter_const.
Qed.

(** The handler that reads a job back sorts its operations on the workflow
    name of their requests. *)
Lemma getTemplateBulkHandler_sorted bdb v id groupName templateSlug b' :
  getTemplateBulkHandler bdb v id groupName templateSlug = inr b' ->
  exists b, In b bdb /\ bulk_ID b = id
            /\ Operations b' = sort_Slice less (Operations b).
Proof.
  unfold Bulk.getTemplateBulkHandler.
  destruct (Z.eqb id 0); [discriminate|].
  destruct (LoadGroup groupName) as [?|g]; [discriminate|].
  destruct (LoadBySlugAndGroupID templateSlug g) as [?|[wt'|]];
    [discriminate| |discriminate].
  destruct GetBulk_error; [discriminate|].
  destruct (GetBulkByIDAndTemplateID bdb id (wt_ID wt')) as [b|] eqn:Hf;
    [|discriminate].
  destruct (negb (Admin v) && negb (Z.eqb (u_ID v) (UserID b)));
    [discriminate|].
  intros H. inversion H; subst. clear H. exists b.
  unfold GetBulkByIDAndTemplateID in Hf. apply find_some in Hf.
  destruct Hf as [Hin Hid]. apply andb_prop in Hid. destruct Hid as [Hid _].
  apply Z.eqb_eq in Hid. now repeat split.
Qed.

(** With a [sort.Slice] that sorts, the operations read back are those
    of the stored job in the order of their workflow names. *)
Lemma getTemplateBulkHandler_by_name bdb v id groupName templateSlug b' :
  sorts sort_Slice ->
  getTemplateBulkHandler bdb v id groupName templateSlug = inr b' ->
  exists b, In b bdb /\ bulk_ID b = id
            /\ Permutation (Operations b') (Operations b)
            /\ Sorted by_name (Operations b').
Proof.
  intros Hsort H.
  destruct (getTemplateBulkHandler_sorted _ _ _ _ _ _ H) as (b & Hin & Hid & ->).
  exists b. destruct (Hsort (Operations b)) as [Hp Hs]. now repeat split.
Qed.

(** C5, as the code has it.  While the job can be stored, the goroutine
    goes through all the operations, in the order of the list and one at a
    time; a step that fails for an operation sets the status [Error] and
    the text of the cause of this failure in this operation only, and the
    loop goes on; the stored states of the job keep the requests in their
    order; reading the job back gives its operations in the order of the
    workflow names of their requests, which [sort.Slice] puts them in. *)
Theorem templateBulkApply_isolates b0 db rows :
  Forall (fun o => Status o = OperationStatusPending) (Operations b0) ->
  (forall n, UpdateBulk_error n = None) ->
  sorts sort_Slice ->
  let t := fst (templateBulkApply b0 db rows) in
  snd (templateBulkApply b0 db rows) = true
  /\ requests (bulk t) = requests b0
  /\ Forall terminal (statuses (bulk t))
  /\ Forall explained (Operations (bulk t))
  /\ Forall (snapshot b0) (persisted t)
  /\ (forall i t0 o,
        Operations (bulk t0) !! i = Some o ->
        Status o = OperationStatusPending ->
        snd (operation i t0) = true
        /\ Operations (bulk (fst (operation i t0)))
           = <[i:={| Status := fst (verdict i o (instances t0));
                     Error := snd (verdict i o (instances t0));
                     OpRequest := OpRequest o |}]> (Operations (bulk t0)))
  /\ (forall bdb v id groupName templateSlug b',
        getTemplateBulkHandler bdb v id groupName templateSlug = inr b' ->
        exists b, In b bdb /\ bulk_ID b = id
                  /\ Permutation (Operations b') (Operations b)
                  /\ Sorted by_name (Operations b')).
Proof.
  intros Hpend Hup Hsort t.
  assert (Hinit : ordered b0 0 (Task b0 db rows [] [] 0)).
  { unfold Bulk.ordered. simpl. split; [reflexivity|].
    split; [intros j a Hj; lia|]. split; [|split; [|constructor]].
    - intros j a _ Ha. unfold statuses in Ha.
      change (map Status (Operations b0)) with (Status <$> Operations b0) in Ha.
      rewrite list_lookup_fmap in Ha.
      destruct (Operations b0 !! j) as [o|] eqn:Ho; [|discriminate].
      inversion Ha; subst.
      rewrite Forall_forall in Hpend. apply Hpend.
      now apply list_elem_of_lookup_2 with (i := j).
    - apply Forall_forall. intros o Ho. rewrite Forall_forall in Hpend.
      intros E. rewrite (Hpend o Ho) in E. discriminate. }
  destruct (range_Operations_ordered b0 (length (Operations b0)) 0
              (Task b0 db rows [] [] 0) Hup) as [Hf Ho];
    [unfold requests; now rewrite length_map | exact Hinit |].
  fold (templateBulkApply b0 db rows) in Hf, Ho. fold t in Ho.
  destruct Ho as (Hreq & Hdone & _ & Hexp & Hsnap). simpl in Hdone.
  split; [exact Hf|]. split; [exact Hreq|].
  split; [|split; [exact Hexp|split; [exact Hsnap|split]]].
  - apply Forall_forall. intros a Ha.
    apply list_elem_of_lookup_1 in Ha. destruct Ha as [j Hj].
    apply (Hdone j a); [|exact Hj]. apply lookup_lt_Some in Hj.
    rewrite statuses_length in Hj.
    assert (length (Operations (bulk t)) = length (Operations b0)).
    { unfold requests in Hreq.
      now rewrite <- (length_map OpRequest), Hreq, length_map. }
    lia.
  - intros i t0 o. now apply operation_isolated.
  - intros bdb v id groupName templateSlug b'.
    now apply getTemplateBulkHandler_by_name.
Qed.

(** The stored states of a job, whatever the failures: each one is one step
    of one operation after the one before. *)
Lemma templateBulkApply_traced b0 db rows :
  stepwise advance
    (map statuses (b0 :: persisted (fst (templateBulkApply b0 db rows)))).
Proof.
  apply (range_Operations_traced b0). exists []. split; [reflexivity|].
  apply stepwise_one.
Qed.

End Apply.

(** C6.  A job the handler replies with is stored as a whole, with all
    its operations in the status [Pending], and the goroutine is started on
    it; from one stored state of the job to the next, one operation makes
    one step of [Pending -> Processing -> Done] or [Pending -> Processing ->
    Error] and the other operations keep their status, whichever calls
    fail. *)
Theorem bulk_operation_lifecycle :
  (forall LoadGroup LoadBySlugAndGroupID CheckParams checkProjectPermissions
          InsertBulk_error db u groupName templateSlug body b,
      let h := Bulk.postTemplateBulkHandler LoadGroup LoadBySlugAndGroupID
                 CheckParams checkProjectPermissions InsertBulk_error
                 db u groupName templateSlug body in
      reply h = inr b ->
      started h = Some b
      /\ stored h = db ++ [b]
      /\ Forall (fun o => Status o = OperationStatusPending /\ Error o = "")
                (Operations b)
      /\ (forall req, body = inr req ->
                      map OpRequest (Operations b)
                      = map OpRequest (Operations req)))
  /\ (forall UpdateBulk_error project_Load db_error Execute yaml_Unmarshal
             yaml_Marshal now Tar Push Cause u wt b0 db rows,
        let t := fst (Bulk.templateBulkApply UpdateBulk_error project_Load
                        db_error Execute yaml_Unmarshal yaml_Marshal now Tar
                        Push Cause u wt b0 db rows) in
        stepwise advance (map statuses (b0 :: persisted t))).
Proof.
  split.
  - intros. now apply postTemplateBulkHandler_pending.
  - intros. apply templateBulkApply_traced.
Qed.

(** The insertion sort of the fixtures does what [sort.Slice] does. *)
Lemma less_asym a b : less a b = true -> less b a = false.
Proof.
  unfold less, String.ltb. rewrite (String.compare_antisym
    (WorkflowName (OpRequest b)) (WorkflowName (OpRequest a))).
  now destruct (String.compare _ _).
Qed.

Lemma demo_insert_Permutation x (l : list WorkflowTemplateBulkOperation) :
  Permutation (Fixtures.demo_insert less x l) (x :: l).
Proof.
  induction l as [|y l IH]; simpl; [reflexivity|].
  destruct (less y x); [|reflexivity].
  rewrite IH. apply perm_swap.
Qed.

Lemma demo_insert_HdRel y x (l : list WorkflowTemplateBulkOperation) :
  by_name y x -> HdRel by_name y l ->
  HdRel by_name y (Fixtures.demo_insert less x l).
Proof.
  intros Hx Hl. destruct l as [|z l]; simpl; [now constructor|].
  inversion Hl; subst. destruct (less z x); now constructor.
Qed.

Lemma demo_insert_Sorted x (l : list WorkflowTemplateBulkOperation) :
  Sorted by_name l -> Sorted by_name (Fixtures.demo_insert less x l).
Proof.
  induction 1 as [|y l Hs IH Hd]; simpl; [repeat constructor|].
  destruct (less y x) eqn:E.
  - constructor; [exact IH|]. apply demo_insert_HdRel; [|exact Hd].
    now apply less_asym.
  - constructor; [now constructor|]. constructor. exact E.
Qed.

Lemma demo_sort_Slice_sorts : sorts (@Fixtures.demo_sort_Slice _).
Proof.
  intros l. unfold Fixtures.demo_sort_Slice.
  induction l as [|x l [Hp Hs]]; simpl; [split; constructor|].
  split.
  - rewrite demo_insert_Permutation. now constructor.
  - now apply demo_insert_Sorted.
Qed.

(** Two operations on the same project and workflow; an operation without
    a workflow name. *)
Lemma postTemplateBulkHandler_rejects_witness :
  (exists e, reply (Fixtures.demo_post []
                      [Fixtures.demo_op "KEY" "a"; Fixtures.demo_op "KEY" "a"])
             = inl e)
  /\ stored (Fixtures.demo_post []
               [Fixtures.demo_op "KEY" "a"; Fixtures.demo_op "KEY" "a"]) = []
  /\ stored (Fixtures.demo_post []
               [Fixtures.demo_op "KEY" "a"; Fixtures.demo_op "KEY" ""]) = [].
Proof.
  pose proof (postTemplateBulkHandler_rejects
                Fixtures.demo_LoadGroup Fixtures.demo_LoadBySlugAndGroupID
                Fixtures.demo_CheckParams Fixtures.demo_checkProjectPermissions
                None [] Fixtures.demo_u "grp" "tpl") as H.
  split; [|split].
  - apply (H (Fixtures.demo_bulk [Fixtures.demo_op "KEY" "a";
                                  Fixtures.demo_op "KEY" "a"])
             1%Z Fixtures.demo_wt eq_refl eq_refl).
    left. exists 0, 1, (Fixtures.demo_op "KEY" "a"), (Fixtures.demo_op "KEY" "a").
    repeat split. lia.
  - apply (H (Fixtures.demo_bulk [Fixtures.demo_op "KEY" "a";
                                  Fixtures.demo_op "KEY" "a"])
             1%Z Fixtures.demo_wt eq_refl eq_refl).
    left. exists 0, 1, (Fixtures.demo_op "KEY" "a"), (Fixtures.demo_op "KEY" "a").
    repeat split. lia.
  - apply (H (Fixtures.demo_bulk [Fixtures.demo_op "KEY" "a";
                                  Fixtures.demo_op "KEY" ""])
             1%Z Fixtures.demo_wt eq_refl eq_refl).
    right. exists (Fixtures.demo_op "KEY" ""). split; [right; now left|].
    discriminate.
Defined.

(** The request of C10 with a check of the parameters that lets its first
    operation through. *)
Lemma key_not_injective_witness :
  reply (Fixtures.demo_post []
           [Fixtures.demo_op "p-x" "w"; Fixtures.demo_op "p" "x-w"])
  = inl not_unique.
Proof.
  apply (key_not_injective
           Fixtures.demo_LoadGroup Fixtures.demo_LoadBySlugAndGroupID
           Fixtures.demo_CheckParams Fixtures.demo_checkProjectPermissions
           None [] Fixtures.demo_u "grp" "tpl" 1%Z Fixtures.demo_wt
           eq_refl eq_refl eq_refl).
Defined.

(** A job of three operations, the second one on a project that does not
    exist, and the job read back. *)
Lemma templateBulkApply_isolates_witness :
  let b := Fixtures.demo_bulk [Fixtures.demo_op "KEY" "c";
                               Fixtures.demo_op "NOPE" "b";
                               Fixtures.demo_op "KEY" "a"] in
  let t := fst (Fixtures.demo_templateBulkApply b [b] []) in
  snd (Fixtures.demo_templateBulkApply b [b] []) = true
  /\ requests (bulk t) = requests b
  /\ Forall terminal (statuses (bulk t))
  /\ statuses (bulk t)
     = [OperationStatusDone; OperationStatusError; OperationStatusDone]
  /\ map Error (Operations (bulk t)) = [""; "project not found"; ""]
  /\ match Fixtures.demo_get (bulks t) 1 with
     | inr b' => Permutation (Operations b') (Operations (bulk t))
                 /\ Sorted by_name (Operations b')
     | inl _ => False
     end.
Proof.
  intros b t.
  destruct (templateBulkApply_isolates
              (fun _ => None) Fixtures.demo_project_Load
              (fun _ => Fixtures.no_db_error) Fixtures.demo_Execute
              Fixtures.demo_Unmarshal_Workflow Fixtures.demo_Marshal_Workflow
              1700000000 Fixtures.demo_Tar Fixtures.demo_Push
              Fixtures.demo_Cause Fixtures.demo_u Fixtures.demo_wt
              Fixtures.demo_LoadGroup Fixtures.demo_LoadBySlugAndGroupID None
              (@Fixtures.demo_sort_Slice _) b [b] [])
    as (Hf & Hr & Ht & _ & _ & _ & Hget).
  - repeat constructor.
  - reflexivity.
  - exact demo_sort_Slice_sorts.
  - split; [exact Hf|]. split; [exact Hr|]. split; [exact Ht|].
    split; [vm_compute; reflexivity|]. split; [vm_compute; reflexivity|].
    destruct (Fixtures.demo_get (bulks t) 1) as [e|b'] eqn:E;
      [vm_compute in E; discriminate E|].
    destruct (Hget (bulks t) Fixtures.demo_u 1%Z "grp" "tpl" b' E)
      as (b1 & Hin & Hid & Hp & Hs).
    split; [|exact Hs].
    assert (Hb : bulks t = [bulk t]) by (vm_compute; reflexivity).
    rewrite Hb in Hin. destruct Hin as [<-|[]]. exact Hp.
Defined.

(** C5 as stated fails on the order of the operations read back: the job
    stored with the workflows [b] and [a], in this order, is read back with
    [a] before [b].  It fails when the job cannot be stored: after the
    failure of the load of the project of the first operation, a failure of
    [UpdateBulk] ends the goroutine and the second operation stays
    pending.  And it fails on the text of the cause: a failure whose error
    has an empty text leaves the operation in the status [Error] with an
    empty text. *)
Lemma getTemplateBulkHandler_order_counterexample :
  let b := Fixtures.demo_bulk [Fixtures.demo_op "KEY" "b";
                               Fixtures.demo_op "KEY" "a"] in
  let t := fst (Fixtures.demo_templateBulkApply b [b] []) in
  let c := Fixtures.demo_bulk [Fixtures.demo_op "NOPE" "a";
                               Fixtures.demo_op "KEY" "b"] in
  let down := Fixtures.demo_templateBulkApply_down c [c] [] in
  let s := Fixtures.demo_bulk [Fixtures.demo_op "KEY" "a"] in
  let silent := fst (Fixtures.demo_templateBulkApply_silent s [s] []) in
  map (fun o => WorkflowName (OpRequest o)) (Operations (bulk t)) = ["b"; "a"]
  /\ match Fixtures.demo_get (bulks t) 1 with
     | inr b' => map (fun o => WorkflowName (OpRequest o)) (Operations b')
     | inl _ => []
     end = ["a"; "b"]
  /\ snd down = false
  /\ statuses (bulk (fst down))
     = [OperationStatusError; OperationStatusPending]
  /\ map statuses (persisted (fst down))
     = [[OperationStatusProcessing; OperationStatusPending]]
  /\ statuses (bulk silent) = [OperationStatusError]
  /\ map Error (Operations (bulk silent)) = [""].
Proof. repeat split; vm_compute; reflexivity. Qed.

(** A job of two operations, the first one on a project that does not
    exist. *)
Lemma bulk_operation_lifecycle_witness :
  let h := Fixtures.demo_post []
             [Fixtures.demo_op "NOPE" "a"; Fixtures.demo_op "KEY" "b"] in
  let b := Fixtures.demo_bulk
             [Fixtures.demo_op "NOPE" "a"; Fixtures.demo_op "KEY" "b"] in
  started h = Some b
  /\ stored h = [b]
  /\ map statuses (persisted (fst (Fixtures.demo_templateBulkApply b [b] [])))
     = [[OperationStatusProcessing; OperationStatusPending];
        [OperationStatusError; OperationStatusPending];
        [OperationStatusError; OperationStatusProcessing];
        [OperationStatusError; OperationStatusDone]]
  /\ stepwise advance
       (map statuses
          (b :: persisted (fst (Fixtures.demo_templateBulkApply b [b] [])))).
Proof.
  intros h b. destruct bulk_operation_lifecycle as [H1 H2].
  destruct (H1 Fixtures.demo_LoadGroup Fixtures.demo_LoadBySlugAndGroupID
              Fixtures.demo_CheckParams Fixtures.demo_checkProjectPermissions
              None [] Fixtures.demo_u "grp" "tpl"
              (inr (Fixtures.demo_bulk [Fixtures.demo_op "NOPE" "a";
                                        Fixtures.demo_op "KEY" "b"]))
              b eq_refl) as (Hs & Hst & _).
  split; [exact Hs|]. split; [exact Hst|].
  split; [vm_compute; reflexivity|].
  apply H2.
Defined.

End BulkFacts.

(** * More facts about the reconciler *)
Module ReconcilerMore.
Import Reconciler Ledger.

Lemma of_key_has_key wt p req (t : table) :
  of_key wt p req t = List.filter (has_key wt p req) t.
Proof. reflexivity. Qed.

Lemma DeleteInstance_filter (f : WorkflowTemplateInstance -> bool)
  (t : table) y :
  List.filter f (DeleteInstance t y) = DeleteInstance (List.filter f t) y.
Proof.
  unfold DeleteInstance. rewrite !ReconcilerFacts.filter_twice.
  apply filter_ext. intros a. apply andb_comm.
Qed.

Lemma fold_Delete_filter (f : WorkflowTemplateInstance -> bool) ys (t : table) :
  List.filter f (fold_left DeleteInstance ys t)
  = fold_left DeleteInstance ys (List.filter f t).
Proof.
  revert t. induction ys as [|y ys IH]; intros t; simpl; [reflexivity|].
  now rewrite IH, DeleteInstance_filter.
Qed.

Lemma NoDup_IDs_filter (f : WorkflowTemplateInstance -> bool) (t : table) :
  List.NoDup (map ID t) -> List.NoDup (map ID (List.filter f t)).
Proof.
  induction t as [|a t IH]; simpl; intros H; [constructor|].
  inversion H as [|? ? Hn Hd]; subst. destruct (f a); simpl; auto.
  constructor; auto. intros Hin. apply Hn.
  apply in_map_iff in Hin. destruct Hin as (r & E & Hr).
  apply filter_In in Hr. rewrite <- E. apply in_map. tauto.
Qed.

Lemma DeleteInstance_absent (t : table) y :
  ~ In (ID y) (map ID t) -> DeleteInstance t y = t.
Proof.
  intros H. unfold DeleteInstance.
  rewrite <- (ReconcilerFacts.filter_all t) at 2. apply filter_ext_in.
  intros a Ha. destruct (Z.eqb_spec (ID a) (ID y)) as [E|]; [|reflexivity].
  exfalso. apply H. rewrite <- E. now apply in_map.
Qed.

Lemma DeleteInstance_here (t : table) y :
  ~ In (ID y) (map ID t) -> DeleteInstance (y :: t) y = t.
Proof.
  intros H. unfold DeleteInstance. simpl. rewrite Z.eqb_refl. simpl.
  now apply DeleteInstance_absent.
Qed.

(** Under a primary key, the deletion of the rows [ys] that end a table
    leaves the rows before them. *)
Lemma fold_Delete_suffix (pre ys : table) :
  List.NoDup (map ID (pre ++ ys)) ->
  fold_left DeleteInstance ys (pre ++ ys) = pre.
Proof.
  revert pre. induction ys as [|y ys IH]; intros pre H; simpl.
  - apply app_nil_r.
  - assert (Hd : DeleteInstance (pre ++ y :: ys) y = pre ++ ys).
    { rewrite map_app in H. simpl in H.
      apply NoDup_remove in H. destruct H as [H Hn].
      unfold DeleteInstance. rewrite List.filter_app.
      fold (DeleteInstance pre y). fold (DeleteInstance (y :: ys) y).
      rewrite DeleteInstance_absent, DeleteInstance_here; auto;
        intros Hin; apply Hn, in_or_app; auto. }
    rewrite Hd. apply IH.
    rewrite map_app in *. simpl in H. now apply NoDup_remove_1 in H.
Qed.

(** ** Keys and identifiers *)

Lemma has_key_set_Request wt p req v c :
  has_key wt p req c = true -> has_key wt p req (set_Request v req c) = true.
Proof.
  unfold has_key. simpl. intros H.
  apply andb_prop in H. destruct H as [H _]. rewrite H. simpl.
  apply String.eqb_refl.
Qed.

Lemma has_key_set_WorkflowName wt p req n w :
  has_key wt p req (set_WorkflowName n w) = has_key wt p req w.
Proof. reflexivity. Qed.

Lemma has_key_new wt p req i :
  has_key wt p req (with_ID i (new_Instance p wt req)) = true.
Proof. unfold has_key. simpl. now rewrite !Z.eqb_refl, String.eqb_refl. Qed.

Lemma of_key_In wt p req (t : table) r :
  In r (of_key wt p req t) <-> In r t /\ has_key wt p req r = true.
Proof. rewrite of_key_has_key. apply filter_In. Qed.

Lemma other_keys_In wt p req (t : table) r :
  In r (other_keys wt p req t) <-> In r t /\ has_key wt p req r = false.
Proof.
  unfold other_keys. rewrite filter_In. now rewrite negb_true_iff.
Qed.

Lemma UpdateInstance_absent (t : table) w :
  ~ In (ID w) (map ID t) -> UpdateInstance t w = t.
Proof.
  intros H. unfold UpdateInstance. rewrite <- (map_id t) at 2.
  apply map_ext_in. intros a Ha.
  destruct (Z.eqb_spec (ID a) (ID w)) as [E|]; [|reflexivity].
  exfalso. apply H. rewrite <- E. now apply in_map.
Qed.

Lemma UpdateInstance_twice (t : table) w w' :
  ID w' = ID w -> UpdateInstance (UpdateInstance t w) w' = UpdateInstance t w'.
Proof.
  intros E. unfold UpdateInstance. rewrite map_map. apply map_ext.
  intros a. rewrite E. destruct (Z.eqb_spec (ID a) (ID w)) as [Ea|Ha].
  - now rewrite Z.eqb_refl.
  - apply Z.eqb_neq in Ha. now rewrite Ha.
Qed.

Lemma UpdateInstance_length (t : table) w :
  length (UpdateInstance t w) = length t.
Proof. apply length_map. Qed.

(** An update by a row of the key, of rows of the key, commutes with the
    lookup. *)
Lemma of_key_UpdateInstance wt p req (t : table) w :
  has_key wt p req w = true ->
  (forall r, In r t -> ID r = ID w -> has_key wt p req r = true) ->
  of_key wt p req (UpdateInstance t w) = UpdateInstance (of_key wt p req t) w.
Proof.
  intros Hw. rewrite !of_key_has_key. unfold UpdateInstance.
  induction t as [|a t IH]; intros H; simpl; [reflexivity|].
  assert (IH' : List.filter (has_key wt p req)
                  (map (fun r => if Z.eqb (ID r) (ID w) then w else r) t)
                = map (fun r => if Z.eqb (ID r) (ID w) then w else r)
                    (List.filter (has_key wt p req) t)).
  { apply IH. intros r Hr. apply H. now right. }
  destruct (Z.eqb_spec (ID a) (ID w)) as [E|Hne].
  - rewrite Hw, (H a (or_introl eq_refl) E). simpl.
    rewrite E, Z.eqb_refl. now rewrite IH'.
  - destruct (has_key wt p req a); simpl; rewrite IH'; [|reflexivity].
    apply Z.eqb_neq in Hne. now rewrite Hne.
Qed.

(** An update by a row of the key leaves the rows of the other keys, when
    none of them has the identifier updated. *)
Lemma other_keys_UpdateInstance wt p req (t : table) w :
  has_key wt p req w = true ->
  (forall r, In r t -> has_key wt p req r = false -> ID r <> ID w) ->
  other_keys wt p req (UpdateInstance t w) = other_keys wt p req t.
Proof.
  intros Hw. unfold other_keys, UpdateInstance.
  induction t as [|a t IH]; intros H; simpl; [reflexivity|].
  rewrite IH by (intros r Hr; apply H; now right).
  destruct (Z.eqb_spec (ID a) (ID w)) as [E|Hne].
  - rewrite Hw. simpl. destruct (has_key wt p req a) eqn:Ha; [reflexivity|].
    exfalso. now apply (H a (or_introl eq_refl) Ha).
  - reflexivity.
Qed.

Lemma fold_Delete_In ys (t : table) r :
  In r (fold_left DeleteInstance ys t) -> In r t.
Proof.
  revert t. induction ys as [|y ys IH]; intros t H; simpl in H; [exact H|].
  apply IH in H. unfold DeleteInstance in H. now apply filter_In in H.
Qed.

Lemma fold_Delete_removes ys (t : table) y :
  In y ys -> ~ In (ID y) (map ID (fold_left DeleteInstance ys t)).
Proof.
  revert t. induction ys as [|a ys IH]; intros t Hy; [contradiction|].
  simpl. destruct Hy as [->|Hy]; [|now apply IH].
  intros Hin. apply in_map_iff in Hin. destruct Hin as (r & E & Hr).
  apply fold_Delete_In in Hr. unfold DeleteInstance in Hr.
  apply filter_In in Hr. destruct Hr as [_ Hr].
  rewrite E, Z.eqb_refl in Hr. discriminate.
Qed.

Lemma fold_Delete_absent ys (t : table) :
  (forall y, In y ys -> ~ In (ID y) (map ID t)) ->
  fold_left DeleteInstance ys t = t.
Proof.
  revert t. induction ys as [|a ys IH]; intros t H; simpl; [reflexivity|].
  rewrite DeleteInstance_absent by (apply H; now left).
  apply IH. intros y Hy. apply H. now right.
Qed.

Lemma fold_Delete_length_le ys (t : table) :
  length (fold_left DeleteInstance ys t) <= length t.
Proof.
  revert t. induction ys as [|a ys IH]; intros t; simpl; [lia|].
  etransitivity; [apply IH|]. unfold DeleteInstance. apply filter_length_le.
Qed.

(** Under a primary key, a row of the key and a row of another key have
    different identifiers. *)
Lemma keys_apart wt p req (db : table) y r :
  List.NoDup (map ID db) ->
  In y (of_key wt p req db) -> In r db -> has_key wt p req r = false ->
  ID r <> ID y.
Proof.
  intros Hnd Hy Hr Hk E. apply of_key_In in Hy. destruct Hy as [Hy Hky].
  assert (r = y) by (now apply (ReconcilerFacts.same_ID_same_row db)).
  subst. congruence.
Qed.

Lemma other_keys_fold_Delete wt p req (db : table) ys :
  List.NoDup (map ID db) ->
  (forall y, In y ys -> In y (of_key wt p req db)) ->
  other_keys wt p req (fold_left DeleteInstance ys db)
  = other_keys wt p req db.
Proof.
  intros Hnd Hys. unfold other_keys. rewrite fold_Delete_filter.
  apply fold_Delete_absent. intros y Hy Hin.
  apply in_map_iff in Hin. destruct Hin as (r & E & Hr).
  apply filter_In in Hr. destruct Hr as [Hr Hk]. apply negb_true_iff in Hk.
  now apply (keys_apart wt p req db y r Hnd (Hys y Hy) Hr Hk).
Qed.

Lemma last_In_cons {A} (x : A) (rest : list A) :
  In (List.last rest x) (x :: rest).
Proof.
  rewrite <- (ReconcilerFacts.last_cons x x rest).
  apply ReconcilerFacts.last_In.
Qed.

Section Apply.

Context (db_error : db_call -> option string).
Context (Execute : WorkflowTemplate -> WorkflowTemplateInstance ->
                   WorkflowTemplateResult * option string).
Context (yaml_Unmarshal : string -> string + ExportedWorkflow).
Context (yaml_Marshal : ExportedWorkflow -> string + string).
Context (now : Z).

Local Abbreviation range_wtis := (Reconciler.range_wtis db_error).
Local Abbreviation settle := (Reconciler.settle db_error now).
Local Abbreviation generate :=
  (Reconciler.generate db_error Execute yaml_Unmarshal yaml_Marshal).
Local Abbreviation reconcile :=
  (Reconciler.reconcile db_error Execute yaml_Unmarshal yaml_Marshal now).
Local Abbreviation applyTemplate :=
  (Reconciler.applyTemplate db_error Execute yaml_Unmarshal yaml_Marshal now).

(** The table after a loop that ends without error: the instances found
    are deleted, but the one the loop met with [wti] at [nil]. *)
Lemma range_wtis_exact ys w r l l' w' r' :
  range_wtis ys w r l = (l', inr (w', r')) ->
  tx l' = fold_left DeleteInstance
            (match w with nil => tl ys | addr_res => ys end) (tx l)
  /\ result l' = result l.
Proof.
  revert w r l. induction ys as [|y ys IH]; intros w r l H.
  - simpl in H. run. injection H as <- <- <-. now destruct w.
  - simpl in H. destruct w.
    + apply IH in H. exact H.
    + run. destruct (db_error (DeleteOther (ID y))); [discriminate|].
      apply IH in H. exact H.
Qed.

(** The statements up to the update or the insertion, for a request that is
    not detached and when no call fails. *)
Lemma settle_attached p wt req l l1 old wti :
  Detached req = false ->
  settle p wt req l = (l1, inr (old, wti)) ->
  result l1 = result l
  /\ match of_key wt p req (tx l) with
     | [] =>
         old = None
         /\ wti = with_ID (next_ID (tx l)) (new_Instance p wt req)
         /\ tx l1 = tx l ++ [wti]
     | x :: rest =>
         old = Some (List.last rest x)
         /\ wti = set_Request (Version wt) req (List.last rest x)
         /\ tx l1 = UpdateInstance (fold_left DeleteInstance rest (tx l)) wti
     end.
Proof.
  intros Hd H. unfold Reconciler.settle in H. rewrite Hd in H.
  unfold of_key.
  set (wtis := GetInstancesByTemplateIDAndProjectIDAndRequestWorkflowName
                 (tx l) (wt_ID wt) (p_ID p) (WorkflowName req)) in *.
  unfold Reconciler.bind at 1, Reconciler.query in H.
  destruct (db_error GetInstances); [discriminate|].
  fold wtis in H. unfold Reconciler.bind at 1 in H.
  destruct (range_wtis wtis nil zero_Instance l) as [l0 [e|[w r]]] eqn:Hloop;
    [discriminate|].
  pose proof Hloop as Hf. apply ReconcilerFacts.range_wtis_found in Hf.
  destruct Hf as [-> ->].
  apply range_wtis_exact in Hloop. destruct Hloop as [Ht Hr].
  destruct wtis as [|x rest].
  - run. destruct (db_error InsertNew); [discriminate|].
    inversion H; subst. simpl in *. rewrite Ht. now repeat split.
  - simpl deref in H. cbv beta iota in H. run.
    destruct (db_error UpdateCandidate); [discriminate|].
    inversion H; subst. simpl in *. rewrite Ht.
    pose proof (ReconcilerFacts.last_cons x zero_Instance rest) as E.
    simpl in E. rewrite E. now repeat split.
Qed.

(** The statements from the execution to the end, for a request that is
    not detached and when nothing fails. *)
Lemma generate_attached wt req old wti l1 l2 old' wti' :
  Detached req = false ->
  generate wt req old wti l1 = (l2, inr (old', wti')) ->
  exists wor b,
    snd (Execute wt wti) = None
    /\ yaml_Unmarshal (Workflow (fst (Execute wt wti))) = inr wor
    /\ yaml_Marshal (set_Template (GroupName wt +:+ "/" +:+ Slug wt) wor)
       = inr b
    /\ old' = old
    /\ wti' = set_WorkflowName (Name wor) wti
    /\ tx l2 = UpdateInstance (tx l1) wti'
    /\ result l2 = set_Workflow b (fst (Execute wt wti)).
Proof.
  intros Hd H. unfold Reconciler.generate in H. rewrite Hd in H. run.
  destruct (snd (Execute wt wti)); [discriminate|].
  cbn [result tx] in H.
  destruct (yaml_Unmarshal (Workflow (fst (Execute wt wti)))) as [e|wor];
    [discriminate|].
  destruct (db_error UpdateName); [discriminate|].
  destruct (yaml_Marshal (set_Template (GroupName wt +:+ "/" +:+ Slug wt) wor))
    as [e|b] eqn:Hm; [discriminate|].
  inversion H; subst. simpl. exists wor, b. now repeat split.
Qed.

(** A call that returns no error went through the two parts and the
    commit. *)
Lemma applyTemplate_success (db : table) u p wt req :
  err (applyTemplate db u p wt req) = None ->
  exists l1 old wti l2 wti',
    settle p wt req (Locals db zero_Result) = (l1, inr (old, wti))
    /\ generate wt req old wti l1 = (l2, inr (old, wti'))
    /\ instances (applyTemplate db u p wt req) = tx l2
    /\ returned (applyTemplate db u p wt req) = result l2
    /\ events (applyTemplate db u p wt req)
       = match old with
         | Some o => [WorkflowTemplateInstanceUpdate o wti' u]
         | None => if negb (Detached req)
                   then [WorkflowTemplateInstanceAdd wti' u] else []
         end.
Proof.
  unfold Reconciler.applyTemplate.
  destruct (db_error Begin); [discriminate|].
  unfold Reconciler.reconcile, Reconciler.bind.
  destruct (settle p wt req (Locals db zero_Result)) as [l1 [e|[old wti]]] eqn:Hs;
    [discriminate|].
  simpl fst. simpl snd.
  destruct (generate wt req old wti l1) as [l2 [e|[old' wti']]] eqn:Hg;
    [discriminate|].
  destruct (db_error Commit); [discriminate|].
  simpl. intros _.
  assert (old' = old).
  { destruct (Detached req) eqn:Hd.
    - destruct (ReconcilerFacts.generate_detached db_error Execute
                  yaml_Unmarshal yaml_Marshal wt req old wti l1 l2 _ Hd Hg)
        as [_ H]. now apply (H (old', wti')).
    - destruct (generate_attached wt req old wti l1 l2 old' wti' Hd Hg)
        as (? & ? & _ & _ & _ & H & _). exact H. }
  subst old'. exists l1, old, wti, l2, wti'. now repeat split.
Qed.

Lemma applyTemplate_error (db : table) u p wt req e :
  err (applyTemplate db u p wt req) = Some e ->
  instances (applyTemplate db u p wt req) = db.
Proof.
  unfold Reconciler.applyTemplate.
  destruct (db_error Begin); [reflexivity|].
  destruct (reconcile p wt req (Locals db zero_Result)) as [l [?|[old wti]]];
    [reflexivity|].
  destruct (db_error Commit); [reflexivity | discriminate].
Qed.

(** The table a call that succeeds commits, for a request that is not
    detached. *)
Lemma applyTemplate_attached (db : table) u p wt req :
  Detached req = false ->
  err (applyTemplate db u p wt req) = None ->
  exists wor,
    match of_key wt p req db with
    | [] =>
        let n := with_ID (next_ID db) (new_Instance p wt req) in
        let w := set_WorkflowName (Name wor) n in
        instances (applyTemplate db u p wt req) = UpdateInstance (db ++ [n]) w
        /\ events (applyTemplate db u p wt req)
           = [WorkflowTemplateInstanceAdd w u]
    | x :: rest =>
        let c := List.last rest x in
        let w := set_WorkflowName (Name wor)
                   (set_Request (Version wt) req c) in
        instances (applyTemplate db u p wt req)
        = UpdateInstance
            (UpdateInstance (fold_left DeleteInstance rest db)
               (set_Request (Version wt) req c)) w
        /\ events (applyTemplate db u p wt req)
           = [WorkflowTemplateInstanceUpdate c w u]
    end.
Proof.
  intros Hd H. apply applyTemplate_success in H.
  destruct H as (l1 & old & wti & l2 & wti' & Hs & Hg & Hi & _ & He).
  apply (settle_attached p wt req _ _ _ _ Hd) in Hs. destruct Hs as [_ Hs].
  apply (generate_attached wt req _ _ _ _ _ _ Hd) in Hg.
  destruct Hg as (wor & b & _ & _ & _ & _ & Hw & Ht & _).
  exists wor. simpl tx in Hs. rewrite Hi, He, Ht, Hw, Hd. clear Hi He Ht Hw.
  destruct (of_key wt p req db) as [|x rest].
  - destruct Hs as (-> & -> & ->). now split.
  - destruct Hs as (-> & -> & ->). now split.
Qed.

(** X1.  Whatever the request and whatever fails, a call of
    [applyTemplate] on a table with a primary key leaves the rows of the
    other (template, project, requested workflow name) as they are. *)
Theorem applyTemplate_other_keys (db : table) u p wt req :
  List.NoDup (map ID db) ->
  other_keys wt p req (instances (applyTemplate db u p wt req))
  = other_keys wt p req db.
Proof.
  intros Hnd.
  destruct (err (applyTemplate db u p wt req)) as [e|] eqn:He.
  { now rewrite (applyTemplate_error db u p wt req e He). }
  destruct (Detached req) eqn:Hd.
  - (* detached: the table is filtered on identifiers of rows of the key *)
    apply applyTemplate_success in He.
    destruct He as (l1 & old & wti & l2 & wti' & Hs & Hg & Hi & _).
    rewrite Hi.
    destruct (ReconcilerFacts.generate_detached db_error Execute
                yaml_Unmarshal yaml_Marshal wt req old wti l1 l2 _ Hd Hg)
      as [-> _].
    destruct (ReconcilerFacts.settle_detached db_error now p wt req _ _ _
                Hd Hs) as ((keep & -> & Hk) & _).
    simpl. unfold other_keys. rewrite ReconcilerFacts.filter_twice.
    apply filter_ext_in. intros r Hr.
    destruct (has_key wt p req r) eqn:Hkey; simpl; [apply andb_false_r|].
    rewrite Hk; [reflexivity|]. intros Hin.
    apply in_map_iff in Hin. destruct Hin as (y & E & Hy).
    now apply (keys_apart wt p req db y r Hnd Hy Hr Hkey).
  - destruct (applyTemplate_attached db u p wt req Hd He) as [wor H].
    destruct (of_key wt p req db) as [|x rest] eqn:Hk.
    + destruct H as [-> _].
      rewrite other_keys_UpdateInstance.
      * unfold other_keys. rewrite List.filter_app. simpl.
        rewrite has_key_new. simpl. apply app_nil_r.
      * rewrite has_key_set_WorkflowName. apply has_key_new.
      * intros r Hr Hkey E. apply in_app_or in Hr. destruct Hr as [Hr|[<-|[]]].
        -- apply ReconcilerFacts.next_ID_fresh in Hr. simpl in E. lia.
        -- rewrite has_key_new in Hkey. discriminate.
    + destruct H as [-> _].
      assert (Hc : In (List.last rest x) (of_key wt p req db))
        by (rewrite Hk; apply last_In_cons).
      assert (Hkc : has_key wt p req (set_Request (Version wt) req
                                        (List.last rest x)) = true).
      { apply has_key_set_Request. apply of_key_In in Hc. tauto. }
      assert (Hrest : forall y, In y rest -> In y (of_key wt p req db))
        by (intros y Hy; rewrite Hk; now right).
      rewrite other_keys_UpdateInstance.
      * rewrite other_keys_UpdateInstance.
        -- now apply other_keys_fold_Delete.
        -- exact Hkc.
        -- intros r Hr Hkey. apply fold_Delete_In in Hr.
           now apply (keys_apart wt p req db _ r Hnd Hc Hr Hkey).
      * now rewrite has_key_set_WorkflowName.
      * intros r Hr Hkey. unfold UpdateInstance in Hr.
        apply in_map_iff in Hr. destruct Hr as (r0 & E0 & Hr0).
        destruct (Z.eqb (ID r0) _); [subst r; congruence|]. subst r0.
        apply fold_Delete_In in Hr0.
        now apply (keys_apart wt p req db _ r Hnd Hc Hr0 Hkey).
Qed.

Lemma UpdateInstance_new (db : table) n w :
  ID n = next_ID db -> ID w = ID n ->
  UpdateInstance (db ++ [n]) w = db ++ [w].
Proof.
  intros Hn Hw. unfold UpdateInstance. rewrite map_app. simpl. f_equal.
  - fold (UpdateInstance db w). apply UpdateInstance_absent.
    intros Hin. apply in_map_iff in Hin. destruct Hin as (r & E & Hr).
    apply ReconcilerFacts.next_ID_fresh in Hr. lia.
  - now rewrite Hw, Z.eqb_refl.
Qed.

Lemma of_key_new wt p req (db : table) w :
  of_key wt p req db = [] -> has_key wt p req w = true ->
  of_key wt p req (db ++ [w]) = [w].
Proof.
  intros Hk Hw. rewrite of_key_has_key in *. rewrite List.filter_app, Hk.
  simpl. now rewrite Hw.
Qed.

Lemma of_key_updated wt p req (db : table) x w :
  List.NoDup (map ID db) ->
  of_key wt p req db = [x] -> has_key wt p req w = true -> ID w = ID x ->
  of_key wt p req (UpdateInstance db w) = [w].
Proof.
  intros Hnd Hk Hw E.
  assert (Hx : In x (of_key wt p req db)) by (rewrite Hk; now left).
  rewrite of_key_UpdateInstance; [|exact Hw|].
  - rewrite Hk. unfold UpdateInstance. simpl. now rewrite E, Z.eqb_refl.
  - intros r Hr Er. destruct (has_key wt p req r) eqn:Hkey; [reflexivity|].
    exfalso. apply (keys_apart wt p req db x r Hnd Hx Hr Hkey). congruence.
Qed.

(** X2.  First apply.  When no row has the key of the request, a call that
    is not detached and succeeds adds one row at the end of the table, with
    the identifier the table gives, the version of the template and the
    request, and publishes the add event of this row; it changes no other
    row. *)
Theorem applyTemplate_creates (db : table) u p wt req :
  Detached req = false ->
  of_key wt p req db = [] ->
  err (applyTemplate db u p wt req) = None ->
  exists w,
    instances (applyTemplate db u p wt req) = db ++ [w]
    /\ events (applyTemplate db u p wt req) = [WorkflowTemplateInstanceAdd w u]
    /\ ID w = next_ID db
    /\ WorkflowTemplateID w = wt_ID wt /\ ProjectID w = p_ID p
    /\ WorkflowTemplateVersion w = Version wt /\ Request w = req
    /\ of_key wt p req (instances (applyTemplate db u p wt req)) = [w].
Proof.
  intros Hd Hk He.
  destruct (applyTemplate_attached db u p wt req Hd He) as [wor H].
  rewrite Hk in H. destruct H as [Hi Hev].
  rewrite UpdateInstance_new in Hi by reflexivity.
  eexists. split; [exact Hi|]. split; [exact Hev|].
  repeat (split; [reflexivity|]).
  rewrite Hi. apply of_key_new; [exact Hk|].
  rewrite has_key_set_WorkflowName. apply has_key_new.
Qed.

(** X3.  Apply again.  When one row [x] has the key of the request, a call
    that is not detached and succeeds overwrites this row, keeping its
    identifier, with the version of the template and the request, and
    publishes the update event from [x] to the new row; no row is added or
    deleted. *)
Theorem applyTemplate_updates (db : table) u p wt req x :
  List.NoDup (map ID db) ->
  Detached req = false ->
  of_key wt p req db = [x] ->
  err (applyTemplate db u p wt req) = None ->
  exists w,
    instances (applyTemplate db u p wt req) = UpdateInstance db w
    /\ events (applyTemplate db u p wt req)
       = [WorkflowTemplateInstanceUpdate x w u]
    /\ ID w = ID x
    /\ WorkflowTemplateVersion w = Version wt /\ Request w = req
    /\ length (instances (applyTemplate db u p wt req)) = length db
    /\ of_key wt p req (instances (applyTemplate db u p wt req)) = [w].
Proof.
  intros Hnd Hd Hk He.
  destruct (applyTemplate_attached db u p wt req Hd He) as [wor H].
  rewrite Hk in H. simpl in H. destruct H as [Hi Hev].
  rewrite UpdateInstance_twice in Hi by reflexivity.
  eexists. split; [exact Hi|]. split; [exact Hev|].
  repeat (split; [reflexivity|]).
  rewrite Hi. split; [apply UpdateInstance_length|].
  apply (of_key_updated wt p req db x); auto.
  rewrite has_key_set_WorkflowName. apply has_key_set_Request.
  assert (Hx : In x (of_key wt p req db)) by (rewrite Hk; now left).
  apply of_key_In in Hx. tauto.
Qed.

(** X4.  After a call that is not detached and succeeds, on a table with a
    primary key, one row and only one has the key of the request; it has the
    identifier of the first instance found, or the new identifier when none
    was found. *)
Theorem applyTemplate_one_instance (db : table) u p wt req :
  List.NoDup (map ID db) ->
  Detached req = false ->
  err (applyTemplate db u p wt req) = None ->
  exists w,
    of_key wt p req (instances (applyTemplate db u p wt req)) = [w]
    /\ ID w = match of_key wt p req db with
              | [] => next_ID db
              | x :: _ => ID x
              end.
Proof.
  intros Hnd Hd He.
  destruct (applyTemplate_attached db u p wt req Hd He) as [wor H].
  destruct (of_key wt p req db) as [|x [|y rest]] eqn:Hk.
  - destruct H as [Hi _].
    rewrite UpdateInstance_new in Hi by reflexivity.
    eexists. rewrite Hi. split.
    { apply of_key_new; [exact Hk|].
      rewrite has_key_set_WorkflowName. apply has_key_new. }
    reflexivity.
  - simpl in H. destruct H as [Hi _].
    rewrite UpdateInstance_twice in Hi by reflexivity.
    eexists. rewrite Hi. split.
    { apply (of_key_updated wt p req db x); auto.
      rewrite has_key_set_WorkflowName. apply has_key_set_Request.
      assert (Hx : In x (of_key wt p req db)) by (rewrite Hk; now left).
      apply of_key_In in Hx. tauto. }
    reflexivity.
  - (* duplicates: the candidate is a row the loop deleted *)
    destruct H as [Hi _].
    set (c := List.last (y :: rest) x) in *.
    assert (Hc : In c (y :: rest)).
    { subst c. change (List.last (y :: rest) x)
        with (List.last (x :: y :: rest) x).
      rewrite ReconcilerFacts.last_cons. apply ReconcilerFacts.last_In. }
    assert (Hgone : ~ In (ID c)
                      (map ID (fold_left DeleteInstance (y :: rest) db)))
      by (now apply fold_Delete_removes).
    rewrite (UpdateInstance_absent _ (set_Request (Version wt) req c)) in Hi
      by exact Hgone.
    rewrite UpdateInstance_absent in Hi by exact Hgone.
    exists x. rewrite Hi. split; [|reflexivity].
    rewrite of_key_has_key, fold_Delete_filter, <- of_key_has_key, Hk.
    apply (fold_Delete_suffix [x] (y :: rest)).
    change ([x] ++ y :: rest) with (x :: y :: rest).
    rewrite <- Hk, of_key_has_key. now apply NoDup_IDs_filter.
Qed.

(** X5.  Idempotence.  Two calls in a row for the same request that is not
    detached, on a table where no row has its key: the first one adds a row
    and publishes its add event, the second one updates this row, with the
    same identifier, and publishes the update event from it; the table ends
    with one row more than at the start, the only one of the key. *)
Theorem applyTemplate_twice (db : table) u p wt req :
  List.NoDup (map ID db) ->
  Detached req = false ->
  of_key wt p req db = [] ->
  let out1 := applyTemplate db u p wt req in
  let out2 := applyTemplate (instances out1) u p wt req in
  err out1 = None -> err out2 = None ->
  exists w1 w2,
    instances out1 = db ++ [w1]
    /\ events out1 = [WorkflowTemplateInstanceAdd w1 u]
    /\ instances out2 = db ++ [w2]
    /\ events out2 = [WorkflowTemplateInstanceUpdate w1 w2 u]
    /\ ID w2 = ID w1 /\ Request w2 = req
    /\ of_key wt p req (instances out2) = [w2].
Proof.
  intros Hnd Hd Hk out1 out2 He1 He2.
  destruct (applyTemplate_attached db u p wt req Hd He1) as [wor1 H1].
  rewrite Hk in H1. destruct H1 as [Hi1 Hev1].
  rewrite UpdateInstance_new in Hi1 by reflexivity.
  fold out1 in Hi1, Hev1.
  set (w1 := set_WorkflowName (Name wor1)
               (with_ID (next_ID db) (new_Instance p wt req))) in *.
  assert (Hw1 : has_key wt p req w1 = true)
    by (subst w1; rewrite has_key_set_WorkflowName; apply has_key_new).
  assert (Hk1 : of_key wt p req (instances out1) = [w1])
    by (rewrite Hi1; now apply of_key_new).
  destruct (applyTemplate_attached (instances out1) u p wt req Hd He2)
    as [wor2 H2].
  rewrite Hk1 in H2. simpl in H2. destruct H2 as [Hi2 Hev2].
  fold out2 in Hi2, Hev2.
  rewrite UpdateInstance_twice in Hi2 by reflexivity.
  rewrite Hi1 in Hi2.
  rewrite UpdateInstance_new in Hi2 by reflexivity.
  exists w1. eexists.
  split; [exact Hi1|]. split; [exact Hev1|]. split; [exact Hi2|].
  split; [exact Hev2|]. split; [reflexivity|]. split; [reflexivity|].
  rewrite Hi2. apply of_key_new; [exact Hk|].
  rewrite has_key_set_WorkflowName. now apply has_key_set_Request.
Qed.

Lemma settle_detached_instance p wt req l l1 old wti :
  Detached req = true ->
  settle p wt req l = (l1, inr (old, wti)) ->
  old = None /\ wti = with_ID now (new_Instance p wt req).
Proof.
  intros Hd H. unfold Reconciler.settle in H. rewrite Hd in H.
  unfold Reconciler.bind at 1, Reconciler.query in H.
  destruct (db_error GetInstances); [discriminate|].
  unfold Reconciler.bind at 1 in H.
  destruct (range_wtis _ nil zero_Instance l) as [l0 [e|[w r]]] eqn:Hloop;
    [discriminate|].
  destruct w; run.
  - now inversion H.
  - destruct (db_error DeleteDetached); [discriminate|]. now inversion H.
Qed.

(** X6.  A detached apply that succeeds returns the result of the
    execution of the template as it is, without the path of the template: the
    instance executed is the new instance with the identifier taken from the
    clock, whatever the table holds. *)
Theorem applyTemplate_detached_result (db : table) u p wt req :
  Detached req = true ->
  err (applyTemplate db u p wt req) = None ->
  returned (applyTemplate db u p wt req)
  = fst (Execute wt (with_ID now (new_Instance p wt req)))
  /\ snd (Execute wt (with_ID now (new_Instance p wt req))) = None.
Proof.
  intros Hd He. apply applyTemplate_success in He.
  destruct He as (l1 & old & wti & l2 & wti' & Hs & Hg & _ & Hr & _).
  apply (settle_detached_instance p wt req _ _ _ _ Hd) in Hs.
  destruct Hs as [-> ->]. rewrite Hr. clear Hr.
  unfold Reconciler.generate in Hg. rewrite Hd in Hg. run.
  destruct (snd (Execute wt _)); [discriminate|].
  inversion Hg; subst. now split.
Qed.

End Apply.

Ltac nodup :=
  repeat (constructor; [simpl; intuition congruence|]); constructor.

(** A table with a row of the key of the request and a row of another
    template. *)
Lemma applyTemplate_other_keys_witness :
  let other := {| ID := 2; WorkflowTemplateID := 8; ProjectID := 3;
                  WorkflowTemplateVersion := 1;
                  Request := Fixtures.demo_req false;
                  InstanceWorkflowName := "w" |} in
  let db := [Fixtures.demo_row 1; other] in
  other_keys Fixtures.demo_wt Fixtures.demo_p (Fixtures.demo_req false)
    (instances (Fixtures.demo_apply Fixtures.demo_Execute db
                  (Fixtures.demo_req false)))
  = [other].
Proof.
  intros other db. unfold Fixtures.demo_apply.
  rewrite (applyTemplate_other_keys Fixtures.no_db_error Fixtures.demo_Execute
             Fixtures.demo_Unmarshal_Workflow Fixtures.demo_Marshal_Workflow
             1700000000 db Fixtures.demo_u Fixtures.demo_p Fixtures.demo_wt
             (Fixtures.demo_req false)).
  - reflexivity.
  - nodup.
Defined.

(** The first apply on a table that holds a row of another template. *)
Lemma applyTemplate_creates_witness :
  let other := {| ID := 2; WorkflowTemplateID := 8; ProjectID := 3;
                  WorkflowTemplateVersion := 1;
                  Request := Fixtures.demo_req false;
                  InstanceWorkflowName := "w" |} in
  exists w,
    instances (Fixtures.demo_apply Fixtures.demo_Execute [other]
                 (Fixtures.demo_req false)) = [other; w]
    /\ ID w = 3%Z.
Proof.
  intros other.
  destruct (applyTemplate_creates Fixtures.no_db_error Fixtures.demo_Execute
              Fixtures.demo_Unmarshal_Workflow Fixtures.demo_Marshal_Workflow
              1700000000 [other] Fixtures.demo_u Fixtures.demo_p
              Fixtures.demo_wt (Fixtures.demo_req false))
    as (w & Hi & _ & Hid & _).
  - reflexivity.
  - reflexivity.
  - vm_compute. reflexivity.
  - exists w. split; [exact Hi | exact Hid].
Defined.

(** A second apply on the row of the first one. *)
Lemma applyTemplate_updates_witness :
  exists w,
    events (Fixtures.demo_apply Fixtures.demo_Execute [Fixtures.demo_row 1]
              (Fixtures.demo_req false))
    = [WorkflowTemplateInstanceUpdate (Fixtures.demo_row 1) w Fixtures.demo_u]
    /\ ID w = 1%Z /\ WorkflowTemplateVersion w = 2%Z.
Proof.
  destruct (applyTemplate_updates Fixtures.no_db_error Fixtures.demo_Execute
              Fixtures.demo_Unmarshal_Workflow Fixtures.demo_Marshal_Workflow
              1700000000 [Fixtures.demo_row 1] Fixtures.demo_u Fixtures.demo_p
              Fixtures.demo_wt (Fixtures.demo_req false) (Fixtures.demo_row 1))
    as (w & _ & He & Hid & Hv & _).
  - nodup.
  - reflexivity.
  - reflexivity.
  - vm_compute. reflexivity.
  - exists w. split; [exact He|]. split; [exact Hid | exact Hv].
Defined.

(** Three rows of the key of the request. *)
Lemma applyTemplate_one_instance_witness :
  exists w,
    of_key Fixtures.demo_wt Fixtures.demo_p (Fixtures.demo_req false)
      (instances (Fixtures.demo_apply Fixtures.demo_Execute
                    [Fixtures.demo_row 4; Fixtures.demo_row 2;
                     Fixtures.demo_row 9]
                    (Fixtures.demo_req false))) = [w]
    /\ ID w = 4%Z.
Proof.
  apply (applyTemplate_one_instance Fixtures.no_db_error Fixtures.demo_Execute
           Fixtures.demo_Unmarshal_Workflow Fixtures.demo_Marshal_Workflow
           1700000000
           [Fixtures.demo_row 4; Fixtures.demo_row 2; Fixtures.demo_row 9]
           Fixtures.demo_u Fixtures.demo_p Fixtures.demo_wt
           (Fixtures.demo_req false)).
  - nodup.
  - reflexivity.
  - vm_compute. reflexivity.
Defined.

(** Two applies in a row on an empty table. *)
Lemma applyTemplate_twice_witness :
  exists w1 w2,
    instances (Fixtures.demo_apply Fixtures.demo_Execute
                 (instances (Fixtures.demo_apply Fixtures.demo_Execute []
                               (Fixtures.demo_req false)))
                 (Fixtures.demo_req false)) = [w2]
    /\ ID w2 = ID w1.
Proof.
  destruct (applyTemplate_twice Fixtures.no_db_error Fixtures.demo_Execute
              Fixtures.demo_Unmarshal_Workflow Fixtures.demo_Marshal_Workflow
              1700000000 [] Fixtures.demo_u Fixtures.demo_p Fixtures.demo_wt
              (Fixtures.demo_req false))
    as (w1 & w2 & _ & _ & Hi & _ & Hid & _).
  - constructor.
  - reflexivity.
  - reflexivity.
  - vm_compute. reflexivity.
  - vm_compute. reflexivity.
  - exists w1, w2. split; [exact Hi | exact Hid].
Defined.

(** A detached apply on a table that holds a row of the key. *)
Lemma applyTemplate_detached_result_witness :
  Workflow (returned (Fixtures.demo_apply Fixtures.demo_Execute
                        [Fixtures.demo_row 1] (Fixtures.demo_req true)))
  = "name: w".
Proof.
  destruct (applyTemplate_detached_result Fixtures.no_db_error
              Fixtures.demo_Execute Fixtures.demo_Unmarshal_Workflow
              Fixtures.demo_Marshal_Workflow 1700000000 [Fixtures.demo_row 1]
              Fixtures.demo_u Fixtures.demo_p Fixtures.demo_wt
              (Fixtures.demo_req true)) as [Hr _].
  - reflexivity.
  - vm_compute. reflexivity.
  - exact (f_equal Workflow Hr).
Defined.

End ReconcilerMore.

(** * More facts about the archive decoder *)
Module ArchiveMore.
Import Archive.

Section Decoder.

Context {Template WorkflowTemplate : Type}.
Context (zero_Template : Template).
Context (yaml_Unmarshal : list byte -> Template -> Template * option string).
Context (GetTemplate :
           Template -> list byte -> list (list byte) -> list (list byte) ->
           list (list byte) -> WorkflowTemplate).

Local Abbreviation scan := (Archive.scan Template).
Local Abbreviation read_entry := (Archive.read_entry Template yaml_Unmarshal).
Local Abbreviation read_all := (Archive.read_all Template yaml_Unmarshal).
Local Abbreviation scan_tar := (Archive.scan_tar Template yaml_Unmarshal).
Local Abbreviation scan_init := (Archive.scan_init Template zero_Template).
Local Abbreviation ReadFromTar :=
  (Archive.ReadFromTar Template zero_Template WorkflowTemplate
     yaml_Unmarshal GetTemplate).
Local Abbreviation mError := (Archive.mError Template).
Local Abbreviation wkf := (Archive.wkf Template).
Local Abbreviation tmpl := (Archive.tmpl Template).
Local Abbreviation apps := (Archive.apps Template).
Local Abbreviation pips := (Archive.pips Template).
Local Abbreviation envs := (Archive.envs Template).
Local Abbreviation templateFileName := (Archive.templateFileName Template).

Lemma scan_tar_app (es : list (string * list byte)) tr (s : scan) :
  scan_tar (entries es ++ tr) s = scan_tar tr (read_all es s).
Proof.
  revert s. induction es as [|[n b] es IH]; intros s; simpl; [reflexivity|].
  apply IH.
Qed.

(** X7.  A read error of the archive ends the decoding at once with the
    error "Unable to read tar file", whatever the entries read before it
    recorded and whatever follows it. *)
Theorem ReadFromTar_read_error (pre : list (string * list byte)) e rest :
  ReadFromTar (entries pre ++ NextError e :: rest) = inl (UnableToReadTar e)
  /\ forall n,
      ReadFromTar (entries pre ++ CopyError n e :: rest)
      = inl (UnableToReadTar e).
Proof.
  split; [|intros n]; unfold Archive.ReadFromTar; now rewrite scan_tar_app.
Qed.

(** The entries that are not descriptors, with at most one workflow among
    them and none after a workflow already found, record no cause. *)
Lemma read_all_plain (l : list (string * list byte)) (s : scan) :
  Forall (fun e => is_descriptor (fst e) = false) l ->
  wkf s = [] \/ blobs is_workflow l = [] ->
  length (blobs is_workflow l) <= 1 ->
  mError (read_all l s) = mError s
  /\ wkf (read_all l s) = wkf s ++ concat (blobs is_workflow l)
  /\ tmpl (read_all l s) = tmpl s
  /\ templateFileName (read_all l s) = templateFileName s.
Proof.
  intros Hl. revert s. induction Hl as [|[n b] l Hn _ IH]; intros s Hw Hlen.
  - simpl. now rewrite app_nil_r.
  - rewrite ArchiveFacts.read_all_cons.
    rewrite (ArchiveFacts.blobs_cons is_workflow (n, b) l) in Hw, Hlen |- *.
    set (ws := blobs is_workflow l) in *.
    assert (Hone : blobs is_workflow [(n, b)]
                   = if is_workflow n then [b] else []).
    { unfold blobs. simpl. now destruct (is_workflow n). }
    rewrite Hone in Hw, Hlen |- *. clear Hone.
    unfold is_descriptor in Hn. simpl in Hn.
    unfold is_workflow in Hw, Hlen |- *.
    unfold Archive.read_entry, Archive.Append.
    destruct (Contains n ".application."); simpl in *;
      [now destruct (IH (Scan Template (apps s ++ [b]) (pips s) (envs s)
                           (wkf s) (tmpl s) (mError s) (templateFileName s)))|].
    destruct (Contains n ".pipeline."); simpl in *;
      [now destruct (IH (Scan Template (apps s) (pips s ++ [b]) (envs s)
                           (wkf s) (tmpl s) (mError s) (templateFileName s)))|].
    destruct (Contains n ".environment."); simpl in *;
      [now destruct (IH (Scan Template (apps s) (pips s) (envs s ++ [b])
                           (wkf s) (tmpl s) (mError s) (templateFileName s)))|].
    destruct (String.eqb n "workflow.yml"); simpl in *; [|discriminate].
    assert (Hnone : ws = []).
    { destruct ws; [reflexivity | simpl in Hlen; lia]. }
    destruct Hw as [Hw|Hw]; [|discriminate].
    rewrite Hw. simpl.
    destruct (IH (Scan Template (apps s) (pips s) (envs s) b (tmpl s)
                       (mError s) (templateFileName s)))
      as (H1 & H2 & H3 & H4); [now right | rewrite Hnone; simpl; lia |].
    rewrite H1, H2, H3, H4, Hnone. simpl. now rewrite !app_nil_r.
Qed.

(** X8.  An archive whose reads succeed, with one descriptor that parses
    and at most one workflow, is decoded into the template made of this
    descriptor, of the workflow, and of the pipelines, applications and
    environments in the order of the archive. *)
Theorem ReadFromTar_well_formed (l1 l2 : list (string * list byte)) n b t :
  Forall (fun e => is_descriptor (fst e) = false) l1 ->
  Forall (fun e => is_descriptor (fst e) = false) l2 ->
  is_descriptor n = true ->
  yaml_Unmarshal b zero_Template = (t, None) ->
  length (blobs is_workflow (l1 ++ (n, b) :: l2)) <= 1 ->
  let es := l1 ++ (n, b) :: l2 in
  ReadFromTar (entries es)
  = inr (GetTemplate t (concat (blobs is_workflow es))
           (blobs is_pipeline es) (blobs is_application es)
           (blobs is_environment es)).
Proof.
  intros H1 H2 Hn Hy Hlen es.
  assert (Hws : blobs is_workflow es
                = blobs is_workflow l1 ++ blobs is_workflow l2).
  { subst es. unfold blobs. rewrite List.filter_app. simpl.
    assert (E : is_workflow n = false).
    { unfold is_descriptor, is_workflow in *.
      destruct (negb _ && negb _ && negb _); simpl in *; [|reflexivity].
      now destruct (String.eqb n "workflow.yml"). }
    rewrite E. now rewrite map_app. }
  fold es in Hlen. rewrite Hws, length_app in Hlen.
  destruct (read_all_plain l1 scan_init H1 (or_introl eq_refl))
    as (Ha & Hb & Hc & Hd); [lia|]. simpl in Ha, Hb, Hc, Hd.
  set (s1 := read_all l1 scan_init) in *.
  assert (Hs2 : read_entry n b s1
                = Scan Template (apps s1) (pips s1) (envs s1) (wkf s1) t
                       (mError s1) n).
  { rewrite (ArchiveFacts.read_entry_descriptor yaml_Unmarshal n b s1 Hn).
    rewrite Hd, Hc, Hy. reflexivity. }
  destruct (read_all_plain l2 (read_entry n b s1) H2)
    as (Ha2 & Hb2 & Hc2 & _).
  { rewrite Hs2. simpl. rewrite Hb.
    destruct (blobs is_workflow l1) as [|w1 ws1]; [now left|].
    right. destruct (blobs is_workflow l2); [reflexivity|].
    simpl in Hlen. lia. }
  { lia. }
  rewrite Hs2 in Ha2, Hb2, Hc2. simpl in Ha2, Hb2, Hc2.
  rewrite ArchiveFacts.ReadFromTar_entries.
  destruct (ArchiveFacts.read_all_blobs yaml_Unmarshal es scan_init)
    as (Hap & Hpi & Hen). simpl in Hap, Hpi, Hen.
  assert (Hsplit : read_all es scan_init = read_all l2 (read_entry n b s1)).
  { subst es s1. now rewrite ArchiveFacts.read_all_app,
      ArchiveFacts.read_all_cons. }
  unfold Archive.assemble.
  rewrite Hap, Hpi, Hen, Hsplit, Hs2, Ha2, Hb2, Hc2, Ha, Hb.
  now rewrite Hws, concat_app.
Qed.

End Decoder.

(** A descriptor between an application and a workflow. *)
Lemma ReadFromTar_well_formed_witness :
  Fixtures.demo_ReadFromTar
    (entries [("a.application.yml", bytes_of "name: a");
              ("tmpl.yml", bytes_of "slug: t");
              ("workflow.yml", bytes_of "name: w")])
  = inr ("t", bytes_of "name: w", [], [bytes_of "name: a"], []).
Proof.
  apply (ReadFromTar_well_formed "" Fixtures.demo_Unmarshal_Template
           Fixtures.demo_GetTemplate
           [("a.application.yml", bytes_of "name: a")]
           [("workflow.yml", bytes_of "name: w")]
           "tmpl.yml" (bytes_of "slug: t") "t").
  - repeat constructor.
  - repeat constructor.
  - reflexivity.
  - reflexivity.
  - vm_compute. lia.
Defined.

End ArchiveMore.

(** * More facts about the bulk handlers *)
Module BulkMore.
Import Bulk.

Section Post.

Context (LoadGroup : string -> error + Z).
Context (LoadBySlugAndGroupID : string -> Z -> error + option WorkflowTemplate).
Context (CheckParams :
           WorkflowTemplate -> WorkflowTemplateRequest -> option error).
Context (checkProjectPermissions : string -> option error).
Context (InsertBulk_error : option error).

Local Abbreviation check_requests := (Bulk.check_requests CheckParams).
Local Abbreviation check_permissions :=
  (Bulk.check_permissions checkProjectPermissions).
Local Abbreviation postTemplateBulkHandler :=
  (Bulk.postTemplateBulkHandler LoadGroup LoadBySlugAndGroupID CheckParams
     checkProjectPermissions InsertBulk_error).

(** The pre-flight loop lets through every list whose keys are pairwise
    distinct and new, and whose requests all pass the check. *)
Lemma check_requests_complete wt ops (m : gset string) :
  NoDup (key <$> ops) ->
  (forall o, o ∈ ops -> key o ∉ m) ->
  (forall o, o ∈ ops -> CheckParams wt (OpRequest o) = None) ->
  check_requests wt ops m = None.
Proof.
  revert m. induction ops as [|o ops IH]; intros m Hnd Hnew Hok; simpl;
    [reflexivity|].
  rewrite fmap_cons in Hnd. apply NoDup_cons in Hnd. destruct Hnd as [Ho Hnd].
  destruct (decide (key o ∈ m)) as [Hin|_].
  { exfalso. apply (Hnew o); [apply elem_of_cons; now left | exact Hin]. }
  rewrite (Hok o) by (apply elem_of_cons; now left).
  apply IH; [exact Hnd | | intros o' Ho'; apply Hok, elem_of_cons; now right].
  intros o' Ho' Hin. apply elem_of_union in Hin. destruct Hin as [Hin|Hin].
  - apply elem_of_singleton in Hin. apply Ho. rewrite <- Hin.
    apply list_elem_of_fmap. now exists o'.
  - apply (Hnew o'); [apply elem_of_cons; now right | exact Hin].
Qed.

(** The loop on the permissions replies with one error, whichever the
    check of a project gives. *)
Lemma check_permissions_spec ops :
  (check_permissions ops = None
   /\ forall o, o ∈ ops ->
                checkProjectPermissions (ProjectKey (OpRequest o)) = None)
  \/ (check_permissions ops = Some write_required
      /\ exists o e, o ∈ ops
           /\ checkProjectPermissions (ProjectKey (OpRequest o)) = Some e).
Proof.
  induction ops as [|o ops IH]; simpl.
  - left. split; [reflexivity|]. intros o Ho. inversion Ho.
  - destruct (checkProjectPermissions (ProjectKey (OpRequest o))) as [e|] eqn:E.
    + right. split; [reflexivity|]. exists o, e. split; [|exact E].
      apply elem_of_cons. now left.
    + destruct IH as [[H1 H2]|[H1 (o' & e & Ho' & He)]].
      * left. split; [exact H1|]. intros o' Ho'. apply elem_of_cons in Ho'.
        destruct Ho' as [->|Ho']; [exact E | now apply H2].
      * right. split; [exact H1|]. exists o', e. split; [|exact He].
        apply elem_of_cons. now right.
Qed.

(** X9.  For a template that is found and a body that is read, the handler
    accepts the job exactly when the operations have pairwise distinct
    keys, every request passes the check of the parameters, the user is an
    administrator or may write in every project, and the job can be
    stored. *)
Theorem postTemplateBulkHandler_accepts db u groupName templateSlug req g wt :
  LoadGroup groupName = inr g ->
  LoadBySlugAndGroupID templateSlug g = inr (Some wt) ->
  (exists b,
      reply (postTemplateBulkHandler db u groupName templateSlug (inr req))
      = inr b)
  <-> NoDup (key <$> Operations req)
      /\ (forall o, o ∈ Operations req ->
                    CheckParams wt (OpRequest o) = None)
      /\ (Admin u = true
          \/ forall o, o ∈ Operations req ->
               checkProjectPermissions (ProjectKey (OpRequest o)) = None)
      /\ InsertBulk_error = None.
Proof.
  intros Hg Hwt. unfold Bulk.postTemplateBulkHandler. rewrite Hg, Hwt.
  split.
  - intros [b Hb].
    destruct (check_requests wt (Operations req) ∅) eqn:Hc; [discriminate|].
    apply BulkFacts.check_requests_None in Hc. destruct Hc as (Hnd & _ & Hok).
    split; [exact Hnd|]. split; [exact Hok|].
    destruct (Admin u) eqn:Ha.
    + destruct InsertBulk_error; [discriminate|]. split; [now left|reflexivity].
    + destruct (check_permissions_spec (Operations req))
        as [[H1 H2]|[H1 _]]; rewrite H1 in Hb; [|discriminate].
      destruct InsertBulk_error; [discriminate|].
      split; [now right|reflexivity].
  - intros (Hnd & Hok & Hperm & Hins).
    rewrite (check_requests_complete wt (Operations req) ∅ Hnd); [|set_solver|exact Hok].
    assert (Hp : (if Admin u then None else check_permissions (Operations req))
                 = None).
    { destruct (Admin u); [reflexivity|]. destruct Hperm as [|Hperm]; [discriminate|].
      destruct (check_permissions_spec (Operations req))
        as [[H1 _]|[_ (o & e & Ho & He)]]; [exact H1|].
      rewrite (Hperm o Ho) in He. discriminate. }
    rewrite Hp, Hins. simpl. eexists. reflexivity.
Qed.

(** X10.  A user who is not an administrator and who may not write in the
    project of one operation gets the error [ErrForbidden] with the text of
    the handler, not the error of the check; nothing is stored and the
    goroutine is not started.  The check of the requests comes first: its
    error is the reply whatever the permissions are. *)
Theorem postTemplateBulkHandler_forbidden db u groupName templateSlug req g wt :
  LoadGroup groupName = inr g ->
  LoadBySlugAndGroupID templateSlug g = inr (Some wt) ->
  let h := postTemplateBulkHandler db u groupName templateSlug (inr req) in
  (forall e, check_requests wt (Operations req) ∅ = Some e ->
             h = Handled db (inl e) None)
  /\ (forall o e,
        check_requests wt (Operations req) ∅ = None ->
        Admin u = false ->
        o ∈ Operations req ->
        checkProjectPermissions (ProjectKey (OpRequest o)) = Some e ->
        h = Handled db (inl write_required) None).
Proof.
  intros Hg Hwt h. subst h. unfold Bulk.postTemplateBulkHandler.
  rewrite Hg, Hwt. split.
  - intros e ->. reflexivity.
  - intros o e -> -> Ho He.
    destruct (check_permissions_spec (Operations req)) as [[_ H2]|[H1 _]].
    + rewrite (H2 o Ho) in He. discriminate.
    + now rewrite H1.
Qed.

End Post.

Section Get.

Context (LoadGroup : string -> error + Z).
Context (LoadBySlugAndGroupID : string -> Z -> error + option WorkflowTemplate).
Context (GetBulk_error : option error).
Context (sort_Slice :
           (WorkflowTemplateBulkOperation -> WorkflowTemplateBulkOperation ->
            bool) ->
           list WorkflowTemplateBulkOperation ->
           list WorkflowTemplateBulkOperation).

Local Abbreviation getTemplateBulkHandler :=
  (Bulk.getTemplateBulkHandler LoadGroup LoadBySlugAndGroupID GetBulk_error
     sort_Slice).

Lemma GetBulk_none (db : bulk_table) id templateID :
  (forall b, In b db -> bulk_ID b = id ->
             bulk_WorkflowTemplateID b <> templateID) ->
  GetBulkByIDAndTemplateID db id templateID = None.
Proof.
  intros H. unfold GetBulkByIDAndTemplateID.
  destruct (find _ db) as [b|] eqn:Hf; [|reflexivity].
  apply find_some in Hf. destruct Hf as [Hin Hb].
  apply andb_prop in Hb. destruct Hb as [H1 H2].
  apply Z.eqb_eq in H1, H2. now destruct (H b Hin H1).
Qed.

(** X11.  A job is read back only by its user or by an administrator,
    under its own identifier, which is not 0, and under the template it
    was made for; to another user the jobs of the table are as if they
    were not there: the reply is the one of the empty table. *)
Theorem getTemplateBulkHandler_private db u id groupName templateSlug :
  (forall b',
      getTemplateBulkHandler db u id groupName templateSlug = inr b' ->
      (Admin u = true \/ UserID b' = u_ID u)
      /\ bulk_ID b' = id /\ id <> 0%Z
      /\ exists g wt,
           LoadGroup groupName = inr g
           /\ LoadBySlugAndGroupID templateSlug g = inr (Some wt)
           /\ bulk_WorkflowTemplateID b' = wt_ID wt)
  /\ (Admin u = false ->
      (forall b, In b db -> bulk_ID b = id -> UserID b <> u_ID u) ->
      getTemplateBulkHandler db u id groupName templateSlug
      = getTemplateBulkHandler [] u id groupName templateSlug).
Proof.
  unfold Bulk.getTemplateBulkHandler. split.
  - intros b'. destruct (Z.eqb id 0) eqn:Hid; [discriminate|].
    apply Z.eqb_neq in Hid.
    destruct (LoadGroup groupName) as [?|g] eqn:Hg; [discriminate|].
    destruct (LoadBySlugAndGroupID templateSlug g) as [?|[wt|]] eqn:Hwt;
      [discriminate| |discriminate].
    destruct GetBulk_error; [discriminate|].
    destruct (GetBulkByIDAndTemplateID db id (wt_ID wt)) as [b|] eqn:Hf;
      [|discriminate].
    destruct (Admin u) eqn:Ha; simpl.
    + intros H. inversion H; subst; clear H. simpl.
      unfold GetBulkByIDAndTemplateID in Hf. apply find_some in Hf.
      destruct Hf as [_ Hb]. apply andb_prop in Hb. destruct Hb as [H1 H2].
      apply Z.eqb_eq in H1, H2.
      split; [now left|]. split; [exact H1|]. split; [exact Hid|].
      now exists g, wt.
    + destruct (Z.eqb (u_ID u) (UserID b)) eqn:Hu; simpl; [|discriminate].
      intros H. inversion H; subst; clear H. simpl.
      unfold GetBulkByIDAndTemplateID in Hf. apply find_some in Hf.
      destruct Hf as [_ Hb]. apply andb_prop in Hb. destruct Hb as [H1 H2].
      apply Z.eqb_eq in H1, H2, Hu.
      split; [now right|]. split; [exact H1|]. split; [exact Hid|].
      now exists g, wt.
  - intros Ha Hother. destruct (Z.eqb id 0); [reflexivity|].
    destruct (LoadGroup groupName) as [?|g]; [reflexivity|].
    destruct (LoadBySlugAndGroupID templateSlug g) as [?|[wt|]];
      [reflexivity| |reflexivity].
    destruct GetBulk_error; [reflexivity|].
    destruct (GetBulkByIDAndTemplateID db id (wt_ID wt)) as [b|] eqn:Hf;
      [|reflexivity].
    unfold GetBulkByIDAndTemplateID in Hf. apply find_some in Hf.
    destruct Hf as [Hin Hb]. apply andb_prop in Hb. destruct Hb as [H1 _].
    apply Z.eqb_eq in H1. rewrite Ha. simpl.
    destruct (Z.eqb (u_ID u) (UserID b)) eqn:Hu; simpl; [|reflexivity].
    apply Z.eqb_eq in Hu. now destruct (Hother b Hin H1).
Qed.

End Get.

(** Two operations on the project [KEY] with two workflow names. *)
Lemma postTemplateBulkHandler_accepts_witness :
  exists b,
    reply (Fixtures.demo_post_guarded []
             [Fixtures.demo_op "KEY" "a"; Fixtures.demo_op "KEY" "b"])
    = inr b.
Proof.
  apply (proj2 (postTemplateBulkHandler_accepts
                  Fixtures.demo_LoadGroup Fixtures.demo_LoadBySlugAndGroupID
                  Fixtures.demo_CheckParams
                  Fixtures.demo_checkProjectPermissions_KEY None
                  [] Fixtures.demo_u "grp" "tpl"
                  (Fixtures.demo_bulk [Fixtures.demo_op "KEY" "a";
                                       Fixtures.demo_op "KEY" "b"])
                  1%Z Fixtures.demo_wt eq_refl eq_refl)).
  split; [|split; [|split]].
  - apply (bool_decide_unpack _). vm_compute. reflexivity.
  - intros o Ho. apply list_elem_of_In in Ho. simpl in Ho.
    destruct Ho as [<-|[<-|[]]]; reflexivity.
  - right. intros o Ho. apply list_elem_of_In in Ho. simpl in Ho.
    destruct Ho as [<-|[<-|[]]]; reflexivity.
  - reflexivity.
Defined.

(** A second operation on a project the user may not write in. *)
Lemma postTemplateBulkHandler_forbidden_witness :
  Fixtures.demo_post_guarded []
    [Fixtures.demo_op "KEY" "a"; Fixtures.demo_op "OTHER" "b"]
  = Handled [] (inl write_required) None.
Proof.
  apply (proj2 (postTemplateBulkHandler_forbidden
                  Fixtures.demo_LoadGroup Fixtures.demo_LoadBySlugAndGroupID
                  Fixtures.demo_CheckParams
                  Fixtures.demo_checkProjectPermissions_KEY None
                  [] Fixtures.demo_u "grp" "tpl"
                  (Fixtures.demo_bulk [Fixtures.demo_op "KEY" "a";
                                       Fixtures.demo_op "OTHER" "b"])
                  1%Z Fixtures.demo_wt eq_refl eq_refl)
           (Fixtures.demo_op "OTHER" "b") (Err ErrNotFound)).
  - vm_compute. reflexivity.
  - reflexivity.
  - apply list_elem_of_In. right. now left.
  - reflexivity.
Defined.

(** The job of the first user, asked for by the second one. *)
Lemma getTemplateBulkHandler_private_witness :
  Fixtures.demo_get_as Fixtures.demo_v
    [Fixtures.demo_bulk [Fixtures.demo_op "KEY" "a"]] 1
  = inl (no_bulk_found 1).
Proof.
  unfold Fixtures.demo_get_as.
  rewrite (proj2 (getTemplateBulkHandler_private
                    Fixtures.demo_LoadGroup Fixtures.demo_LoadBySlugAndGroupID
                    None Fixtures.demo_sort_Slice
                    [Fixtures.demo_bulk [Fixtures.demo_op "KEY" "a"]]
                    Fixtures.demo_v 1 "grp" "tpl") eq_refl).
  - reflexivity.
  - intros b [<-|[]] _. discriminate.
Defined.

End BulkMore.

(** * The goroutine of the bulk handler as a whole: facts *)
Module BulkRunFacts.
Import Bulk BulkRun.

Lemma UpdateBulk_twice (db : bulk_table) x y :
  bulk_ID x = bulk_ID y -> UpdateBulk (UpdateBulk db x) y = UpdateBulk db y.
Proof.
  intros E. unfold UpdateBulk. rewrite map_map. apply map_ext. intros r.
  rewrite <- E. destruct (Z.eqb (bulk_ID r) (bulk_ID x)) eqn:Hr;
    [now rewrite Z.eqb_refl | now rewrite Hr].
Qed.

Lemma UpdateBulk_IDs (db : bulk_table) x :
  map bulk_ID (UpdateBulk db x) = map bulk_ID db.
Proof.
  unfold UpdateBulk. rewrite map_map. apply map_ext. intros r.
  destruct (Z.eqb (bulk_ID r) (bulk_ID x)) eqn:Hr; [|reflexivity].
  apply Z.eqb_eq in Hr. now symmetry.
Qed.

Lemma UpdateBulk_other_jobs (db : bulk_table) x :
  other_jobs (bulk_ID x) (UpdateBulk db x) = other_jobs (bulk_ID x) db.
Proof.
  unfold other_jobs, UpdateBulk. induction db as [|r db IH]; [reflexivity|].
  simpl. destruct (Z.eqb (bulk_ID r) (bulk_ID x)) eqn:Hr; simpl.
  - rewrite Z.eqb_refl. simpl. exact IH.
  - rewrite Hr. simpl. now rewrite IH.
Qed.

Lemma UpdateBulk_snoc (db : bulk_table) b y :
  (forall r, In r db -> bulk_ID r <> bulk_ID b) ->
  bulk_ID y = bulk_ID b ->
  UpdateBulk (db ++ [b]) y = db ++ [y].
Proof.
  intros Hfresh E. unfold UpdateBulk. rewrite map_app. simpl.
  rewrite E, Z.eqb_refl. f_equal.
  rewrite <- (map_id db) at 2. apply map_ext_in. intros r Hr.
  destruct (Z.eqb (bulk_ID r) (bulk_ID b)) eqn:H; [|reflexivity].
  apply Z.eqb_eq in H. now destruct (Hfresh r Hr).
Qed.

Lemma GetBulk_snoc (db : bulk_table) y :
  (forall r, In r db -> bulk_ID r <> bulk_ID y) ->
  GetBulkByIDAndTemplateID (db ++ [y]) (bulk_ID y) (bulk_WorkflowTemplateID y)
  = Some y.
Proof.
  intros Hfresh. unfold GetBulkByIDAndTemplateID.
  induction db as [|r db IH]; simpl.
  - now rewrite !Z.eqb_refl.
  - destruct (Z.eqb (bulk_ID r) (bulk_ID y)) eqn:H.
    + apply Z.eqb_eq in H. destruct (Hfresh r); [now left | exact H].
    + simpl. apply IH. intros r' Hr'. apply Hfresh. now right.
Qed.

Lemma next_bulk_ID_fresh (db : bulk_table) r :
  In r db -> (bulk_ID r < next_bulk_ID db)%Z.
Proof.
  unfold next_bulk_ID. induction db as [|a db IH]; simpl; [easy|].
  intros [->|H]; [lia|]. apply IH in H. lia.
Qed.

Lemma next_bulk_ID_pos (db : bulk_table) : (0 < next_bulk_ID db)%Z.
Proof.
  unfold next_bulk_ID. induction db as [|a db IH]; simpl; lia.
Qed.

Lemma set_Status_twice i s s' b :
  set_Status i s (set_Status i s' b) = set_Status i s b.
Proof.
  unfold set_Status, set_Operations. simpl. f_equal.
  now rewrite BulkFacts.alter_twice.
Qed.

(** The job with the status [s] and the text [e] in its operation [i]. *)
Lemma set_Error_Status i s s' e o b :
  Operations b !! i = Some o ->
  set_Error i e (set_Status i s (set_Status i s' b))
  = set_Operations (fun _ => {| Status := s; Error := e;
                                OpRequest := OpRequest o |}) i b.
Proof.
  intros Ho. rewrite set_Status_twice.
  unfold set_Error, set_Status, set_Operations. simpl. f_equal.
  rewrite BulkFacts.alter_twice. now apply (BulkFacts.alter_agree _ _ i o).
Qed.

Lemma set_Status_Done i s' o b :
  Operations b !! i = Some o ->
  set_Status i OperationStatusDone (set_Status i s' b)
  = set_Operations (fun _ => {| Status := OperationStatusDone;
                                Error := Error o;
                                OpRequest := OpRequest o |}) i b.
Proof.
  intros Ho. rewrite set_Status_twice.
  unfold set_Status, set_Operations. simpl. f_equal.
  now apply (BulkFacts.alter_agree _ _ i o).
Qed.

Section Apply.

Context (UpdateBulk_error : nat -> option string).
Context (project_Load : nat -> string -> string + Project).
Context (db_error : nat -> Reconciler.db_call -> option string).
Context (Execute : WorkflowTemplate -> WorkflowTemplateInstance ->
                   WorkflowTemplateResult * option string).
Context (yaml_Unmarshal : string -> string + ExportedWorkflow).
Context (yaml_Marshal : ExportedWorkflow -> string + string).
Context (now : Z).
Context (Tar : WorkflowTemplate -> WorkflowTemplateResult -> string + list byte).
Context (Push : nat -> Project -> list byte -> option string).
Context (Cause : error -> string).
Context (u : AuthentifiedUser) (wt : WorkflowTemplate).

Local Abbreviation closed :=
  (Bulk.closed project_Load db_error Execute yaml_Unmarshal yaml_Marshal now
     Tar Push Cause u wt).
Local Abbreviation update := (Bulk.update UpdateBulk_error).
Local Abbreviation operation :=
  (Bulk.operation UpdateBulk_error project_Load db_error Execute
     yaml_Unmarshal yaml_Marshal now Tar Push Cause u wt).
Local Abbreviation range_Operations :=
  (Bulk.range_Operations UpdateBulk_error project_Load db_error Execute
     yaml_Unmarshal yaml_Marshal now Tar Push Cause u wt).
Local Abbreviation templateBulkApply :=
  (Bulk.templateBulkApply UpdateBulk_error project_Load db_error Execute
     yaml_Unmarshal yaml_Marshal now Tar Push Cause u wt).
Local Abbreviation effect :=
  (BulkRun.effect project_Load db_error Execute yaml_Unmarshal yaml_Marshal
     now u wt).
Local Abbreviation effects :=
  (BulkRun.effects project_Load db_error Execute yaml_Unmarshal yaml_Marshal
     now u wt).

(** The iteration on a pending operation, in full: the job is stored with
    the status [Processing]; then the project is loaded and the template
    applied, and the job is stored with the status and the text the steps
    decide. *)
Lemma operation_run i t o :
  Operations (bulk t) !! i = Some o ->
  Status o = OperationStatusPending ->
  operation i t =
  match UpdateBulk_error (calls t) with
  | Some _ =>
      (Task (set_Status i OperationStatusProcessing (bulk t)) (bulks t)
            (instances t) (events t) (persisted t) (S (calls t)), false)
  | None =>
      update
        (Task (closed i o (instances t) (bulk t))
              (UpdateBulk (bulks t)
                 (set_Status i OperationStatusProcessing (bulk t)))
              (fst (effect i (OpRequest o) (instances t)))
              (events t ++ snd (effect i (OpRequest o) (instances t)))
              (persisted t ++ [set_Status i OperationStatusProcessing (bulk t)])
              (S (calls t)))
  end.
Proof.
  intros Ho Hs. unfold Bulk.operation. rewrite Ho, Hs.
  unfold Bulk.update at 1. simpl.
  destruct (UpdateBulk_error (calls t)); [reflexivity|].
  unfold Bulk.closed, Bulk.verdict, BulkRun.effect, Bulk.errorDefer,
    with_bulk. simpl.
  destruct (project_Load i (ProjectKey (OpRequest o))) as [e|p]; simpl.
  { rewrite app_nil_r. now rewrite (set_Error_Status _ _ _ _ o). }
  set (out := Reconciler.applyTemplate _ _ _ _ _ _ _ _ _ _).
  destruct (Reconciler.err out) as [e|]; simpl.
  { now rewrite (set_Error_Status _ _ _ _ o). }
  destruct (Tar wt (Reconciler.returned out)) as [e|buf]; simpl.
  { now rewrite (set_Error_Status _ _ _ _ o). }
  destruct (Push i p buf) as [e|]; simpl.
  { now rewrite (set_Error_Status _ _ _ _ o). }
  now rewrite (set_Status_Done _ _ o).
Qed.

Lemma update_success t :
  UpdateBulk_error (calls t) = None ->
  update t = (Task (bulk t) (UpdateBulk (bulks t) (bulk t)) (instances t)
                   (events t) (persisted t ++ [bulk t]) (S (calls t)), true).
Proof. intros H. unfold Bulk.update. now rewrite H. Qed.

Lemma update_failure t :
  UpdateBulk_error (calls t) <> None ->
  update t = (Task (bulk t) (bulks t) (instances t) (events t) (persisted t)
                   (S (calls t)), false).
Proof.
  intros H. unfold Bulk.update. now destruct (UpdateBulk_error (calls t)).
Qed.

Lemma closed_Operations i o rows b :
  Operations b !! i = Some o ->
  Operations (closed i o rows b)
  = alter (fun o' => {| Status := fst (Bulk.verdict project_Load db_error
                                         Execute yaml_Unmarshal yaml_Marshal
                                         now Tar Push Cause u wt i o rows);
                        Error := snd (Bulk.verdict project_Load db_error
                                        Execute yaml_Unmarshal yaml_Marshal
                                        now Tar Push Cause u wt i o rows);
                        OpRequest := OpRequest o' |}) i (Operations b).
Proof.
  intros Ho. unfold Bulk.closed, set_Operations. simpl.
  now apply (BulkFacts.alter_agree _ _ i o).
Qed.

Lemma update_bulk t : bulk (fst (update t)) = bulk t.
Proof. unfold Bulk.update. now destruct (UpdateBulk_error (calls t)). Qed.

(** An iteration changes the operation [i] of the job, and only when it
    is pending; it keeps its request. *)
Lemma operation_bulk i t :
  let b' := bulk (fst (operation i t)) in
  requests b' = requests (bulk t)
  /\ (forall j, j <> i -> Operations b' !! j = Operations (bulk t) !! j)
  /\ (forall o, Operations (bulk t) !! i = Some o ->
                Status o <> OperationStatusPending -> b' = bulk t)
  /\ bulk_ID b' = bulk_ID (bulk t)
  /\ UserID b' = UserID (bulk t)
  /\ bulk_WorkflowTemplateID b' = bulk_WorkflowTemplateID (bulk t).
Proof.
  intros b'. subst b'.
  destruct (Operations (bulk t) !! i) as [o|] eqn:Ho.
  - destruct (Status o) eqn:Hs.
    + rewrite (operation_run i t o Ho Hs).
      destruct (UpdateBulk_error (calls t)) eqn:H1.
      * simpl. split; [apply BulkFacts.requests_set_Status|].
        split; [intros j Hj; now apply list_lookup_alter_ne|].
        split; [intros o' E; inversion E; subst; congruence|]. now repeat split.
      * rewrite update_bulk. simpl.
        split.
        { unfold requests. rewrite (closed_Operations _ _ _ _ Ho).
          now apply BulkFacts.map_alter_same. }
        split.
        { intros j Hj. now apply list_lookup_alter_ne. }
        split; [intros o' E; inversion E; subst; congruence|]. now repeat split.
    + unfold Bulk.operation. rewrite Ho, Hs. simpl. now repeat split.
    + unfold Bulk.operation. rewrite Ho, Hs. simpl. now repeat split.
    + unfold Bulk.operation. rewrite Ho, Hs. simpl. now repeat split.
  - unfold Bulk.operation. rewrite Ho. simpl. repeat split; auto; discriminate.
Qed.

Lemma range_Operations_inv (P : task -> Prop) :
  (forall i t, P t -> P (fst (operation i t))) ->
  forall idx t, P t -> P (fst (range_Operations idx t)).
Proof.
  intros Hstep idx. induction idx as [|i idx IH]; intros t Ht; simpl;
    [exact Ht|].
  pose proof (Hstep i t Ht) as Ht'.
  destruct (operation i t) as [t' [|]]; simpl in *; [now apply IH | exact Ht'].
Qed.

(** ** The bulk table *)

Lemma kept_UpdateBulk b0 db t y :
  kept b0 db t -> bulk_ID y = bulk_ID b0 ->
  UpdateBulk (bulks t) y = UpdateBulk db y.
Proof.
  intros (_ & _ & _ & Hp & Hb) Hy. rewrite Hb.
  destruct (persisted t) as [|s l] eqn:E; [reflexivity|].
  apply UpdateBulk_twice. rewrite Hy.
  rewrite Forall_forall in Hp. apply Hp. apply list_elem_of_In.
  destruct (exists_last (l := s :: l)) as (l' & z & El); [discriminate|].
  rewrite El, last_last. apply in_or_app. right. now left.
Qed.

Lemma kept_change b0 db t b rows evs c :
  kept b0 db t ->
  bulk_ID b = bulk_ID (bulk t) -> UserID b = UserID (bulk t) ->
  bulk_WorkflowTemplateID b = bulk_WorkflowTemplateID (bulk t) ->
  kept b0 db (Task b (bulks t) rows evs (persisted t) c).
Proof.
  intros (H1 & H2 & H3 & H4 & H5) E1 E2 E3. unfold kept. simpl.
  rewrite E1, E2, E3. now repeat split.
Qed.

Lemma kept_update b0 db t : kept b0 db t -> kept b0 db (fst (update t)).
Proof.
  intros H. pose proof H as (H1 & H2 & H3 & H4 & H5). unfold Bulk.update.
  destruct (UpdateBulk_error (calls t)); simpl; [exact H|].
  unfold kept. simpl. split; [exact H1|]. split; [exact H2|].
  split; [exact H3|]. split.
  - apply Forall_app. split; [exact H4|]. now repeat constructor.
  - rewrite last_last. rewrite (kept_UpdateBulk b0 db t _ H H1).
    now destruct (persisted t).
Qed.

Lemma operation_kept b0 db i t :
  kept b0 db t -> kept b0 db (fst (operation i t)).
Proof.
  intros H. destruct (Operations (bulk t) !! i) as [o|] eqn:Ho.
  - destruct (Status o) eqn:Hs;
      try (unfold Bulk.operation; rewrite Ho, Hs; exact H).
    rewrite (operation_run i t o Ho Hs).
    destruct (UpdateBulk_error (calls t)) eqn:H1; simpl.
    + now apply kept_change.
    + apply kept_update.
      pose proof (kept_update b0 db
                    (Task (set_Status i OperationStatusProcessing (bulk t))
                          (bulks t) (instances t) (events t) (persisted t)
                          (calls t))) as Hk.
      unfold Bulk.update in Hk. simpl in Hk. rewrite H1 in Hk. simpl in Hk.
      apply (kept_change b0 db _ (closed i o (instances t) (bulk t))
               (fst (effect i (OpRequest o) (instances t)))
               (events t ++ snd (effect i (OpRequest o) (instances t)))
               (S (calls t))) in Hk; try reflexivity.
      * exact Hk.
      * now apply kept_change.
  - unfold Bulk.operation. rewrite Ho. exact H.
Qed.

(** ** The operations that are not pending *)

Lemma operation_frozen b0 i t :
  frozen b0 (bulk t) -> frozen b0 (bulk (fst (operation i t))).
Proof.
  intros [Hr Hf]. destruct (operation_bulk i t) as (Hreq & Hne & Hsame & _).
  split; [now rewrite Hreq|]. intros j o Hj Hs.
  destruct (decide (j = i)) as [->|Hji].
  - rewrite (Hsame o (Hf i o Hj Hs) Hs). now apply Hf.
  - rewrite (Hne j Hji). now apply Hf.
Qed.

(** ** The calls of [UpdateBulk] *)

Lemma operation_length i t :
  length (Operations (bulk (fst (operation i t))))
  = length (Operations (bulk t)).
Proof.
  destruct (operation_bulk i t) as (Hreq & _). unfold requests in Hreq.
  now rewrite <- (length_map OpRequest), Hreq, length_map.
Qed.

Lemma operation_calls i t :
  i < length (Operations (bulk t)) ->
  calls t = length (persisted t) ->
  (forall n, n < calls t -> UpdateBulk_error n = None) ->
  let r := operation i t in
  (forall n, n < length (persisted (fst r)) -> UpdateBulk_error n = None)
  /\ (snd r = true -> calls (fst r) = length (persisted (fst r)))
  /\ (snd r = false ->
      calls (fst r) = S (length (persisted (fst r)))
      /\ UpdateBulk_error (length (persisted (fst r))) <> None).
Proof.
  intros Hi Hc Hok r. subst r.
  destruct (Operations (bulk t) !! i) as [o|] eqn:Ho.
  - destruct (Status o) eqn:Hs;
      try (unfold Bulk.operation; rewrite Ho, Hs; simpl;
           split; [now rewrite <- Hc|]; split; [auto | discriminate]).
    rewrite (operation_run i t o Ho Hs).
    destruct (UpdateBulk_error (calls t)) eqn:H1; simpl.
    + split; [now rewrite <- Hc|]. split; [discriminate|]. intros _.
      split; [now rewrite Hc|]. rewrite <- Hc, H1. discriminate.
    + unfold Bulk.update. simpl.
      destruct (UpdateBulk_error (S (calls t))) eqn:H2; simpl.
      * rewrite length_app. simpl. split.
        { intros n Hn. destruct (decide (n = calls t)) as [->|]; [exact H1|].
          apply Hok. lia. }
        split; [discriminate|]. intros _. split; [lia|].
        replace (length (persisted t) + 1) with (S (calls t)) by lia.
        rewrite H2. discriminate.
      * rewrite !length_app. simpl. split.
        { intros n Hn. destruct (decide (n = S (calls t))) as [->|]; [exact H2|].
          destruct (decide (n = calls t)) as [->|]; [exact H1|].
          apply Hok. lia. }
        split; [intros _; lia | discriminate].
  - apply lookup_ge_None in Ho. lia.
Qed.

Lemma range_Operations_calls m i t :
  i + m = length (Operations (bulk t)) ->
  calls t = length (persisted t) ->
  (forall n, n < calls t -> UpdateBulk_error n = None) ->
  let r := range_Operations (seq i m) t in
  (forall n, n < length (persisted (fst r)) -> UpdateBulk_error n = None)
  /\ (snd r = true -> calls (fst r) = length (persisted (fst r)))
  /\ (snd r = false ->
      calls (fst r) = S (length (persisted (fst r)))
      /\ UpdateBulk_error (length (persisted (fst r))) <> None).
Proof.
  revert i t. induction m as [|m IH]; intros i t Hm Hc Hok; simpl.
  - split; [now rewrite <- Hc|]. split; [auto | discriminate].
  - destruct (operation_calls i t) as (H1 & H2 & H3); [lia|exact Hc|exact Hok|].
    pose proof (operation_length i t) as Hl.
    destruct (operation i t) as [t' [|]]; simpl in *.
    + apply IH; [lia | now apply H2 |]. rewrite (H2 eq_refl). exact H1.
    + split; [exact H1|]. split; [discriminate | exact H3].
Qed.

(** ** The instance table *)

Lemma range_Operations_effects :
  (forall n, UpdateBulk_error n = None) ->
  forall ops i t,
    drop i (Operations (bulk t)) = ops ->
    let r := range_Operations (seq i (length ops)) t in
    snd r = true
    /\ instances (fst r) = fst (effects i ops (instances t) (events t))
    /\ events (fst r) = snd (effects i ops (instances t) (events t)).
Proof.
  intros Hup ops. induction ops as [|o ops IH]; intros i t Hd; simpl;
    [now repeat split|].
  assert (Ho : Operations (bulk t) !! i = Some o).
  { rewrite <- (Nat.add_0_r i), <- lookup_drop, Hd. reflexivity. }
  assert (Hd' : drop (S i) (Operations (bulk t)) = ops).
  { rewrite (drop_S _ _ _ Ho) in Hd. now inversion Hd. }
  destruct (Status o) eqn:Hs;
    try (unfold Bulk.operation at 1 2 3; rewrite Ho, Hs; now apply IH).
  rewrite (operation_run i t o Ho Hs), Hup.
  rewrite update_success by apply Hup. simpl.
  apply (IH (S i) (Task _ _ _ _ _ _)). simpl.
  rewrite drop_alter.
  destruct (decide (S i <= i)); [lia | exact Hd'].
Qed.

(** ** The state stored last *)

Lemma operation_last b0 i t :
  List.last (persisted t) b0 = bulk t ->
  snd (operation i t) = true ->
  List.last (persisted (fst (operation i t))) b0
  = bulk (fst (operation i t)).
Proof.
  intros Hl. destruct (Operations (bulk t) !! i) as [o|] eqn:Ho.
  - destruct (Status o) eqn:Hs;
      try (unfold Bulk.operation; rewrite Ho, Hs; intros _; exact Hl).
    rewrite (operation_run i t o Ho Hs).
    destruct (UpdateBulk_error (calls t)); [discriminate|].
    unfold Bulk.update. simpl.
    destruct (UpdateBulk_error (S (calls t))); [discriminate|]. simpl.
    intros _. apply last_last.
  - unfold Bulk.operation. rewrite Ho. discriminate.
Qed.

Lemma range_Operations_last b0 idx t :
  List.last (persisted t) b0 = bulk t ->
  snd (range_Operations idx t) = true ->
  List.last (persisted (fst (range_Operations idx t))) b0
  = bulk (fst (range_Operations idx t)).
Proof.
  revert t. induction idx as [|i idx IH]; intros t Hl; simpl; [auto|].
  pose proof (operation_last b0 i t Hl) as H.
  destruct (operation i t) as [t' [|]]; simpl in *; [|discriminate].
  apply IH. now apply H.
Qed.

(** X12.  While the job can be stored, the goroutine applies the requests
    of the pending operations one after the other, in the order of the
    list, each one on the instance table the one before left, whether that
    one failed or not; the operations that are not pending and those whose
    project cannot be loaded leave the table as it is.  The events are
    those of the applications, in the same order. *)
Theorem templateBulkApply_applies b0 db rows :
  (forall n, UpdateBulk_error n = None) ->
  let r := templateBulkApply b0 db rows in
  snd r = true
  /\ instances (fst r) = fst (effects 0 (Operations b0) rows [])
  /\ events (fst r) = snd (effects 0 (Operations b0) rows []).
Proof.
  intros Hup.
  apply (range_Operations_effects Hup (Operations b0) 0
           (Task b0 db rows [] [] 0)).
  reflexivity.
Qed.

(** X13.  Whichever calls fail, the goroutine writes the row of its own
    job only: the bulk table it leaves is the one it started from, with
    the rows that have the identifier of the job replaced by the state
    stored last, if one was stored; the identifiers of the rows and the
    rows of the other jobs are unchanged, and every state stored has the
    identifier, the user and the template of the job. *)
Theorem templateBulkApply_own_row b0 db rows :
  let t := fst (templateBulkApply b0 db rows) in
  bulks t = match persisted t with
            | [] => db
            | _ :: _ => UpdateBulk db (List.last (persisted t) b0)
            end
  /\ map bulk_ID (bulks t) = map bulk_ID db
  /\ other_jobs (bulk_ID b0) (bulks t) = other_jobs (bulk_ID b0) db
  /\ Forall (fun s => bulk_ID s = bulk_ID b0) (persisted t)
  /\ bulk_ID (bulk t) = bulk_ID b0
  /\ UserID (bulk t) = UserID b0
  /\ bulk_WorkflowTemplateID (bulk t) = bulk_WorkflowTemplateID b0.
Proof.
  intros t.
  assert (Hk : kept b0 db t).
  { apply (range_Operations_inv (kept b0 db)).
    - intros i t0. apply operation_kept.
    - unfold kept. simpl. now repeat split. }
  destruct Hk as (H1 & H2 & H3 & H4 & H5).
  split; [exact H5|]. rewrite H5.
  destruct (persisted t) as [|s l] eqn:E; [now repeat split|].
  assert (Hid : bulk_ID (List.last (s :: l) b0) = bulk_ID b0).
  { rewrite Forall_forall in H4. apply H4, list_elem_of_In.
    destruct (exists_last (l := s :: l)) as (l' & z & El); [discriminate|].
    rewrite El, last_last. apply in_or_app. right. now left. }
  split; [apply UpdateBulk_IDs|]. split; [|now repeat split].
  rewrite <- Hid. apply UpdateBulk_other_jobs.
Qed.

(** X14.  The goroutine stops at the first call of [UpdateBulk] that
    fails: all the calls before it succeeded, each one storing a state,
    and none is made after it; without such a failure it goes through all
    the operations. *)
Theorem templateBulkApply_stops b0 db rows :
  let r := templateBulkApply b0 db rows in
  (forall n, n < length (persisted (fst r)) -> UpdateBulk_error n = None)
  /\ (snd r = true -> calls (fst r) = length (persisted (fst r)))
  /\ (snd r = false ->
      calls (fst r) = S (length (persisted (fst r)))
      /\ UpdateBulk_error (length (persisted (fst r))) <> None).
Proof.
  apply (range_Operations_calls (length (Operations b0)) 0
           (Task b0 db rows [] [] 0)); simpl; [reflexivity|reflexivity|].
  intros n Hn. lia.
Qed.

(** X15.  Whichever calls fail, the goroutine keeps the requests of the
    job, in their order, and leaves the operations that were not pending
    when it started exactly as they were. *)
Theorem templateBulkApply_skips b0 db rows :
  let t := fst (templateBulkApply b0 db rows) in
  requests (bulk t) = requests b0
  /\ forall j o, Operations b0 !! j = Some o ->
                 Status o <> OperationStatusPending ->
                 Operations (bulk t) !! j = Some o.
Proof.
  apply (range_Operations_inv (fun t => frozen b0 (bulk t))).
  - intros i t0. apply operation_frozen.
  - split; [reflexivity|]. now intros j o Hj _.
Qed.

Context (LoadGroup : string -> error + Z).
Context (LoadBySlugAndGroupID : string -> Z -> error + option WorkflowTemplate).
Context (CheckParams :
           WorkflowTemplate -> WorkflowTemplateRequest -> option error).
Context (checkProjectPermissions : string -> option error).
Context (InsertBulk_error : option error).
Context (sort_Slice :
           (WorkflowTemplateBulkOperation -> WorkflowTemplateBulkOperation ->
            bool) ->
           list WorkflowTemplateBulkOperation ->
           list WorkflowTemplateBulkOperation).

Local Abbreviation postTemplateBulkHandler :=
  (Bulk.postTemplateBulkHandler LoadGroup LoadBySlugAndGroupID CheckParams
     checkProjectPermissions InsertBulk_error).
Local Abbreviation getTemplateBulkHandler :=
  (Bulk.getTemplateBulkHandler LoadGroup LoadBySlugAndGroupID None
     sort_Slice).

(** The job the handler replies with. *)
Lemma postTemplateBulkHandler_job db groupName templateSlug body g b :
  LoadGroup groupName = inr g ->
  LoadBySlugAndGroupID templateSlug g = inr (Some wt) ->
  reply (postTemplateBulkHandler db u groupName templateSlug body) = inr b ->
  stored (postTemplateBulkHandler db u groupName templateSlug body)
  = db ++ [b]
  /\ bulk_ID b = next_bulk_ID db
  /\ UserID b = u_ID u
  /\ bulk_WorkflowTemplateID b = wt_ID wt.
Proof.
  intros Hg Hwt. unfold Bulk.postTemplateBulkHandler. rewrite Hg, Hwt.
  destruct body as [?|req]; [discriminate|].
  destruct (Bulk.check_requests _ _ _ _); [discriminate|].
  destruct (if Admin u then None else _); [discriminate|].
  destruct InsertBulk_error; [discriminate|].
  simpl. intros H. inversion H; subst; clear H. now repeat split.
Qed.

(** X16.  A job the handler accepted, worked on by the goroutine while
    the job can be stored, is read back by its user under the identifier
    of the reply as the goroutine left it, with its operations sorted: the
    row appended for the job holds the last state of the goroutine. *)
Theorem bulk_read_back db rows groupName templateSlug body g b :
  (forall n, UpdateBulk_error n = None) ->
  LoadGroup groupName = inr g ->
  LoadBySlugAndGroupID templateSlug g = inr (Some wt) ->
  let h := postTemplateBulkHandler db u groupName templateSlug body in
  reply h = inr b ->
  let t := fst (templateBulkApply b (stored h) rows) in
  bulks t = db ++ [bulk t]
  /\ getTemplateBulkHandler (bulks t) u (bulk_ID b) groupName templateSlug
     = inr {| bulk_ID := bulk_ID b; UserID := u_ID u;
              bulk_WorkflowTemplateID := wt_ID wt;
              Operations := sort_Slice less (Operations (bulk t)) |}.
Proof.
  intros Hup Hg Hwt h Hb t.
  destruct (postTemplateBulkHandler_job db groupName templateSlug body g b
              Hg Hwt Hb) as (Hst & Hid & Hu & Ht).
  subst t. fold h in Hst. rewrite Hst.
  set (r := templateBulkApply b (db ++ [b]) rows).
  assert (Hk : kept b (db ++ [b]) (fst r)).
  { apply (range_Operations_inv (kept b (db ++ [b]))).
    - intros i t0. apply operation_kept.
    - unfold kept. simpl. now repeat split. }
  assert (Hok : snd r = true).
  { apply (range_Operations_effects Hup (Operations b) 0
             (Task b (db ++ [b]) rows [] [] 0)). reflexivity. }
  assert (Hl : List.last (persisted (fst r)) b = bulk (fst r)).
  { apply range_Operations_last; [reflexivity | exact Hok]. }
  destruct Hk as (H1 & H2 & H3 & H4 & H5).
  assert (Hfresh : forall x, In x db -> bulk_ID x <> bulk_ID b).
  { intros x Hx. apply next_bulk_ID_fresh in Hx. lia. }
  assert (Hbulks : bulks (fst r) = db ++ [bulk (fst r)]).
  { rewrite H5. destruct (persisted (fst r)) as [|s l] eqn:E.
    - simpl in Hl. now rewrite <- Hl.
    - rewrite Hl. now apply UpdateBulk_snoc. }
  split; [exact Hbulks|].
  unfold Bulk.getTemplateBulkHandler.
  pose proof (next_bulk_ID_pos db) as Hpos.
  destruct (Z.eqb (bulk_ID b) 0) eqn:Hz; [apply Z.eqb_eq in Hz; lia|].
  rewrite Hg, Hwt, Hbulks, <- Ht, <- H3, <- H1.
  rewrite GetBulk_snoc by (intros x Hx; rewrite H1; now apply Hfresh).
  rewrite H2, Hu, Z.eqb_refl, andb_false_r. now rewrite H1, H3, Ht.
Qed.

End Apply.

(** A job of three operations, the second one on a project that does not
    exist. *)
Lemma templateBulkApply_applies_witness :
  let b := Fixtures.demo_bulk [Fixtures.demo_op "KEY" "c";
                               Fixtures.demo_op "NOPE" "b";
                               Fixtures.demo_op "KEY" "a"] in
  let r := Fixtures.demo_templateBulkApply b [b] [] in
  snd r = true
  /\ instances (fst r)
     = fst (effects Fixtures.demo_project_Load (fun _ => Fixtures.no_db_error)
              Fixtures.demo_Execute Fixtures.demo_Unmarshal_Workflow
              Fixtures.demo_Marshal_Workflow 1700000000 Fixtures.demo_u
              Fixtures.demo_wt 0 (Operations b) [] [])
  /\ events (fst r)
     = snd (effects Fixtures.demo_project_Load (fun _ => Fixtures.no_db_error)
              Fixtures.demo_Execute Fixtures.demo_Unmarshal_Workflow
              Fixtures.demo_Marshal_Workflow 1700000000 Fixtures.demo_u
              Fixtures.demo_wt 0 (Operations b) [] []).
Proof.
  intros b r.
  apply (templateBulkApply_applies
           (fun _ => None) Fixtures.demo_project_Load
           (fun _ => Fixtures.no_db_error) Fixtures.demo_Execute
           Fixtures.demo_Unmarshal_Workflow Fixtures.demo_Marshal_Workflow
           1700000000 Fixtures.demo_Tar Fixtures.demo_Push
           Fixtures.demo_Cause Fixtures.demo_u Fixtures.demo_wt b [b] []).
  reflexivity.
Defined.

(** A job of two operations posted on the empty table and read back by
    its user. *)
Lemma bulk_read_back_witness :
  let b := Fixtures.demo_bulk [Fixtures.demo_op "KEY" "b";
                               Fixtures.demo_op "KEY" "a"] in
  let t := fst (Fixtures.demo_templateBulkApply b [b] []) in
  bulks t = [] ++ [bulk t]
  /\ Fixtures.demo_get (bulks t) 1
     = inr {| bulk_ID := 1; UserID := 1; bulk_WorkflowTemplateID := 7;
              Operations := Fixtures.demo_sort_Slice less
                              (Operations (bulk t)) |}.
Proof.
  intros b t.
  apply (bulk_read_back
           (fun _ => None) Fixtures.demo_project_Load
           (fun _ => Fixtures.no_db_error) Fixtures.demo_Execute
           Fixtures.demo_Unmarshal_Workflow Fixtures.demo_Marshal_Workflow
           1700000000 Fixtures.demo_Tar Fixtures.demo_Push
           Fixtures.demo_Cause Fixtures.demo_u Fixtures.demo_wt
           Fixtures.demo_LoadGroup Fixtures.demo_LoadBySlugAndGroupID
           Fixtures.demo_CheckParams Fixtures.demo_checkProjectPermissions
           None (@Fixtures.demo_sort_Slice _) [] [] "grp" "tpl"
           (inr b) 1%Z b (fun _ => eq_refl) eq_refl eq_refl eq_refl).
Defined.

(** The job 1 worked on in a table that holds the job 2 too. *)
Lemma templateBulkApply_own_row_witness :
  let c := Fixtures.demo_bulk [Fixtures.demo_op "NOPE" "a";
                               Fixtures.demo_op "KEY" "b"] in
  let other := {| bulk_ID := 2; UserID := 2; bulk_WorkflowTemplateID := 7;
                  Operations := [Fixtures.demo_op "KEY" "z"] |} in
  let t := fst (Fixtures.demo_templateBulkApply c [c; other] []) in
  map bulk_ID (bulks t) = [1%Z; 2%Z]
  /\ other_jobs 1 (bulks t) = [other].
Proof.
  intros c other t.
  destruct (templateBulkApply_own_row
              (fun _ => None) Fixtures.demo_project_Load
              (fun _ => Fixtures.no_db_error) Fixtures.demo_Execute
              Fixtures.demo_Unmarshal_Workflow Fixtures.demo_Marshal_Workflow
              1700000000 Fixtures.demo_Tar Fixtures.demo_Push
              Fixtures.demo_Cause Fixtures.demo_u Fixtures.demo_wt
              c [c; other] []) as (_ & H1 & H2 & _).
  split; [exact H1 | exact H2].
Defined.

(** The goroutine when the second call of [UpdateBulk] fails. *)
Lemma templateBulkApply_stops_witness :
  let c := Fixtures.demo_bulk [Fixtures.demo_op "NOPE" "a";
                               Fixtures.demo_op "KEY" "b"] in
  let r := Fixtures.demo_templateBulkApply_down c [c] [] in
  snd r = false
  /\ calls (fst r) = 2 /\ length (persisted (fst r)) = 1.
Proof.
  intros c r.
  assert (Hf : snd r = false) by (vm_compute; reflexivity).
  destruct (templateBulkApply_stops
              (fun n => if Nat.eqb n 1 then Some "database is down" else None)
              Fixtures.demo_project_Load
              (fun _ => Fixtures.no_db_error) Fixtures.demo_Execute
              Fixtures.demo_Unmarshal_Workflow Fixtures.demo_Marshal_Workflow
              1700000000 Fixtures.demo_Tar Fixtures.demo_Push
              Fixtures.demo_Cause Fixtures.demo_u Fixtures.demo_wt
              c [c] []) as (_ & _ & H3).
  destruct (H3 Hf) as [Hc _].
  split; [exact Hf|].
  assert (Hl : length (persisted (fst r)) = 1) by (vm_compute; reflexivity).
  split; [|exact Hl]. unfold r, Fixtures.demo_templateBulkApply_down in *.
  rewrite Hc. now rewrite Hl.
Defined.

(** A job whose first operation is done already. *)
Lemma templateBulkApply_skips_witness :
  let done := {| Status := OperationStatusDone; Error := "";
                 OpRequest := OpRequest (Fixtures.demo_op "KEY" "a") |} in
  let c := Fixtures.demo_bulk [done; Fixtures.demo_op "KEY" "b"] in
  Operations (bulk (fst (Fixtures.demo_templateBulkApply c [c] []))) !! 0
  = Some done.
Proof.
  intros done c.
  apply (proj2 (templateBulkApply_skips
                  (fun _ => None) Fixtures.demo_project_Load
                  (fun _ => Fixtures.no_db_error) Fixtures.demo_Execute
                  Fixtures.demo_Unmarshal_Workflow
                  Fixtures.demo_Marshal_Workflow
                  1700000000 Fixtures.demo_Tar Fixtures.demo_Push
                  Fixtures.demo_Cause Fixtures.demo_u Fixtures.demo_wt
                  c [c] []) 0 done).
  - reflexivity.
  - discriminate.
Defined.

End BulkRunFacts.

(** * Facts about [postTemplateApplyHandler] *)
Module ApplyHandlerFacts.
Import Reconciler Ledger ApplyHandler.

Section Handler.

Context (LoadGroup : string -> handler_error + Z).
Context (LoadBySlugAndGroupID :
           string -> Z -> handler_error + option WorkflowTemplate).
Context (CheckParams :
           WorkflowTemplate -> WorkflowTemplateRequest ->
           option handler_error).
Context (checkProjectReadPermission : string -> bool).
Context (checkProjectPermissions : string -> option error).
Context (project_Load : string -> handler_error + Project).
Context (db_error : db_call -> option string).
Context (Execute : WorkflowTemplate -> WorkflowTemplateInstance ->
                   WorkflowTemplateResult * option string).
Context (yaml_Unmarshal : string -> string + ExportedWorkflow).
Context (yaml_Marshal : ExportedWorkflow -> string + string).
Context (now : Z).
Context (Tar : WorkflowTemplate -> WorkflowTemplateResult -> string + list byte).
Context (Push : Project -> list byte -> string + pushed).
Context (translate : list string -> list string).

Local Abbreviation applyTemplate :=
  (Reconciler.applyTemplate db_error Execute yaml_Unmarshal yaml_Marshal now).
Local Abbreviation check_project :=
  (ApplyHandler.check_project checkProjectReadPermission
     checkProjectPermissions).
Local Abbreviation respond := (ApplyHandler.respond Tar Push translate).
Local Abbreviation postTemplateApplyHandler :=
  (ApplyHandler.postTemplateApplyHandler LoadGroup LoadBySlugAndGroupID
     CheckParams checkProjectReadPermission checkProjectPermissions
     project_Load db_error Execute yaml_Unmarshal yaml_Marshal now Tar Push
     translate).

Lemma respond_Failed withImport p wt res :
  respond withImport p wt res <> inl ErrNoProject.
Proof.
  unfold ApplyHandler.respond. destruct (Tar wt res); [discriminate|].
  destruct withImport; [|discriminate]. destruct (Push p l); discriminate.
Qed.

(** The handler from the check of the permissions on, for a template that
    is found and a request that is read and passes the check of its
    parameters. *)
Lemma postTemplateApplyHandler_checked db u groupName templateSlug withImport
  req g wt :
  LoadGroup groupName = inr g ->
  LoadBySlugAndGroupID templateSlug g = inr (Some wt) ->
  CheckParams wt req = None ->
  postTemplateApplyHandler db u groupName templateSlug withImport (inr req)
  = match check_project u withImport (ProjectKey req) with
    | Some e => Served db [] (inl e)
    | None =>
        match project_Load (ProjectKey req) with
        | inl e => Served db [] (inl e)
        | inr p =>
            let out := applyTemplate db u p wt req in
            Served (instances out) (events out)
              match err out with
              | Some e => inl (Failed e)
              | None => respond withImport p wt (returned out)
              end
        end
    end.
Proof.
  intros Hg Hwt Hc. unfold ApplyHandler.postTemplateApplyHandler.
  rewrite Hg, Hwt, Hc.
  destruct (check_project u withImport (ProjectKey req)); [reflexivity|].
  destruct (project_Load (ProjectKey req)); [reflexivity|]. simpl.
  now destruct (err _).
Qed.

(** X17.  For a template that is found and a request that passes the
    check of its parameters, the handler replies [ErrNoProject] to a user
    who is not an administrator, does not import and may not read the
    project, and [ErrForbidden] to a user who is not an administrator,
    imports and may not write in the project: in both cases the instance
    table is left as it was, no event is published and the project is not
    loaded.  The check of the permissions lets through the
    administrators, the readers who do not import and the writers who
    import, and no one else; behind it an error of [project.Load] is the
    reply as it is, [ErrNoProject] included, and again nothing is
    written. *)
Theorem postTemplateApplyHandler_permission db u groupName templateSlug
  withImport req g wt :
  LoadGroup groupName = inr g ->
  LoadBySlugAndGroupID templateSlug g = inr (Some wt) ->
  CheckParams wt req = None ->
  let h := postTemplateApplyHandler db u groupName templateSlug withImport
             (inr req) in
  (Admin u = false -> withImport = false ->
   checkProjectReadPermission (ProjectKey req) = false ->
   h = Served db [] (inl ErrNoProject))
  /\ (Admin u = false -> withImport = true ->
      checkProjectPermissions (ProjectKey req) <> None ->
      h = Served db [] (inl (Failed Bulk.write_required)))
  /\ (check_project u withImport (ProjectKey req) = None
      <-> Admin u = true
          \/ (withImport = false
              /\ checkProjectReadPermission (ProjectKey req) = true)
          \/ (withImport = true
              /\ checkProjectPermissions (ProjectKey req) = None))
  /\ (forall e,
        check_project u withImport (ProjectKey req) = None ->
        project_Load (ProjectKey req) = inl e ->
        h = Served db [] (inl e)).
Proof.
  intros Hg Hwt Hc h. subst h.
  rewrite (postTemplateApplyHandler_checked _ _ _ _ _ _ _ _ Hg Hwt Hc).
  unfold ApplyHandler.check_project.
  split; [|split; [|split]].
  - intros -> -> ->. reflexivity.
  - intros -> -> H. cbn [negb andb].
    destruct (checkProjectPermissions (ProjectKey req)); [reflexivity|].
    now destruct H.
  - destruct (Admin u), withImport,
      (checkProjectReadPermission (ProjectKey req)),
      (checkProjectPermissions (ProjectKey req)); cbn [negb andb];
      (split; [intros H; try discriminate H; auto
              | intros [H|[[H1 H2]|[H1 H2]]];
                try discriminate; reflexivity]).
  - intros e Hp Hl. rewrite Hp, Hl. reflexivity.
Qed.

Lemma applyTemplate_detached_one (db : table) u p wt req r :
  Detached req = true ->
  of_key wt p req db = [r] ->
  err (applyTemplate db u p wt req) = None ->
  instances (applyTemplate db u p wt req) = DeleteInstance db r
  /\ events (applyTemplate db u p wt req) = [].
Proof.
  intros Hd Hk Herr.
  destruct (ReconcilerMore.applyTemplate_success db_error Execute
              yaml_Unmarshal yaml_Marshal now db u p wt req Herr)
    as (l1 & old & wti & l2 & wti' & Hs & Hg & Hi & _ & He).
  rewrite Hi, He.
  destruct (ReconcilerFacts.generate_detached db_error Execute yaml_Unmarshal
              yaml_Marshal wt req old wti l1 l2 _ Hd Hg) as [Ht _].
  destruct (ReconcilerMore.settle_detached_instance db_error now p wt req _
              l1 old wti Hd Hs) as [-> _].
  rewrite Ht, Hd. split; [|reflexivity].
  now apply (ReconcilerFacts.settle_detached_one db_error now p wt req
               (Locals db zero_Result) l1 (None, wti) r Hd Hk Hs).
Qed.

(** X18.  An error of the handler does not tell that nothing was done:
    when the template is applied with success for a workflow that had no
    instance, and the archive cannot be made or, in an import, the push
    fails, the reply is an error while the new instance is in the table
    and its add event is published. *)
Theorem postTemplateApplyHandler_late_error db u groupName templateSlug
  withImport req g wt p :
  LoadGroup groupName = inr g ->
  LoadBySlugAndGroupID templateSlug g = inr (Some wt) ->
  CheckParams wt req = None ->
  check_project u withImport (ProjectKey req) = None ->
  project_Load (ProjectKey req) = inr p ->
  Detached req = false ->
  of_key wt p req db = [] ->
  err (applyTemplate db u p wt req) = None ->
  (forall buf, Tar wt (returned (applyTemplate db u p wt req)) = inr buf ->
               withImport = true /\ exists e, Push p buf = inl e) ->
  let h := postTemplateApplyHandler db u groupName templateSlug withImport
             (inr req) in
  exists e w,
    response h = inl (Failed e)
    /\ rows h = db ++ [w]
    /\ sent h = [WorkflowTemplateInstanceAdd w u]
    /\ ID w = next_ID db
    /\ Request w = req.
Proof.
  intros Hg Hwt Hc Hperm Hp Hd Hk Herr Hlate h. subst h.
  rewrite (postTemplateApplyHandler_checked _ _ _ _ _ _ _ _ Hg Hwt Hc).
  rewrite Hperm, Hp. cbn zeta. rewrite Herr. cbn [response rows sent].
  destruct (ReconcilerMore.applyTemplate_attached db_error Execute
              yaml_Unmarshal yaml_Marshal now db u p wt req Hd Herr)
    as [wor Ha].
  rewrite Hk in Ha. cbn zeta in Ha. destruct Ha as [Hi He].
  rewrite ReconcilerMore.UpdateInstance_new in Hi by reflexivity.
  assert (Hresp : exists e,
             respond withImport p wt (returned (applyTemplate db u p wt req))
             = inl (Failed e)).
  { unfold ApplyHandler.respond.
    destruct (Tar wt (returned (applyTemplate db u p wt req))) as [e|buf];
      [now eexists|].
    destruct (Hlate buf eq_refl) as [-> [e ->]]. now eexists. }
  destruct Hresp as [e Hresp]. rewrite Hresp. eexists. eexists.
  split; [reflexivity|]. split; [exact Hi|]. split; [exact He|].
  now split.
Qed.

(** X19.  The preview of a detached request needs no more than the
    permission to read the project, and it deletes the instance of the
    workflow: for a user who is not an administrator and may read the
    project, whatever the check of the permission to write gives, a
    detached request that is applied with success on a table with one
    instance of its key leaves the table without this row, publishes no
    event and replies with the archive. *)
Theorem postTemplateApplyHandler_preview_deletes db u groupName templateSlug
  req g wt p r buf :
  LoadGroup groupName = inr g ->
  LoadBySlugAndGroupID templateSlug g = inr (Some wt) ->
  CheckParams wt req = None ->
  Admin u = false ->
  checkProjectReadPermission (ProjectKey req) = true ->
  project_Load (ProjectKey req) = inr p ->
  Detached req = true ->
  of_key wt p req db = [r] ->
  err (applyTemplate db u p wt req) = None ->
  Tar wt (returned (applyTemplate db u p wt req)) = inr buf ->
  postTemplateApplyHandler db u groupName templateSlug false (inr req)
  = Served (DeleteInstance db r) [] (inr (Write buf)).
Proof.
  intros Hg Hwt Hc Ha Hread Hp Hd Hk Herr Htar.
  rewrite (postTemplateApplyHandler_checked _ _ _ _ _ _ _ _ Hg Hwt Hc).
  unfold ApplyHandler.check_project. rewrite Ha, Hread, Hp. cbn.
  destruct (applyTemplate_detached_one db u p wt req r Hd Hk Herr) as [Hi He].
  rewrite Hi, He, Herr. unfold ApplyHandler.respond. now rewrite Htar.
Qed.

End Handler.

(** X20.  A handler that does not import makes no use of the permission
    to write, of the push and of the translation of its messages; a
    handler that imports makes no use of the permission to read; for an
    administrator neither permission is looked at. *)
Theorem postTemplateApplyHandler_unused
  LoadGroup LoadBySlugAndGroupID CheckParams read read' write write'
  project_Load db_error Execute yaml_Unmarshal yaml_Marshal now Tar
  Push Push' translate translate' db u groupName templateSlug body :
  postTemplateApplyHandler LoadGroup LoadBySlugAndGroupID CheckParams
    read write project_Load db_error Execute yaml_Unmarshal yaml_Marshal now
    Tar Push translate db u groupName templateSlug false body
  = postTemplateApplyHandler LoadGroup LoadBySlugAndGroupID CheckParams
      read write' project_Load db_error Execute yaml_Unmarshal yaml_Marshal
      now Tar Push' translate' db u groupName templateSlug false body
  /\ postTemplateApplyHandler LoadGroup LoadBySlugAndGroupID CheckParams
       read write project_Load db_error Execute yaml_Unmarshal yaml_Marshal
       now Tar Push translate db u groupName templateSlug true body
     = postTemplateApplyHandler LoadGroup LoadBySlugAndGroupID CheckParams
         read' write project_Load db_error Execute yaml_Unmarshal
         yaml_Marshal now Tar Push translate db u groupName templateSlug
         true body
  /\ (Admin u = true ->
      forall withImport,
        postTemplateApplyHandler LoadGroup LoadBySlugAndGroupID CheckParams
          read write project_Load db_error Execute yaml_Unmarshal
          yaml_Marshal now Tar Push translate db u groupName templateSlug
          withImport body
        = postTemplateApplyHandler LoadGroup LoadBySlugAndGroupID CheckParams
            read' write' project_Load db_error Execute yaml_Unmarshal
            yaml_Marshal now Tar Push translate db u groupName templateSlug
            withImport body).
Proof.
  unfold postTemplateApplyHandler, check_project, respond.
  destruct (LoadGroup groupName) as [?|g]; [now repeat split|].
  destruct (LoadBySlugAndGroupID templateSlug g) as [?|[wt|]];
    [now repeat split| |now repeat split].
  destruct body as [?|req]; [now repeat split|].
  destruct (CheckParams wt req); [now repeat split|].
  split; [|split].
  - destruct (Admin u); cbn [negb andb]; [|destruct (read (ProjectKey req))];
      cbn [negb andb]; try reflexivity;
      (destruct (project_Load (ProjectKey req)) as [?|p]; [reflexivity|]);
      cbn zeta; destruct (Reconciler.err _); try reflexivity;
      now destruct (Tar wt _).
  - destruct (Admin u); cbn [negb andb]; reflexivity.
  - intros ->. reflexivity.
Qed.

(** An import by a user who may not write in the project, and a preview
    in a project that [project.Load] does not find. *)
Lemma postTemplateApplyHandler_permission_witness :
  Fixtures.demo_postTemplateApplyHandler [] Fixtures.demo_u true
    (Fixtures.demo_req false)
  = Served [] [] (inl (Failed Bulk.write_required))
  /\ Fixtures.demo_postTemplateApplyHandler [Fixtures.demo_row 1]
       Fixtures.demo_u false
       {| ProjectKey := "GONE"; WorkflowName := "w"; Parameters := [];
          Detached := false |}
     = Served [Fixtures.demo_row 1] [] (inl ErrNoProject).
Proof.
  split.
  - apply (proj1 (proj2 (postTemplateApplyHandler_permission
             Fixtures.demo_apply_LoadGroup
             Fixtures.demo_apply_LoadBySlugAndGroupID
             Fixtures.demo_apply_CheckParams (fun _ => true)
             (fun _ => Some (Err ErrForbidden)) Fixtures.demo_apply_Load
             Fixtures.no_db_error Fixtures.demo_Execute
             Fixtures.demo_Unmarshal_Workflow Fixtures.demo_Marshal_Workflow
             1700000000 Fixtures.demo_Tar Fixtures.demo_failing_Push
             (fun m => m) [] Fixtures.demo_u "grp" "tpl" true
             (Fixtures.demo_req false) 1%Z Fixtures.demo_wt
             eq_refl eq_refl eq_refl))).
    + reflexivity.
    + reflexivity.
    + discriminate.
  - apply (proj2 (proj2 (proj2 (postTemplateApplyHandler_permission
             Fixtures.demo_apply_LoadGroup
             Fixtures.demo_apply_LoadBySlugAndGroupID
             Fixtures.demo_apply_CheckParams (fun _ => true)
             (fun _ => Some (Err ErrForbidden)) Fixtures.demo_apply_Load
             Fixtures.no_db_error Fixtures.demo_Execute
             Fixtures.demo_Unmarshal_Workflow Fixtures.demo_Marshal_Workflow
             1700000000 Fixtures.demo_Tar Fixtures.demo_failing_Push
             (fun m => m) [Fixtures.demo_row 1] Fixtures.demo_u "grp" "tpl"
             false
             {| ProjectKey := "GONE"; WorkflowName := "w"; Parameters := [];
                Detached := false |}
             1%Z Fixtures.demo_wt eq_refl eq_refl eq_refl)))).
    + reflexivity.
    + reflexivity.
Defined.

(** An import by an administrator, when the push fails. *)
Lemma postTemplateApplyHandler_late_error_witness :
  let h := Fixtures.demo_postTemplateApplyHandler [] Fixtures.demo_admin true
             (Fixtures.demo_req false) in
  exists e w,
    response h = inl (Failed e)
    /\ rows h = [] ++ [w]
    /\ sent h = [WorkflowTemplateInstanceAdd w Fixtures.demo_admin]
    /\ ID w = next_ID []
    /\ Request w = Fixtures.demo_req false.
Proof.
  apply (postTemplateApplyHandler_late_error
           Fixtures.demo_apply_LoadGroup
           Fixtures.demo_apply_LoadBySlugAndGroupID
           Fixtures.demo_apply_CheckParams (fun _ => true)
           (fun _ => Some (Err ErrForbidden)) Fixtures.demo_apply_Load
           Fixtures.no_db_error Fixtures.demo_Execute
           Fixtures.demo_Unmarshal_Workflow Fixtures.demo_Marshal_Workflow
           1700000000 Fixtures.demo_Tar Fixtures.demo_failing_Push
           (fun m => m) [] Fixtures.demo_admin "grp" "tpl" true
           (Fixtures.demo_req false) 1%Z Fixtures.demo_wt Fixtures.demo_p
           eq_refl eq_refl eq_refl eq_refl eq_refl eq_refl eq_refl).
  - vm_compute. reflexivity.
  - intros buf _. split; [reflexivity|]. now eexists.
Defined.

(** The preview of a detached request by a user who may only read the
    project, on a table with one instance of the workflow. *)
Lemma postTemplateApplyHandler_preview_deletes_witness :
  let h := Fixtures.demo_postTemplateApplyHandler [Fixtures.demo_row 1]
             Fixtures.demo_u false (Fixtures.demo_req true) in
  rows h = [] /\ sent h = []
  /\ match response h with inr (Write _) => True | _ => False end.
Proof.
  intros h. subst h. unfold Fixtures.demo_postTemplateApplyHandler.
  rewrite (postTemplateApplyHandler_preview_deletes
             Fixtures.demo_apply_LoadGroup
           Fixtures.demo_apply_LoadBySlugAndGroupID
             Fixtures.demo_apply_CheckParams (fun _ => true)
             (fun _ => Some (Err ErrForbidden)) Fixtures.demo_apply_Load
             Fixtures.no_db_error Fixtures.demo_Execute
             Fixtures.demo_Unmarshal_Workflow Fixtures.demo_Marshal_Workflow
             1700000000 Fixtures.demo_Tar Fixtures.demo_failing_Push
             (fun m => m) [Fixtures.demo_row 1] Fixtures.demo_u "grp" "tpl"
             (Fixtures.demo_req true) 1%Z Fixtures.demo_wt Fixtures.demo_p
             (Fixtures.demo_row 1)
             (bytes_of
                (Workflow
                   (returned
                      (Fixtures.demo_apply Fixtures.demo_Execute
                         [Fixtures.demo_row 1] (Fixtures.demo_req true)))))
             eq_refl eq_refl eq_refl eq_refl eq_refl eq_refl eq_refl
             eq_refl).
  - cbn [rows sent response]. split; [vm_compute; reflexivity|]. now split.
  - vm_compute. reflexivity.
  - reflexivity.
Defined.

End ApplyHandlerFacts.

(** * Facts about the handlers of the instances *)
Module InstanceHandlersFacts.
Import Reconciler Ledger InstanceHandlers.

(** The map of the projects holds for an identifier the last project of
    the list that has it. *)
Lemma mProjects_lookup (ps : list Project) (id : Z) :
  mProjects ps !! id = last_with_ID ps id.
Proof.
  unfold mProjects, last_with_ID.
  induction ps as [|p ps IH] using rev_ind; [reflexivity|].
  rewrite fold_left_app, rev_app_distr. simpl.
  destruct (Z.eqb (p_ID p) id) eqn:E.
  - apply Z.eqb_eq in E. subst id. apply lookup_insert_eq.
  - apply Z.eqb_neq in E. rewrite lookup_insert_ne by exact E. exact IH.
Qed.

Lemma last_with_ID_Some (ps : list Project) id p :
  last_with_ID ps id = Some p -> In p ps /\ p_ID p = id.
Proof.
  unfold last_with_ID. intros H. apply find_some in H. destruct H as [Hin E].
  apply Z.eqb_eq in E. split; [now apply in_rev | exact E].
Qed.

Lemma last_with_ID_None (ps : list Project) id :
  last_with_ID ps id = None <-> ~ In id (ProjectsToIDs ps).
Proof.
  unfold last_with_ID, ProjectsToIDs. split.
  - intros H Hin. apply in_map_iff in Hin. destruct Hin as (p & E & Hp).
    apply in_rev in Hp. apply (find_none _ _ H) in Hp.
    apply Z.eqb_neq in Hp. contradiction.
  - intros H. destruct (find _ (rev ps)) as [p|] eqn:E; [|reflexivity].
    apply find_some in E. destruct E as [Hin E]. apply Z.eqb_eq in E.
    destruct H. apply in_map_iff. exists p. split; [exact E|].
    now apply in_rev.
Qed.

Section Handlers.

Context (LoadGroup : string -> error + Z).
Context (LoadBySlugAndGroupID : string -> Z -> error + option WorkflowTemplate).
Context (project_LoadAll : error + list Project).
Context (GetInstancesByTemplateIDAndProjectIDs :
           Z -> list Z -> error + list WorkflowTemplateInstance).
Context (AggregateAuditsOnWorkflowTemplateInstance :
           list listed -> error + list listed).
Context (AggregateOnWorkflowTemplateInstance :
           list listed -> error + list listed).
Context (instanceID : error + Z).
Context (GetInstanceByIDForTemplateIDAndProjectIDs :
           table -> Z -> Z -> list Z ->
           error + option WorkflowTemplateInstance).
Context (DeleteInstance_error : option error).

Local Abbreviation getTemplateInstancesHandler :=
  (InstanceHandlers.getTemplateInstancesHandler LoadGroup
     LoadBySlugAndGroupID project_LoadAll
     GetInstancesByTemplateIDAndProjectIDs
     AggregateAuditsOnWorkflowTemplateInstance
     AggregateOnWorkflowTemplateInstance).
Local Abbreviation deleteTemplateInstanceHandler :=
  (InstanceHandlers.deleteTemplateInstanceHandler LoadGroup
     LoadBySlugAndGroupID project_LoadAll instanceID
     GetInstanceByIDForTemplateIDAndProjectIDs DeleteInstance_error).

(** X21.  The instances of a reply were given to the two aggregations
    with their projects: they are the instances of the query, in their
    order, each one with the last project of the user's projects that has
    its project identifier, or with the zero project when the user has no
    such project. *)
Theorem getTemplateInstancesHandler_projects groupName templateSlug out :
  getTemplateInstancesHandler groupName templateSlug = inr out ->
  exists g wt ps is_ is1,
    LoadGroup groupName = inr g
    /\ LoadBySlugAndGroupID templateSlug g = inr (Some wt)
    /\ project_LoadAll = inr ps
    /\ GetInstancesByTemplateIDAndProjectIDs (wt_ID wt) (map p_ID ps)
       = inr is_
    /\ AggregateAuditsOnWorkflowTemplateInstance (attach ps is_) = inr is1
    /\ AggregateOnWorkflowTemplateInstance is1 = inr out
    /\ map instance (attach ps is_) = is_
    /\ Forall (fun x =>
                 match last_with_ID ps (ProjectID (instance x)) with
                 | Some p =>
                     project x = p /\ In p ps
                     /\ p_ID p = ProjectID (instance x)
                 | None =>
                     project x = zero_Project
                     /\ ~ In (ProjectID (instance x)) (map p_ID ps)
                 end) (attach ps is_).
Proof.
  unfold InstanceHandlers.getTemplateInstancesHandler.
  destruct (LoadGroup groupName) as [?|g] eqn:Hg; [discriminate|].
  destruct (LoadBySlugAndGroupID templateSlug g) as [?|[wt|]] eqn:Hwt;
    [discriminate| |discriminate].
  destruct project_LoadAll as [?|ps] eqn:Hps; [discriminate|].
  unfold ProjectsToIDs.
  destruct (GetInstancesByTemplateIDAndProjectIDs (wt_ID wt) (map p_ID ps))
    as [?|is_] eqn:His; [discriminate|].
  destruct (AggregateAuditsOnWorkflowTemplateInstance (attach ps is_))
    as [?|is1] eqn:H1; [discriminate|].
  intros H2. exists g, wt, ps, is_, is1. repeat (split; [assumption||reflexivity|]).
  split.
  - unfold attach. rewrite map_map. simpl. apply map_id.
  - apply Forall_forall. intros x Hx. apply list_elem_of_In in Hx.
    unfold attach in Hx. apply in_map_iff in Hx. destruct Hx as (i & <- & _).
    simpl. rewrite mProjects_lookup.
    destruct (last_with_ID ps (ProjectID i)) as [p|] eqn:E; simpl.
    + apply last_with_ID_Some in E. now repeat split.
    + split; [reflexivity|]. now apply last_with_ID_None.
Qed.

(** X22.  The handler that deletes an instance leaves the table as it is
    when it replies with an error; when it replies without one, the table
    is the one before without the rows that have the identifier of the
    instance the query gave, and the other rows are kept. *)
Theorem deleteTemplateInstanceHandler_removes db groupName templateSlug :
  let h := deleteTemplateInstanceHandler db groupName templateSlug in
  (forall e, snd h = inl e -> fst h = db)
  /\ (snd h = inr tt ->
      exists g wt ps id wti,
        LoadGroup groupName = inr g
        /\ LoadBySlugAndGroupID templateSlug g = inr (Some wt)
        /\ project_LoadAll = inr ps
        /\ instanceID = inr id
        /\ GetInstanceByIDForTemplateIDAndProjectIDs db id (wt_ID wt)
             (map p_ID ps) = inr (Some wti)
        /\ fst h = DeleteInstance db wti
        /\ ~ In (ID wti) (map ID (fst h))
        /\ forall r, In r db -> ID r <> ID wti -> In r (fst h)).
Proof.
  unfold InstanceHandlers.deleteTemplateInstanceHandler, ProjectsToIDs.
  destruct (LoadGroup groupName) as [?|g] eqn:Hg;
    [split; [reflexivity|discriminate]|].
  destruct (LoadBySlugAndGroupID templateSlug g) as [?|[wt|]] eqn:Hwt;
    [split; [reflexivity|discriminate]| |split; [reflexivity|discriminate]].
  destruct project_LoadAll as [?|ps] eqn:Hps;
    [split; [reflexivity|discriminate]|].
  destruct instanceID as [?|id] eqn:Hid; [split; [reflexivity|discriminate]|].
  destruct (GetInstanceByIDForTemplateIDAndProjectIDs db id (wt_ID wt)
              (map p_ID ps)) as [?|[wti|]] eqn:Hq;
    [split; [reflexivity|discriminate]| |split; [reflexivity|discriminate]].
  destruct DeleteInstance_error; [split; [reflexivity|discriminate]|].
  simpl. split; [discriminate|]. intros _.
  exists g, wt, ps, id, wti. repeat (split; [assumption||reflexivity|]).
  split.
  - intros Hin. apply in_map_iff in Hin. destruct Hin as (r & E & Hr).
    unfold DeleteInstance in Hr. apply List.filter_In in Hr.
    destruct Hr as [_ Hr]. rewrite E, Z.eqb_refl in Hr. discriminate.
  - intros r Hr Hne. unfold DeleteInstance.
    apply List.filter_In. split; [exact Hr|].
    apply Z.eqb_neq in Hne. now rewrite Hne.
Qed.

Context (db_error : db_call -> option string).
Context (Execute : WorkflowTemplate -> WorkflowTemplateInstance ->
                   WorkflowTemplateResult * option string).
Context (yaml_Unmarshal : string -> string + ExportedWorkflow).
Context (yaml_Marshal : ExportedWorkflow -> string + string).
Context (now : Z).

Local Abbreviation applyTemplate :=
  (Reconciler.applyTemplate db_error Execute yaml_Unmarshal yaml_Marshal now).

Lemma DeleteInstance_last (db : table) w x :
  ID w = next_ID db -> ID x = ID w -> DeleteInstance (db ++ [w]) x = db.
Proof.
  intros Hw Hx. unfold DeleteInstance. rewrite List.filter_app. simpl.
  rewrite Hx, Z.eqb_refl. simpl. rewrite app_nil_r.
  rewrite <- (ReconcilerFacts.filter_all db) at 2.
  apply List.filter_ext_in. intros r Hr.
  apply ReconcilerFacts.next_ID_fresh in Hr.
  destruct (Z.eqb (ID r) (ID w)) eqn:E; [|reflexivity].
  apply Z.eqb_eq in E. lia.
Qed.

(** X23.  Deleting the instance an apply created gives back the table
    the apply started from: after a successful apply of an attached
    request for a workflow without instance, the handler that deletes the
    instance found under the new identifier replies without error and
    leaves the table as it was before the apply. *)
Theorem deleteTemplateInstanceHandler_undoes db u p wt req groupName
  templateSlug g ps x :
  LoadGroup groupName = inr g ->
  LoadBySlugAndGroupID templateSlug g = inr (Some wt) ->
  project_LoadAll = inr ps ->
  instanceID = inr (next_ID db) ->
  DeleteInstance_error = None ->
  Detached req = false ->
  of_key wt p req db = [] ->
  err (applyTemplate db u p wt req) = None ->
  GetInstanceByIDForTemplateIDAndProjectIDs
    (instances (applyTemplate db u p wt req)) (next_ID db) (wt_ID wt)
    (map p_ID ps) = inr (Some x) ->
  ID x = next_ID db ->
  deleteTemplateInstanceHandler (instances (applyTemplate db u p wt req))
    groupName templateSlug
  = (db, inr tt).
Proof.
  intros Hg Hwt Hps Hid Hdel Hd Hk Herr Hq Hx.
  unfold InstanceHandlers.deleteTemplateInstanceHandler, ProjectsToIDs.
  rewrite Hg, Hwt, Hps, Hid, Hq, Hdel. f_equal.
  destruct (ReconcilerMore.applyTemplate_attached db_error Execute
              yaml_Unmarshal yaml_Marshal now db u p wt req Hd Herr)
    as [wor Ha].
  rewrite Hk in Ha. cbn zeta in Ha. destruct Ha as [Hi _].
  rewrite ReconcilerMore.UpdateInstance_new in Hi by reflexivity.
  rewrite Hi. now apply DeleteInstance_last.
Qed.

End Handlers.

(** Two instances of the template, in the projects 3 and 4, and one of
    another template. *)
Lemma getTemplateInstancesHandler_projects_witness :
  let db := [Fixtures.demo_row 1;
             {| ID := 2; WorkflowTemplateID := 7; ProjectID := 4;
                WorkflowTemplateVersion := 1;
                Request := Fixtures.demo_req false;
                InstanceWorkflowName := "w" |};
             {| ID := 3; WorkflowTemplateID := 8; ProjectID := 3;
                WorkflowTemplateVersion := 1;
                Request := Fixtures.demo_req false;
                InstanceWorkflowName := "w" |}] in
  exists ps is_,
    Fixtures.demo_GetInstances db 7 (map p_ID ps) = inr is_
    /\ map instance (attach ps is_) = is_
    /\ Forall (fun x =>
                 match last_with_ID ps (ProjectID (instance x)) with
                 | Some p =>
                     project x = p /\ In p ps
                     /\ p_ID p = ProjectID (instance x)
                 | None =>
                     project x = zero_Project
                     /\ ~ In (ProjectID (instance x)) (map p_ID ps)
                 end) (attach ps is_).
Proof.
  intros db.
  destruct (Fixtures.demo_getTemplateInstancesHandler db) as [e|out] eqn:E;
    [discriminate|].
  destruct (getTemplateInstancesHandler_projects
              Fixtures.demo_LoadGroup Fixtures.demo_LoadBySlugAndGroupID
              (inr Fixtures.demo_projects) (Fixtures.demo_GetInstances db)
              inr inr "grp" "tpl" out E)
    as (g & wt & ps & is_ & is1 & _ & Hwt & _ & Hq & _ & _ & Hm & HF).
  inversion Hwt; subst wt. exists ps, is_.
  split; [exact Hq|]. split; [exact Hm | exact HF].
Defined.

(** An apply on the empty table, then the deletion of the instance 1. *)
Lemma deleteTemplateInstanceHandler_undoes_witness :
  Fixtures.demo_deleteTemplateInstanceHandler
    (instances (Fixtures.demo_apply Fixtures.demo_Execute []
                  (Fixtures.demo_req false))) 1
  = ([], inr tt).
Proof.
  apply (deleteTemplateInstanceHandler_undoes
           Fixtures.demo_LoadGroup Fixtures.demo_LoadBySlugAndGroupID
           (inr Fixtures.demo_projects) (inr 1%Z) Fixtures.demo_GetInstance
           None Fixtures.no_db_error Fixtures.demo_Execute
           Fixtures.demo_Unmarshal_Workflow Fixtures.demo_Marshal_Workflow
           1700000000 [] Fixtures.demo_u Fixtures.demo_p Fixtures.demo_wt
           (Fixtures.demo_req false) "grp" "tpl" 1%Z Fixtures.demo_projects
           (List.last (instances (Fixtures.demo_apply Fixtures.demo_Execute []
                                    (Fixtures.demo_req false)))
                      Reconciler.zero_Instance)
           eq_refl eq_refl eq_refl eq_refl eq_refl eq_refl eq_refl).
  - vm_compute. reflexivity.
  - vm_compute. reflexivity.
  - vm_compute. reflexivity.
Defined.

(** The deletion of the instance 1 from a table of two instances, and
    the deletion of an instance that does not exist. *)
Lemma deleteTemplateInstanceHandler_removes_witness :
  let db := [Fixtures.demo_row 1; Fixtures.demo_row 2] in
  Fixtures.demo_deleteTemplateInstanceHandler db 1
  = ([Fixtures.demo_row 2], inr tt)
  /\ ~ In 1%Z (map ID (fst (Fixtures.demo_deleteTemplateInstanceHandler db 1)))
  /\ In (Fixtures.demo_row 2)
        (fst (Fixtures.demo_deleteTemplateInstanceHandler db 1))
  /\ fst (Fixtures.demo_deleteTemplateInstanceHandler db 5) = db.
Proof.
  intros db.
  assert (Hok : snd (Fixtures.demo_deleteTemplateInstanceHandler db 1)
                = inr tt) by reflexivity.
  destruct (proj2 (deleteTemplateInstanceHandler_removes
                     Fixtures.demo_LoadGroup
                     Fixtures.demo_LoadBySlugAndGroupID
                     (inr Fixtures.demo_projects) (inr 1%Z)
                     Fixtures.demo_GetInstance None db "grp" "tpl") Hok)
    as (g & wt & ps & id & wti & _ & Hwt & Hps & Hid & Hq & Hfst & Hgone
        & Hkept).
  inversion Hwt; subst wt. inversion Hps; subst ps. inversion Hid; subst id.
  inversion Hq; subst wti.
  split; [|split; [|split]].
  - apply injective_projections; [exact Hfst | exact Hok].
  - exact Hgone.
  - apply Hkept; [right; now left | discriminate].
  - apply (proj1 (deleteTemplateInstanceHandler_removes
                    Fixtures.demo_LoadGroup
                    Fixtures.demo_LoadBySlugAndGroupID
                    (inr Fixtures.demo_projects) (inr 5%Z)
                    Fixtures.demo_GetInstance None db "grp" "tpl")
             InstanceHandlers.no_instance_found).
    reflexivity.
Defined.

End InstanceHandlersFacts.

(** * Facts about the handlers of [ascode.go] *)
Module AsCodeFacts.
Import AsCode.

(** The loop on the branches stops at the first default branch. *)
Lemma default_branch_Some (branches : list VCSBranch) d :
  default_branch branches = Some d <->
  exists pre b post,
    branches = pre ++ b :: post
    /\ Forall (fun x => Default x = false) pre
    /\ Default b = true /\ d = DisplayID b.
Proof.
  split.
  - induction branches as [|b bs IH]; simpl; [discriminate|].
    destruct (Default b) eqn:E.
    + intros H. inversion H; subst. exists [], b, bs. now repeat split.
    + intros H. destruct (IH H) as (pre & b' & post & -> & Hpre & Hb & ->).
      exists (b :: pre), b', post. repeat split; auto.
  - intros (pre & b & post & -> & Hpre & Hb & ->).
    induction Hpre as [|x pre Hx _ IH]; simpl; [now rewrite Hb|].
    now rewrite Hx.
Qed.

Lemma default_branch_None (branches : list VCSBranch) :
  default_branch branches = None <->
  Forall (fun x => Default x = false) branches.
Proof.
  induction branches as [|b bs IH]; simpl.
  - split; [constructor | reflexivity].
  - destruct (Default b) eqn:E.
    + split; [discriminate|]. intros H. inversion H; subst. congruence.
    + rewrite IH. split; [now constructor | intros H; now inversion H].
Qed.

Section Handlers.

Context {VCSServerConfig Reader Message : Type}.
Context (WorkflowAsCodePattern : string).
Context (project_Load : string -> error + Project).
Context (GetProjectVCSServer : Project -> string -> VCSServerConfig).
Context (AuthorizedClient :
           string -> VCSServerConfig -> error + VCSAuthorizedClient).
Context (PostRepositoryOperation : Project -> Operation -> error + Operation).
Context (GetRepositoryOperation : Operation -> error + Operation).
Context (ReadCDSFiles : list (string * list byte) -> error + Reader).
Context (Push :
           Project -> Reader -> PushOption ->
           error + (list Message * option Workflow)).
Context (translate : list Message -> list string).

Local Abbreviation postImportAsCodeHandler :=
  (AsCode.postImportAsCodeHandler VCSServerConfig WorkflowAsCodePattern
     project_Load GetProjectVCSServer AuthorizedClient
     PostRepositoryOperation).
Local Abbreviation postPerformImportAsCodeHandler :=
  (AsCode.postPerformImportAsCodeHandler VCSServerConfig Reader Message
     project_Load GetProjectVCSServer AuthorizedClient GetRepositoryOperation
     ReadCDSFiles Push translate).

(** X24.  A request without URL, or with a pattern of files that is
    neither empty nor the pattern of the workflows as code, is answered
    [ErrWrongRequest] and no operation is posted, whatever the project,
    the repositories manager and the branches are. *)
Theorem postImportAsCodeHandler_validates key ope :
  URL ope = ""
  \/ (Pattern (LoadFiles ope) <> ""
      /\ Pattern (LoadFiles ope) <> WorkflowAsCodePattern) ->
  postImportAsCodeHandler key (inr ope)
  = Imported [] (Replies (inl (Known (Err ErrWrongRequest)))).
Proof.
  intros H. unfold AsCode.postImportAsCodeHandler.
  destruct (String.eqb (URL ope) "") eqn:Hu; [reflexivity|].
  destruct H as [H|[H1 H2]]; [apply String.eqb_neq in Hu; contradiction|].
  apply String.eqb_neq in H1. rewrite H1.
  apply String.eqb_neq in H2. now rewrite H2.
Qed.

(** X25.  An operation the handler posts is the one of the request, with
    its URL, which is not empty, the pattern of the workflows as code, and
    as branch to check out the first default branch of the repository, or
    the branch of the request when the repository has no default branch;
    the strategy is posted with its key.  At most one operation is posted.
    A reply without error is the operation as the post left it, with the
    content of the SSH key emptied and nothing else changed. *)
Theorem postImportAsCodeHandler_posts key body :
  let h := postImportAsCodeHandler key body in
  (forall p op, In (p, op) (posted h) ->
     posted h = [(p, op)]
     /\ project_Load key = inr p
     /\ exists ope client branches,
          body = inr ope
          /\ URL ope <> ""
          /\ AuthorizedClient (Key p) (GetProjectVCSServer p (VCSServer ope))
             = inr client
          /\ Branches client (RepoFullName ope) = inr branches
          /\ op = set_Checkout_Branch
                    (default (Checkout_Branch ope) (default_branch branches))
                    (set_Pattern WorkflowAsCodePattern ope))
  /\ (forall r, import_reply h = Replies (inr r) ->
        exists p op ope',
          posted h = [(p, op)]
          /\ PostRepositoryOperation p op = inr ope'
          /\ r = set_RepositoryStrategy
                   (set_SSHKeyContent "" (op_RepositoryStrategy ope')) ope'
          /\ SSHKeyContent (op_RepositoryStrategy r) = "").
Proof.
  intros h. subst h. unfold AsCode.postImportAsCodeHandler.
  destruct body as [e|ope]; [split; [intros ? ? []|discriminate]|].
  destruct (String.eqb (URL ope) "") eqn:Hu;
    [split; [intros ? ? []|discriminate]|].
  apply String.eqb_neq in Hu.
  set (ope1 := if String.eqb (Pattern (LoadFiles ope)) ""
               then set_Pattern WorkflowAsCodePattern ope else ope).
  destruct (String.eqb (Pattern (LoadFiles ope1)) WorkflowAsCodePattern)
    eqn:Hp; cbn [negb]; [|split; [intros ? ? []|discriminate]].
  apply String.eqb_eq in Hp.
  assert (E1 : ope1 = set_Pattern WorkflowAsCodePattern ope).
  { subst ope1. destruct (String.eqb (Pattern (LoadFiles ope)) "");
      [reflexivity|].
    destruct ope as [? ? ? ? ? ? [pat res] ? ?]. simpl in Hp. subst pat.
    reflexivity. }
  assert (Hf : VCSServer ope1 = VCSServer ope
               /\ RepoFullName ope1 = RepoFullName ope
               /\ Checkout_Branch ope1 = Checkout_Branch ope).
  { rewrite E1. now repeat split. }
  destruct Hf as (Hv & Hr & Hc).
  destruct (project_Load key) as [?|p] eqn:Hl;
    [split; [intros ? ? []|discriminate]|].
  cbn zeta.
  destruct (AuthorizedClient (Key p) (GetProjectVCSServer p (VCSServer ope1)))
    as [?|client] eqn:Ha; [split; [intros ? ? []|discriminate]|].
  destruct (Branches client (RepoFullName ope1)) as [?|branches] eqn:Hb;
    [split; [intros ? ? []|discriminate]|].
  assert (E2 : match default_branch branches with
               | Some d => set_Checkout_Branch d ope1
               | None => ope1
               end
               = set_Checkout_Branch
                   (default (Checkout_Branch ope) (default_branch branches))
                   (set_Pattern WorkflowAsCodePattern ope)).
  { destruct (default_branch branches); simpl; [now rewrite E1|].
    rewrite E1. now destruct ope. }
  rewrite E2. rewrite Hv in Ha. rewrite Hr in Hb.
  set (op := set_Checkout_Branch _ _).
  assert (Hposted : forall p' op', In (p', op') [(p, op)] ->
            [(p, op)] = [(p', op')]
            /\ @inr error Project p = inr p'
            /\ exists ope0 client0 branches0,
                 @inr error Operation ope = inr ope0
                 /\ URL ope0 <> ""
                 /\ AuthorizedClient (Key p')
                      (GetProjectVCSServer p' (VCSServer ope0)) = inr client0
                 /\ Branches client0 (RepoFullName ope0) = inr branches0
                 /\ op' = set_Checkout_Branch
                            (default (Checkout_Branch ope0)
                               (default_branch branches0))
                            (set_Pattern WorkflowAsCodePattern ope0)).
  { intros p' op' [E|[]]. inversion E; subst p' op'.
    split; [reflexivity|]. split; [reflexivity|].
    exists ope, client, branches. now repeat split. }
  destruct (PostRepositoryOperation p op) as [e|ope'] eqn:Hpost;
    cbn [posted import_reply].
  - split; [exact Hposted | discriminate].
  - split; [exact Hposted|]. intros r Hr'. inversion Hr'; subst r.
    exists p, op, ope'. now repeat split.
Qed.

(** X26.  The handler pushes at most once, and only an operation that is
    read in the status [Done]: in any other status the reply is
    [ErrMethodNotAllowed] and nothing is pushed, granted or published.
    The push is made on the files of the operation with the options of
    the operation, in which the flag of the default branch tells whether
    the branch checked out is the default branch of the strategy; an
    event is published only with a reply without error. *)
Theorem postPerformImportAsCodeHandler_pushes key uuid :
  let h := postPerformImportAsCodeHandler key uuid in
  (forall x, In x (pushes h) ->
     exists proj ope tr,
       project_Load key = inr proj
       /\ GetRepositoryOperation (new_Operation uuid) = inr ope
       /\ op_Status ope = OperationStatusDone
       /\ ReadCDSFiles (Results (LoadFiles ope)) = inr tr
       /\ pushes h = [x]
       /\ x = (proj, tr, push_option ope)
       /\ Branch (opt_RepositoryStrategy (push_option ope)) = "{{.git.branch}}"
       /\ (IsDefaultBranch (push_option ope) = true <->
           opt_Branch (push_option ope)
           = DefaultBranch (opt_RepositoryStrategy (push_option ope))))
  /\ (forall proj ope,
        project_Load key = inr proj ->
        GetRepositoryOperation (new_Operation uuid) = inr ope ->
        op_Status ope <> OperationStatusDone ->
        h = Performed [] [] [] (Replies (inl ErrMethodNotAllowed)))
  /\ (forall k wf, In (k, wf) (added h) ->
        added h = [(k, wf)]
        /\ perform_reply h
           = Replies (inr ([ResponseWorkflowIDHeader (pretty (wf_ID wf));
                            ResponseWorkflowNameHeader (wf_Name wf)],
                           match pushes h with
                           | [(proj, tr, opt)] =>
                               match Push proj tr opt with
                               | inr (allMsg, _) => translate allMsg
                               | inl _ => []
                               end
                           | _ => []
                           end))).
Proof.
  intros h. subst h. unfold AsCode.postPerformImportAsCodeHandler.
  destruct (project_Load key) as [?|proj] eqn:Hl.
  { split; [intros ? []|]. split; [discriminate | intros ? ? []]. }
  destruct (GetRepositoryOperation (new_Operation uuid)) as [?|ope] eqn:Hg.
  { split; [intros ? []|]. split; [discriminate | intros ? ? []]. }
  destruct (op_Status ope) eqn:Hs;
    try (split; [intros ? []|]; split; [|intros ? ? []];
         intros ? ? _ _ _; reflexivity).
  destruct (ReadCDSFiles (Results (LoadFiles ope))) as [?|tr] eqn:Hr.
  { split; [intros ? []|]. split; [|intros ? ? []].
    intros ? ope' _ E. inversion E; subst ope'. congruence. }
  assert (Hopt : Branch (opt_RepositoryStrategy (push_option ope))
                 = "{{.git.branch}}"
                 /\ (IsDefaultBranch (push_option ope) = true <->
                     opt_Branch (push_option ope)
                     = DefaultBranch
                         (opt_RepositoryStrategy (push_option ope)))).
  { split; [reflexivity|]. simpl. apply String.eqb_eq. }
  assert (Hpush : forall y,
             In y [(proj, tr, push_option ope)] ->
             exists proj0 ope0 tr0,
               @inr error Project proj = inr proj0
               /\ @inr error Operation ope = inr ope0
               /\ op_Status ope0 = OperationStatusDone
               /\ ReadCDSFiles (Results (LoadFiles ope0)) = inr tr0
               /\ [(proj, tr, push_option ope)] = [y]
               /\ y = (proj0, tr0, push_option ope0)
               /\ Branch (opt_RepositoryStrategy (push_option ope0))
                  = "{{.git.branch}}"
               /\ (IsDefaultBranch (push_option ope0) = true <->
                   opt_Branch (push_option ope0)
                   = DefaultBranch
                       (opt_RepositoryStrategy (push_option ope0)))).
  { intros y [<-|[]]. exists proj, ope, tr.
    repeat (split; [reflexivity || assumption|]). exact (proj2 Hopt). }
  destruct (Push proj tr (push_option ope)) as [?|[allMsg [wf|]]] eqn:Hp;
    cbn [pushes added perform_reply].
  - split; [exact Hpush|].
    split; [|intros ? ? []].
    intros ? ope' _ E. inversion E; subst ope'. congruence.
  - split; [exact Hpush|].
    split; [intros ? ope' _ E; inversion E; subst ope'; congruence|].
    intros k wf' [E|[]]. inversion E; subst k wf'. now rewrite Hp.
  - split; [exact Hpush|].
    split; [|intros ? ? []].
    intros ? ope' _ E. inversion E; subst ope'. congruence.
Qed.

End Handlers.

(** X27.  The step that grants CDS the right to write in the repository
    has no part in the reply: whatever the repositories manager gives, the
    pushes, the events and the reply are the same, and the right is
    granted for the repository of the operation at most. *)
Theorem postPerformImportAsCodeHandler_grant
  (VCSServerConfig VCSServerConfig' Reader Message : Type)
  project_Load
  (GetProjectVCSServer : Project -> string -> VCSServerConfig)
  (GetProjectVCSServer' : Project -> string -> VCSServerConfig')
  AuthorizedClient AuthorizedClient'
  GetRepositoryOperation ReadCDSFiles Push translate key uuid :
  let h := postPerformImportAsCodeHandler VCSServerConfig Reader Message
             project_Load GetProjectVCSServer AuthorizedClient
             GetRepositoryOperation ReadCDSFiles Push translate key uuid in
  let h' := postPerformImportAsCodeHandler VCSServerConfig' Reader Message
              project_Load GetProjectVCSServer' AuthorizedClient'
              GetRepositoryOperation ReadCDSFiles Push translate key uuid in
  pushes h = pushes h' /\ added h = added h'
  /\ perform_reply h = perform_reply h'
  /\ forall repo, In repo (granted h) ->
       exists ope, GetRepositoryOperation (new_Operation uuid) = inr ope
                   /\ repo = RepoFullName ope
                   /\ pushes h <> []
                   /\ granted h = [repo].
Proof.
  intros h h'. subst h h'. unfold postPerformImportAsCodeHandler.
  destruct (project_Load key) as [?|proj]; [now repeat split|].
  destruct (GetRepositoryOperation (new_Operation uuid)) as [?|ope];
    [now repeat split|].
  destruct (op_Status ope); try (now repeat split).
  destruct (ReadCDSFiles (Results (LoadFiles ope))) as [?|tr];
    [now repeat split|].
  assert (Hg : forall repo,
             In repo (grant VCSServerConfig GetProjectVCSServer
                        AuthorizedClient proj ope) ->
             repo = RepoFullName ope
             /\ grant VCSServerConfig GetProjectVCSServer AuthorizedClient
                  proj ope = [repo]).
  { unfold grant. intros repo.
    destruct (AuthorizedClient _ _) as [?|client]; [intros []|].
    destruct (GrantWritePermission client (RepoFullName ope)); [intros []|].
    intros [<-|[]]. now split. }
  destruct (Push proj tr (push_option ope)) as [?|[allMsg [wf|]]];
    cbn [pushes added perform_reply granted];
    repeat (split; [reflexivity|]); try (now intros ? []);
    intros repo Hr; destruct (Hg repo Hr) as [-> E];
    exists ope; now repeat split.
Qed.

(** A request with the pattern of another tool. *)
Lemma postImportAsCodeHandler_validates_witness :
  Fixtures.demo_postImportAsCodeHandler
    (Fixtures.demo_ope "https://github.com/fsamin/go-repo.git" "**/*.yml")
  = Imported [] (Replies (inl (Known (Err ErrWrongRequest)))).
Proof.
  apply (postImportAsCodeHandler_validates ".cds/**/*.yml"
           Fixtures.demo_handler_Load (fun _ _ => tt)
           (fun _ _ => inr Fixtures.demo_client) (fun _ o => inr o) "KEY").
  right. split; discriminate.
Defined.

(** A request without pattern and without branch, on a repository whose
    default branch is [master]. *)
Lemma postImportAsCodeHandler_posts_witness :
  let h := Fixtures.demo_postImportAsCodeHandler
             (Fixtures.demo_ope "https://github.com/fsamin/go-repo.git" "") in
  posted h <> []
  /\ (forall p op, In (p, op) (posted h) ->
        Checkout_Branch op = "master"
        /\ Pattern (LoadFiles op) = ".cds/**/*.yml"
        /\ SSHKeyContent (op_RepositoryStrategy op) = "PRIVATE")
  /\ (forall r, import_reply h = Replies (inr r) ->
        SSHKeyContent (op_RepositoryStrategy r) = "").
Proof.
  intros h.
  destruct (postImportAsCodeHandler_posts ".cds/**/*.yml"
              Fixtures.demo_handler_Load (fun _ _ => tt)
              (fun _ _ => inr Fixtures.demo_client) (fun _ o => inr o)
              "KEY"
              (inr (Fixtures.demo_ope "https://github.com/fsamin/go-repo.git"
                      ""))) as [H1 H2].
  split; [discriminate|]. split.
  - intros p op Hin.
    destruct (H1 p op Hin)
      as (_ & _ & ope & client & branches & Hb & _ & Hc & Hbr & ->).
    inversion Hb; subst ope. inversion Hc; subst client.
    inversion Hbr; subst branches. now repeat split.
  - intros r Hr. destruct (H2 r Hr) as (_ & _ & _ & _ & _ & _ & E).
    exact E.
Defined.

(** The operation [ee3946ac], carried out on the default branch. *)
Lemma postPerformImportAsCodeHandler_pushes_witness :
  let h := Fixtures.demo_postPerformImportAsCodeHandler in
  pushes h <> []
  /\ (forall x, In x (pushes h) ->
        pushes h = [x]
        /\ exists ope, snd x = push_option ope
                       /\ op_Status ope = OperationStatusDone)
  /\ (forall k wf, In (k, wf) (added h) -> added h = [(k, wf)]).
Proof.
  intros h.
  destruct (postPerformImportAsCodeHandler_pushes
              Fixtures.demo_handler_Load (fun _ _ => tt)
              (fun _ _ => inr Fixtures.demo_client)
              (fun o => inr (Fixtures.demo_done (UUID o))) inr
              (fun _ _ _ => inr (["workflow pushed"],
                                 Some {| wf_ID := 12;
                                         wf_Name := "w-go-repo" |}))
              (fun m => m) "KEY" "ee3946ac") as (H1 & _ & H3).
  split; [discriminate|]. split.
  - intros x Hin.
    destruct (H1 x Hin) as (proj & ope & tr & _ & _ & Hs & _ & Hp & -> & _).
    split; [exact Hp|]. exists ope. now split.
  - intros k wf Hin. now destruct (H3 k wf Hin).
Defined.

End AsCodeFacts.

(** * Facts about the handlers that create and update a template *)
Module TemplateHandlersFacts.
Import TemplateHandlers.

Section Handlers.

Context (IsValid : sdk_WorkflowTemplate -> option error).
Context (DownloadTemplate : string -> error + list byte).
Context (workflowtemplate_ReadFromTar :
           list byte -> error + sdk_WorkflowTemplate).
Context (LoadGroup : string -> error + Z).
Context (LoadGroupByID : Z -> error + Z).
Context (CheckUserIsGroupAdmin : Z -> AuthentifiedUser -> option error).
Context (Execute : sdk_WorkflowTemplate -> option error).
Context (Insert : sdk_WorkflowTemplate -> error + sdk_WorkflowTemplate).
Context (Update : sdk_WorkflowTemplate -> error + sdk_WorkflowTemplate).
Context (LoadByID : Z -> error + sdk_WorkflowTemplate).
Context (WithAudits : sdk_WorkflowTemplate -> error + sdk_WorkflowTemplate).
Context (LoadBySlugAndGroupID :
           string -> Z -> error + option sdk_WorkflowTemplate).
Context (clone_Update :
           sdk_WorkflowTemplate -> sdk_WorkflowTemplate ->
           sdk_WorkflowTemplate).

Local Abbreviation resolve :=
  (TemplateHandlers.resolve IsValid DownloadTemplate
     workflowtemplate_ReadFromTar LoadGroup LoadGroupByID).
Local Abbreviation reload := (TemplateHandlers.reload LoadByID WithAudits).
Local Abbreviation postTemplateHandler :=
  (TemplateHandlers.postTemplateHandler IsValid DownloadTemplate
     workflowtemplate_ReadFromTar LoadGroup LoadGroupByID
     CheckUserIsGroupAdmin Execute Insert LoadByID WithAudits).
Local Abbreviation putTemplateHandler :=
  (TemplateHandlers.putTemplateHandler IsValid DownloadTemplate
     workflowtemplate_ReadFromTar LoadGroup LoadGroupByID Execute Update
     LoadByID WithAudits LoadBySlugAndGroupID clone_Update).

Local Abbreviation resolved :=
  (TemplateHandlers.resolved IsValid DownloadTemplate
     workflowtemplate_ReadFromTar LoadGroup LoadGroupByID).

Lemma resolve_resolved data d grp :
  resolve data = inr (d, grp) -> resolved data d grp.
Proof.
  unfold TemplateHandlers.resolve, TemplateHandlers.resolved.
  destruct (String.eqb (ImportURL data) "") eqn:E; cbn [negb].
  - apply String.eqb_eq in E.
    destruct (LoadGroupByID (GroupID data)) as [?|g]; [discriminate|].
    intros H. inversion H; subst. left. now repeat split.
  - apply String.eqb_neq in E.
    destruct (DownloadTemplate (ImportURL data)) as [?|buf]; [discriminate|].
    destruct (workflowtemplate_ReadFromTar buf) as [?|wt] eqn:Hr;
      [discriminate|].
    cbn zeta. cbn [Group set_ImportURL].
    destruct (Group wt) as [name|] eqn:Hn; [|discriminate].
    destruct (LoadGroup name) as [?|g] eqn:Hg; [discriminate|].
    destruct (IsValid _) eqn:Hv; [discriminate|].
    intros H. inversion H; subst. right. split; [exact E|].
    exists buf, wt, name. now repeat split.
Qed.

Lemma reload_spec ws id notice :
  writes (reload ws id notice) = ws
  /\ (forall e, In e (notices (reload ws id notice)) ->
        exists t, LoadByID id = inr t
                  /\ notices (reload ws id notice) = [notice t]
                  /\ e = notice t)
  /\ (forall r, answer (reload ws id notice) = inr r ->
        Editable r = true
        /\ exists t t', LoadByID id = inr t /\ WithAudits t = inr t'
                        /\ r = set_Editable true t'
                        /\ notices (reload ws id notice) = [notice t]).
Proof.
  unfold TemplateHandlers.reload.
  destruct (LoadByID id) as [?|t]; simpl.
  { split; [reflexivity|]. split; [intros ? []|discriminate]. }
  destruct (WithAudits t) as [?|t'] eqn:Hw; simpl.
  - split; [reflexivity|]. split; [|discriminate].
    intros ev [<-|[]]. exists t. now repeat split.
  - split; [reflexivity|]. split.
    + intros ev [<-|[]]. exists t. now repeat split.
    + intros r H. inversion H; subst. split; [reflexivity|].
      exists t, t'. now repeat split.
Qed.

(** X28.  A template the handler gives to [workflowtemplate.Insert] has
    the version 0, whatever the request or the archive says, and passed
    the check of the execution; it is the request, or with an import URL
    the template of the archive, under this URL and the group of its
    group name; the user passed the check of the administrators of the
    group.  At most one template is inserted; an event is published only
    for a template that was inserted and loaded again, and a reply
    without error is editable. *)
Theorem postTemplateHandler_inserts u body :
  let h := postTemplateHandler u body in
  (forall x, In x (writes h) ->
     writes h = [x]
     /\ tpl_Version x = 0%Z
     /\ Execute x = None
     /\ exists data d grp,
          body = inr data
          /\ IsValid data = None
          /\ resolved data d grp
          /\ CheckUserIsGroupAdmin grp u = None
          /\ x = set_Version 0 d)
  /\ (forall e, In e (notices h) ->
        exists x x' t,
          writes h = [x] /\ Insert x = inr x'
          /\ LoadByID (tpl_ID x') = inr t
          /\ notices h = [WorkflowTemplateAdd t u])
  /\ (forall r, answer h = inr r ->
        Editable r = true /\ exists x, writes h = [x]).
Proof.
  intros h. subst h. unfold TemplateHandlers.postTemplateHandler.
  destruct body as [?|data];
    [split; [intros ? []|split; [intros ? []|discriminate]]|].
  destruct (IsValid data) eqn:Hv;
    [split; [intros ? []|split; [intros ? []|discriminate]]|].
  destruct (resolve data) as [?|[d grp]] eqn:Hr;
    [split; [intros ? []|split; [intros ? []|discriminate]]|].
  apply resolve_resolved in Hr. cbn zeta.
  destruct (CheckUserIsGroupAdmin grp u) eqn:Hc;
    [split; [intros ? []|split; [intros ? []|discriminate]]|].
  destruct (Execute (set_Version 0 d)) eqn:He;
    [split; [intros ? []|split; [intros ? []|discriminate]]|].
  assert (Hw : forall x, In x [set_Version 0 d] ->
             [set_Version 0 d] = [x]
             /\ tpl_Version x = 0%Z
             /\ Execute x = None
             /\ exists data0 d0 grp0,
                  @inr error sdk_WorkflowTemplate data = inr data0
                  /\ IsValid data0 = None
                  /\ resolved data0 d0 grp0
                  /\ CheckUserIsGroupAdmin grp0 u = None
                  /\ x = set_Version 0 d0).
  { intros x [<-|[]]. split; [reflexivity|]. split; [reflexivity|].
    split; [exact He|]. exists data, d, grp. now repeat split. }
  destruct (Insert (set_Version 0 d)) as [?|x'] eqn:Hi.
  { split; [exact Hw|]. split; [intros ? []|discriminate]. }
  destruct (reload_spec [set_Version 0 d] (tpl_ID x')
              (fun t => WorkflowTemplateAdd t u)) as (H1 & H2 & H3).
  rewrite H1. split; [exact Hw|]. split.
  - intros e Hin. destruct (H2 e Hin) as (t & Hl & Hn & _).
    exists (set_Version 0 d), x', t. now repeat split.
  - intros r Hans. destruct (H3 r Hans) as [Hed _].
    split; [exact Hed|]. now eexists.
Qed.

(** X29.  A template the handler gives to [workflowtemplate.Update] is
    the template found under the group and the slug of the route, with
    the fields of the data the request resolves to, and passed the check
    of the execution.  At most one template is updated; the event of the
    update holds the template found, the template loaded after the update
    and the change message of the resolved data: with an import URL, the
    message of the archive and not the one of the request. *)
Theorem putTemplateHandler_updates u groupName templateSlug body :
  let h := putTemplateHandler u groupName templateSlug body in
  (forall x, In x (writes h) ->
     writes h = [x]
     /\ Execute x = None
     /\ exists g old data d grp,
          LoadGroup groupName = inr g
          /\ LoadBySlugAndGroupID templateSlug g = inr (Some old)
          /\ body = inr data
          /\ IsValid data = None
          /\ resolved data d grp
          /\ x = clone_Update old d)
  /\ (forall e, In e (notices h) ->
        exists g old data d grp x x' t,
          LoadGroup groupName = inr g
          /\ LoadBySlugAndGroupID templateSlug g = inr (Some old)
          /\ body = inr data
          /\ resolved data d grp
          /\ writes h = [x] /\ Update x = inr x'
          /\ LoadByID (tpl_ID x') = inr t
          /\ notices h = [WorkflowTemplateUpdate old t (ChangeMessage d) u]
          /\ (forall buf wt,
                ImportURL data <> "" ->
                DownloadTemplate (ImportURL data) = inr buf ->
                workflowtemplate_ReadFromTar buf = inr wt ->
                ChangeMessage d = ChangeMessage wt))
  /\ (forall r, answer h = inr r ->
        Editable r = true /\ exists x, writes h = [x]).
Proof.
  intros h. subst h. unfold TemplateHandlers.putTemplateHandler.
  destruct (LoadGroup groupName) as [?|g] eqn:Hg;
    [split; [intros ? []|split; [intros ? []|discriminate]]|].
  destruct (LoadBySlugAndGroupID templateSlug g) as [?|[old|]] eqn:Ho;
    [split; [intros ? []|split; [intros ? []|discriminate]]|
    |split; [intros ? []|split; [intros ? []|discriminate]]].
  destruct body as [?|data];
    [split; [intros ? []|split; [intros ? []|discriminate]]|].
  destruct (IsValid data) eqn:Hv;
    [split; [intros ? []|split; [intros ? []|discriminate]]|].
  destruct (resolve data) as [?|[d grp]] eqn:Hr;
    [split; [intros ? []|split; [intros ? []|discriminate]]|].
  apply resolve_resolved in Hr. cbn zeta.
  destruct (Execute (clone_Update old d)) eqn:He;
    [split; [intros ? []|split; [intros ? []|discriminate]]|].
  assert (Hw : forall x, In x [clone_Update old d] ->
             [clone_Update old d] = [x]
             /\ Execute x = None
             /\ exists g0 old0 data0 d0 grp0,
                  @inr error Z g = inr g0
                  /\ LoadBySlugAndGroupID templateSlug g0 = inr (Some old0)
                  /\ @inr error sdk_WorkflowTemplate data = inr data0
                  /\ IsValid data0 = None
                  /\ resolved data0 d0 grp0
                  /\ x = clone_Update old0 d0).
  { intros x [<-|[]]. split; [reflexivity|]. split; [exact He|].
    exists g, old, data, d, grp. now repeat split. }
  destruct (Update (clone_Update old d)) as [?|x'] eqn:Hu.
  { split; [exact Hw|]. split; [intros ? []|discriminate]. }
  destruct (reload_spec [clone_Update old d] (tpl_ID x')
              (fun t => WorkflowTemplateUpdate old t (ChangeMessage d) u))
    as (H1 & H2 & H3).
  rewrite H1. split; [exact Hw|]. split.
  - intros e Hin. destruct (H2 e Hin) as (t & Hl & Hn & _).
    exists g, old, data, d, grp, (clone_Update old d), x', t.
    repeat (split; [assumption || reflexivity|]).
    intros buf wt Hne Hd Hrd.
    destruct Hr as [(E & _)|(_ & buf' & wt' & name & Hd' & Hrd' & _ & _ & -> & _)];
      [contradiction|].
    rewrite Hd in Hd'. inversion Hd'; subst buf'.
    rewrite Hrd in Hrd'. inversion Hrd'; subst wt'. reflexivity.
  - intros r Hans. destruct (H3 r Hans) as [Hed _].
    split; [exact Hed|]. now eexists.
Qed.

End Handlers.

(** A request that asks for the version 9. *)
Lemma postTemplateHandler_inserts_witness :
  let h := Fixtures.demo_postTemplateHandler
             (Fixtures.demo_template "" "first" 9) in
  writes h <> []
  /\ (forall x, In x (writes h) -> writes h = [x] /\ tpl_Version x = 0%Z)
  /\ (forall r, answer h = inr r -> Editable r = true).
Proof.
  intros h.
  destruct (postTemplateHandler_inserts
              (fun _ => None) (fun _ => inr [])
              (fun _ => inr (Fixtures.demo_template "" "from the archive" 4))
              Fixtures.demo_LoadGroup inr (fun _ _ => None) (fun _ => None)
              inr (fun _ => inr (Fixtures.demo_template "" "" 0)) inr
              Fixtures.demo_u (inr (Fixtures.demo_template "" "first" 9)))
    as (H1 & _ & H3).
  split; [discriminate|]. split.
  - intros x Hin. destruct (H1 x Hin) as (Hw & Hv & _). now split.
  - intros r Hr. now destruct (H3 r Hr).
Defined.

(** A request with an import URL and a change message of its own. *)
Lemma putTemplateHandler_updates_witness :
  let h := Fixtures.demo_putTemplateHandler
             (Fixtures.demo_template "https://example.org/t.tar"
                "from the request" 4) in
  notices h <> []
  /\ (forall e, In e (notices h) ->
        exists old t,
          e = WorkflowTemplateUpdate old t "from the archive" Fixtures.demo_u).
Proof.
  intros h.
  destruct (putTemplateHandler_updates
              (fun _ => None) (fun _ => inr [])
              (fun _ => inr (Fixtures.demo_template "" "from the archive" 4))
              Fixtures.demo_LoadGroup inr (fun _ => None) inr
              (fun _ => inr (Fixtures.demo_template "" "" 5)) inr
              (fun _ _ => inr (Some (Fixtures.demo_template "" "" 4)))
              (fun old data => set_Version 5 data) Fixtures.demo_u
              "grp" "tpl"
              (inr (Fixtures.demo_template "https://example.org/t.tar"
                      "from the request" 4)))
    as (_ & H2 & _).
  split; [discriminate|].
  intros e Hin.
  destruct (H2 e Hin)
    as (g & old & data & d & grp & x & x' & t & _ & _ & Hb & _ & _ & _ & _
        & Hn & Hmsg).
  inversion Hb; subst data.
  rewrite (Hmsg [] (Fixtures.demo_template "" "from the archive" 4)) in Hn;
    [|discriminate|reflexivity|reflexivity].
  exists old, t. subst h. unfold Fixtures.demo_putTemplateHandler in Hin.
  rewrite Hn in Hin. destruct Hin as [<-|[]]. reflexivity.
Defined.

End TemplateHandlersFacts.

(** * Facts about [postTemplatePushHandler] *)
Module PushHandlerFacts.
Import Archive TemplateHandlers PushHandler.

Section Handler.

Context {Descriptor Message : Type}.
Context (zero_Descriptor : Descriptor).
Context (yaml_Unmarshal :
           list byte -> Descriptor -> Descriptor * option string).
Context (GetTemplate :
           Descriptor -> list byte -> list (list byte) -> list (list byte) ->
           list (list byte) -> sdk_WorkflowTemplate).
Context (LoadGroup : string -> error + Z).
Context (isGroupAdmin : Z -> bool).
Context (isAdmin : bool).
Context (IsValid : sdk_WorkflowTemplate -> option error).
Context (Push :
           list tar_step -> error + (list Message * sdk_WorkflowTemplate)).
Context (translate : list Message -> list string).

Local Abbreviation scan_tar := (Archive.scan_tar Descriptor yaml_Unmarshal).
Local Abbreviation ReadFromTar :=
  (PushHandler.ReadFromTar Descriptor zero_Descriptor yaml_Unmarshal
     GetTemplate).
Local Abbreviation postTemplatePushHandler :=
  (PushHandler.postTemplatePushHandler Descriptor zero_Descriptor
     yaml_Unmarshal GetTemplate Message LoadGroup isGroupAdmin isAdmin
     IsValid Push translate).

(** A reader the loop went through without error is at its end. *)
Lemma scan_tar_drain tr s s' : scan_tar tr s = inr s' -> drain tr = [].
Proof.
  revert s. induction tr as [|[n b|e|n e] tr IH]; intros s; simpl;
    [reflexivity | apply IH | discriminate | discriminate].
Qed.

Lemma ReadFromTar_drain tr wt : ReadFromTar tr = inr wt -> drain tr = [].
Proof.
  unfold PushHandler.ReadFromTar, Archive.ReadFromTar.
  destruct (scan_tar tr _) as [?|s] eqn:E; [discriminate|].
  intros _. exact (scan_tar_drain _ _ _ E).
Qed.

(** An archive with two workflow files, the first of which is not
    empty. *)
Lemma ReadFromTar_two_workflows pre b1 mid b2 post :
  b1 <> [] ->
  exists errs,
    ReadFromTar (entries (pre ++ ("workflow.yml", b1) :: mid
                          ++ ("workflow.yml", b2) :: post))
    = inl (WorkflowInvalid errs)
    /\ In TwoWorkflowFiles errs.
Proof.
  intros Hb. unfold PushHandler.ReadFromTar.
  rewrite ArchiveFacts.ReadFromTar_entries, ArchiveFacts.read_all_app,
    ArchiveFacts.read_all_cons, ArchiveFacts.read_all_app,
    ArchiveFacts.read_all_cons.
  set (s1 := Archive.read_all Descriptor yaml_Unmarshal pre _).
  assert (H2 : Archive.wkf Descriptor
                 (Archive.read_all Descriptor yaml_Unmarshal mid
                    (Archive.read_entry Descriptor yaml_Unmarshal
                       "workflow.yml" b1 s1)) <> []).
  { apply ArchiveFacts.read_all_wkf. rewrite ArchiveFacts.read_entry_workflow.
    destruct (negb (Nat.eqb (length (Archive.wkf Descriptor s1)) 0)) eqn:E;
      simpl; auto.
    destruct (Archive.wkf Descriptor s1); [discriminate | congruence]. }
  set (s2 := Archive.read_all Descriptor yaml_Unmarshal mid _) in *.
  assert (H3 : In TwoWorkflowFiles
                 (Archive.mError Descriptor
                    (Archive.read_all Descriptor yaml_Unmarshal post
                       (Archive.read_entry Descriptor yaml_Unmarshal
                          "workflow.yml" b2 s2)))).
  { apply ArchiveFacts.read_all_keeps.
    rewrite ArchiveFacts.read_entry_workflow.
    rewrite (ArchiveFacts.nonempty_length _ H2). simpl.
    apply in_or_app. right. now left. }
  eexists. split; [eapply ArchiveFacts.assemble_error; exact H3 | exact H3].
Qed.

(** X30.  The handler gives [workflowtemplate.Push] the reader
    [ReadFromTar] went through: at most once, after the archive was decoded
    without error and the group, the rights of the user and the validity
    of the template were checked, and with nothing left to read in it.  A
    reply without error holds the messages and the template
    [workflowtemplate.Push] gives for this reader at its end.  An error of
    [ReadFromTar] is the reply and nothing is pushed; so it is for an
    archive with two workflow files. *)
Theorem postTemplatePushHandler_reader body :
  let h := postTemplatePushHandler body in
  (forall r, In r (readers h) ->
     r = [] /\ readers h = [[]]
     /\ exists tr wt name grp,
          body = inr tr
          /\ ReadFromTar tr = inr wt
          /\ Group wt = Some name
          /\ LoadGroup name = inr grp
          /\ (isGroupAdmin grp = true \/ isAdmin = true)
          /\ IsValid (set_GroupID grp wt) = None)
  /\ (forall hd ms, result h = Replies (inr (hd, ms)) ->
        readers h = [[]]
        /\ exists msgs wt' n,
             Push [] = inr (msgs, wt')
             /\ Group wt' = Some n
             /\ hd = [ResponseTemplateGroupNameHeader n;
                      ResponseTemplateSlugHeader (tpl_Slug wt')]
             /\ ms = translate msgs)
  /\ (forall tr e, body = inr tr -> ReadFromTar tr = inl e ->
        h = Pushed [] (Replies (inl (Decode e))))
  /\ (forall pre b1 mid b2 post,
        b1 <> [] ->
        body = inr (entries (pre ++ ("workflow.yml", b1) :: mid
                             ++ ("workflow.yml", b2) :: post)) ->
        exists errs,
          h = Pushed [] (Replies (inl (Decode (WorkflowInvalid errs))))
          /\ In TwoWorkflowFiles errs).
Proof.
  intros h. subst h.
  assert (Herr : forall tr e, body = inr tr -> ReadFromTar tr = inl e ->
                   postTemplatePushHandler body
                   = Pushed [] (Replies (inl (Decode e)))).
  { intros tr e -> He. unfold PushHandler.postTemplatePushHandler.
    now rewrite He. }
  split; [|split; [|split; [exact Herr|]]].
  - unfold PushHandler.postTemplatePushHandler.
    destruct body as [?|tr]; [intros ? []|].
    destruct (ReadFromTar tr) as [?|wt] eqn:Hr; [intros ? []|].
    pose proof (ReadFromTar_drain tr wt Hr) as Hd.
    destruct (Group wt) as [name|] eqn:Hn; [|intros ? []].
    destruct (LoadGroup name) as [?|grp] eqn:Hg; [intros ? []|].
    cbn zeta.
    destruct (negb (isGroupAdmin grp) && negb isAdmin) eqn:Ha;
      [intros ? []|].
    destruct (IsValid (set_GroupID grp wt)) eqn:Hv; [intros ? []|].
    assert (Hadm : isGroupAdmin grp = true \/ isAdmin = true).
    { destruct (isGroupAdmin grp); [now left|]. destruct isAdmin;
        [now right | discriminate]. }
    rewrite Hd.
    assert (Hin : forall r, In r [@nil tar_step] ->
              r = [] /\ [@nil tar_step] = [[]]
              /\ exists tr0 wt0 name0 grp0,
                   @inr string (list tar_step) tr = inr tr0
                   /\ ReadFromTar tr0 = inr wt0
                   /\ Group wt0 = Some name0
                   /\ LoadGroup name0 = inr grp0
                   /\ (isGroupAdmin grp0 = true \/ isAdmin = true)
                   /\ IsValid (set_GroupID grp0 wt0) = None).
    { intros r [<-|[]]. split; [reflexivity|]. split; [reflexivity|].
      exists tr, wt, name, grp. now repeat split. }
    destruct (Push []) as [?|[msgs wt']]; [exact Hin|].
    destruct (Group wt'); exact Hin.
  - unfold PushHandler.postTemplatePushHandler.
    destruct body as [?|tr]; [discriminate|].
    destruct (ReadFromTar tr) as [?|wt] eqn:Hr; [discriminate|].
    rewrite (ReadFromTar_drain tr wt Hr).
    destruct (Group wt) as [name|]; [|discriminate].
    destruct (LoadGroup name) as [?|grp]; [discriminate|].
    cbn zeta.
    destruct (negb (isGroupAdmin grp) && negb isAdmin); [discriminate|].
    destruct (IsValid (set_GroupID grp wt)); [discriminate|].
    destruct (Push []) as [?|[msgs wt']] eqn:Hp; [discriminate|].
    destruct (Group wt') as [n|] eqn:Hn; [|discriminate].
    intros hd ms H. inversion H; subst hd ms.
    split; [reflexivity|]. exists msgs, wt', n. now repeat split.
  - intros pre b1 mid b2 post Hb Hbody.
    destruct (ReadFromTar_two_workflows pre b1 mid b2 post Hb)
      as (errs & He & Hin).
    exists errs. split; [now apply (Herr _ _ Hbody) | exact Hin].
Qed.

End Handler.

(** An archive with a descriptor and a workflow, pushed with a reply, and
    the same archive with a second workflow. *)
Lemma postTemplatePushHandler_reader_witness :
  let one := [("tpl.yml", bytes_of "slug: grp");
              ("workflow.yml", bytes_of "name: w")] in
  let two := one ++ [("workflow.yml", bytes_of "name: v")] in
  Fixtures.demo_postTemplatePushHandler (entries one)
  = Pushed [[]]
      (Replies (inr ([ResponseTemplateGroupNameHeader "grp";
                      ResponseTemplateSlugHeader "tpl"],
                     ["0 files read"])))
  /\ exists errs,
       Fixtures.demo_postTemplatePushHandler (entries two)
       = Pushed [] (Replies (inl (Decode (WorkflowInvalid errs)))).
Proof.
  intros one two.
  pose proof (fun body =>
                postTemplatePushHandler_reader
                  "" Fixtures.demo_Unmarshal_Template
                  Fixtures.demo_GetTemplate_group Fixtures.demo_LoadGroup
                  (fun _ => true) false (fun _ => None)
                  Fixtures.demo_Push_template
                  (fun m => m) (inr (entries body))) as H.
  split.
  - destruct (Fixtures.demo_postTemplatePushHandler (entries one))
      as [rs [[e|[hd ms]]|]] eqn:E; try (vm_compute in E; discriminate E).
    assert (Hres : PushHandler.result
                     (Fixtures.demo_postTemplatePushHandler (entries one))
                   = Replies (inr (hd, ms))) by now rewrite E.
    destruct (proj1 (proj2 (H one)) hd ms Hres)
      as (Hrs & msgs & wt' & n & Hp & Hn & -> & ->).
    injection Hp as <- <-. injection Hn as <-.
    assert (Er : rs = PushHandler.readers
                        (Fixtures.demo_postTemplatePushHandler (entries one)))
      by now rewrite E.
    rewrite Er. unfold Fixtures.demo_postTemplatePushHandler. rewrite Hrs.
    reflexivity.
  - destruct (proj2 (proj2 (proj2 (H two)))
                [("tpl.yml", bytes_of "slug: grp")] (bytes_of "name: w") []
                (bytes_of "name: v") []) as (errs & E & _);
      [discriminate | reflexivity |].
    exists errs. exact E.
Defined.

End PushHandlerFacts.
